(** * The BrowserStack report generator
    (tools/browserstack-report/generate-browserstack-report.ts)

    A shallow embedding of the report engine: configuration resolution and
    validation, the three pagination loops over the remote sources, the
    flattening of the test-run hierarchy, the row filters, the column
    projection and the delimited-text writer; then the order of the rows,
    the overview, the Markdown table, the command line, the discovery and
    the listings of the device-automation source, and the run as a whole.

    Conventions of the embedding.
    - A JavaScript string is a [string] of bytes; [trim] and [toLowerCase]
      act on the ASCII range: on a text of ASCII characters they are those
      of JavaScript.
    - A JavaScript number is a [jsnum]: an integer value, NaN or one of the
      two infinities.  Fractions are outside the model.
    - A JSON payload or a row cell is a [jsval]; an object is the list of its
      own properties in insertion order (for keys that are no integer
      indices and not [__proto__], as the keys of the rows, this is the
      order of [Object.keys]); what an object inherits and the properties
      of a text are read as [undefined].
    - [Date.now()], the parsing of a date text and its ISO rendering belong
      to the platform and are parameters of the sections that use them.
    - Every [await fetchJson(...)] is a call on a remote, a state machine
      that answers a request with a payload or with a failure; the requests
      issued are kept in a log.  A [while] loop takes a bound on the number
      of its iterations and says when the bound was too small.
    - The progress display writes to the terminal only and is left out. *)

From Stdlib Require Import ZArith List String Ascii Bool Lia DecimalString.
From stdpp Require Import base option list strings gmap.

Set Warnings "-register-all".
Local Open Scope Z_scope.
Local Open Scope string_scope.

(** ** JavaScript values *)

Module Js.

Inductive jsnum : Type :=
| NFin (z : Z)
| NNaN
| NPosInf
| NNegInf.

Inductive jsval : Type :=
| JUndefined
| JNull
| JBool (b : bool)
| JNum (n : jsnum)
| JStr (s : string)
| JArr (items : list jsval)
| JObj (props : list (string * jsval)).

Definition jsnum_eqb (a b : jsnum) : bool :=
  match a, b with
  | NFin x, NFin y => Z.eqb x y
  | NPosInf, NPosInf => true
  | NNegInf, NNegInf => true
  | _, _ => false
  end.

(** [Number.isFinite] *)
Definition isFinite (n : jsnum) : bool :=
  match n with NFin _ => true | _ => false end.

(** [a <= b] on numbers; every comparison with NaN is false. *)
Definition num_leb (a b : jsnum) : bool :=
  match a, b with
  | NNaN, _ | _, NNaN => false
  | NNegInf, _ => true
  | _, NPosInf => true
  | NFin x, NFin y => Z.leb x y
  | _, _ => false
  end.

(** [a * k] for a positive integer constant [k]. *)
Definition num_scale (a : jsnum) (k : Z) : jsnum :=
  match a with
  | NFin x => NFin (x * k)
  | other => other
  end.

(** [t - a] for a finite [t]. *)
Definition num_rsub (t : Z) (a : jsnum) : jsnum :=
  match a with
  | NFin x => NFin (t - x)
  | NNaN => NNaN
  | NPosInf => NNegInf
  | NNegInf => NPosInf
  end.

(** The truth value of a number: [0] and [NaN] are falsy. *)
Definition num_truthy (n : jsnum) : bool :=
  match n with
  | NFin z => negb (Z.eqb z 0)
  | NNaN => false
  | _ => true
  end.

Definition is_nullish (v : jsval) : bool :=
  match v with JUndefined | JNull => true | _ => false end.

(** [v ?? d] *)
Definition nullish_or (v d : jsval) : jsval :=
  if is_nullish v then d else v.

(** [Boolean(v)] *)
Definition truthy (v : jsval) : bool :=
  match v with
  | JUndefined | JNull => false
  | JBool b => b
  | JNum n => num_truthy n
  | JStr s => negb (String.eqb s "")
  | JArr _ | JObj _ => true
  end.

(** *** Strings *)

Definition string_of_Z (z : Z) : string :=
  NilZero.string_of_int (Z.to_int z).

Definition string_of_num (n : jsnum) : string :=
  match n with
  | NFin z => string_of_Z z
  | NNaN => "NaN"
  | NPosInf => "Infinity"
  | NNegInf => "-Infinity"
  end.

Fixpoint join (sep : string) (parts : list string) : string :=
  match parts with
  | [] => ""
  | [p] => p
  | p :: rest => p ++ sep ++ join sep rest
  end.

(** [String(v)] *)
Fixpoint String_ (v : jsval) : string :=
  match v with
  | JUndefined => "undefined"
  | JNull => "null"
  | JBool true => "true"
  | JBool false => "false"
  | JNum n => string_of_num n
  | JStr s => s
  | JArr items =>
      join "," (List.map (fun x => if is_nullish x then "" else String_ x) items)
  | JObj _ => "[object Object]"
  end.

Definition is_space (c : ascii) : bool :=
  match nat_of_ascii c with
  | 9%nat | 10%nat | 11%nat | 12%nat | 13%nat | 32%nat => true
  | _ => false
  end.

Fixpoint trimStart (s : string) : string :=
  match s with
  | String c rest => if is_space c then trimStart rest else s
  | EmptyString => EmptyString
  end.

Fixpoint trimEnd (s : string) : string :=
  match s with
  | EmptyString => EmptyString
  | String c rest =>
      match trimEnd rest with
      | EmptyString => if is_space c then EmptyString else String c EmptyString
      | kept => String c kept
      end
  end.

Definition trim (s : string) : string := trimEnd (trimStart s).

Definition lower (c : ascii) : ascii :=
  let n := nat_of_ascii c in
  if ((65 <=? n) && (n <=? 90))%nat then ascii_of_nat (n + 32) else c.

Fixpoint toLowerCase (s : string) : string :=
  match s with
  | EmptyString => EmptyString
  | String c rest => String (lower c) (toLowerCase rest)
  end.

(** [s.includes(needle)] *)
Fixpoint includes (s needle : string) : bool :=
  String.prefix needle s ||
  match s with
  | EmptyString => false
  | String _ rest => includes rest needle
  end.

(** [s.split(sep)] for a one-character separator. *)
Fixpoint split (sep : ascii) (s : string) : list string :=
  match s with
  | EmptyString => [EmptyString]
  | String c rest =>
      if Ascii.eqb c sep then EmptyString :: split sep rest
      else match split sep rest with
           | w :: ws => String c w :: ws
           | [] => [String c EmptyString]
           end
  end.

(** *** Objects *)

Definition prop_get (props : list (string * jsval)) (k : string) : jsval :=
  match List.find (fun kv => String.eqb (fst kv) k) props with
  | Some kv => snd kv
  | None => JUndefined
  end.

(** [obj[k] = v]: an existing property keeps its place, a new one comes
    last. *)
Fixpoint prop_set (props : list (string * jsval)) (k : string) (v : jsval)
  : list (string * jsval) :=
  match props with
  | [] => [(k, v)]
  | (k', v') :: rest =>
      if String.eqb k' k then (k, v) :: rest else (k', v') :: prop_set rest k v
  end.

(** [v[k]] where [v] is an object or an array. *)
Definition member (v : jsval) (k : string) : jsval :=
  match v with
  | JObj props => prop_get props k
  | JArr items =>
      if String.eqb k "length" then JNum (NFin (Z.of_nat (length items)))
      else match List.find
                   (fun iv => String.eqb (string_of_Z (Z.of_nat (fst iv))) k)
                   (imap (fun i x => (i, x)) items) with
           | Some iv => snd iv
           | None => JUndefined
           end
  | _ => JUndefined
  end.

Definition is_object (v : jsval) : bool :=
  match v with JArr _ | JObj _ => true | _ => false end.

End Js.
Export Js.

(** A row of a report section. *)
Definition Row : Type := list (string * jsval).

(** [getNested]: the walk along a dotted path. *)
Definition getNested (input : jsval) (key : string) : jsval :=
  fold_left
    (fun acc part => if is_object acc then member acc part else JUndefined)
    (split "." key) input.

(** [safeJoin] *)
Definition safeJoin (values : list jsval) (delimiter : string) : string :=
  join delimiter
    (List.filter (fun s => negb (String.eqb s ""))
       (List.map (fun v => trim (String_ v))
          (List.filter (fun v => negb (is_nullish v)) values))).

(** A property that may be missing ([undefined]), [null], or present. *)
Inductive opt (A : Type) : Type :=
| Undef
| Null
| Val (a : A).
Arguments Undef {A}.
Arguments Null {A}.
Arguments Val {A} a.

(** [o ?? d] *)
Definition coalesce {A} (o : opt A) (d : A) : A :=
  match o with Val a => a | _ => d end.

(** [o?.f]: the field [f] of [o], or [undefined] when [o] is nullish. *)
Definition chain {A B} (o : opt A) (f : A -> opt B) : opt B :=
  match o with Val a => f a | _ => Undef end.

Definition defined {A} (o : opt A) : Prop := o <> Undef.

(** ** Configuration *)

Module Config.

Record ColumnConfig : Type := {
  key : string;
  header : opt string;
  default : opt jsval;
}.

Inductive Format : Type := csv | xlsx | md | json.

(** *** The configuration document as it is read: every key may be missing *)

Record RawCredentials : Type := {
  raw_usernameEnv : opt string;
  raw_accessKeyEnv : opt string;
}.

Record RawDiscover : Type := {
  raw_enabled : opt bool;
  raw_maxBuildsPerSource : opt Z;
  raw_testReportingProjectIds : opt (list jsnum);
}.

Record RawInputs : Type := {
  raw_testReportingBuildIds : opt (list string);
  raw_appAutomateBuildIds : opt (list string);
  raw_appCustomIds : opt (list string);
  raw_discoverRecentBuilds : opt RawDiscover;
}.

Record RawTestReporting : Type := {
  raw_tr_enabled : opt bool;
  raw_fetchAllPages : opt bool;
  raw_includeHooks : opt bool;
  raw_testRunQuery : opt (list (string * string));
}.

Record RawAppAutomate : Type := {
  raw_aa_enabled : opt bool;
  raw_sessionLimit : opt Z;
  raw_includeSessionDetails : opt bool;
  raw_sessionStatusFilter : opt string;
  raw_appListLimit : opt Z;
}.

Record RawOutputs : Type := {
  raw_directory : opt string;
  raw_baseName : opt string;
  raw_formats : opt (list Format);
  raw_markdownMaxRows : opt Z;
}.

Record RawFilters : Type := {
  raw_days : opt jsnum;
  raw_projects : opt (list string);
  raw_teams : opt (list string);
  raw_people : opt (list string);
  raw_caseSensitive : opt bool;
  raw_applyDaysToApps : opt bool;
}.

Record RawColumns : Type := {
  raw_builds : opt (list ColumnConfig);
  raw_tests : opt (list ColumnConfig);
  raw_sessions : opt (list ColumnConfig);
  raw_apps : opt (list ColumnConfig);
  raw_overview : opt (list ColumnConfig);
}.

Record RawConfig : Type := {
  raw_credentials : opt RawCredentials;
  raw_inputs : opt RawInputs;
  raw_testReporting : opt RawTestReporting;
  raw_appAutomate : opt RawAppAutomate;
  raw_outputs : opt RawOutputs;
  raw_filters : opt RawFilters;
  raw_columns : opt RawColumns;
}.

(** *** [ReportConfig]: the keys marked [?] in the source stay optional *)

Record Credentials : Type := {
  usernameEnv : string;
  accessKeyEnv : string;
}.

Record Discover : Type := {
  enabled : opt bool;
  maxBuildsPerSource : opt Z;
  testReportingProjectIds : opt (list jsnum);
}.

Record Inputs : Type := {
  testReportingBuildIds : list string;
  appAutomateBuildIds : list string;
  appCustomIds : opt (list string);
  discoverRecentBuilds : opt Discover;
}.

Record TestReporting : Type := {
  tr_enabled : bool;
  fetchAllPages : bool;
  includeHooks : bool;
  testRunQuery : opt (list (string * string));
}.

Record AppAutomate : Type := {
  aa_enabled : bool;
  sessionLimit : Z;
  includeSessionDetails : bool;
  sessionStatusFilter : opt string;
  appListLimit : Z;
}.

Record Outputs : Type := {
  directory : string;
  baseName : string;
  formats : list Format;
  markdownMaxRows : Z;
}.

Record Filters : Type := {
  days : opt jsnum;
  projects : opt (list string);
  teams : opt (list string);
  people : opt (list string);
  caseSensitive : opt bool;
  applyDaysToApps : opt bool;
}.

Record Columns : Type := {
  builds : opt (list ColumnConfig);
  tests : opt (list ColumnConfig);
  sessions : opt (list ColumnConfig);
  apps : opt (list ColumnConfig);
  overview : opt (list ColumnConfig);
}.

Record ReportConfig : Type := {
  credentials : Credentials;
  inputs : Inputs;
  testReporting : TestReporting;
  appAutomate : AppAutomate;
  outputs : Outputs;
  filters : opt Filters;
  columns : opt Columns;
}.

(** [resolveConfig] *)
Definition resolveConfig (raw : RawConfig) : ReportConfig :=
  let discover := chain (raw_inputs raw) raw_discoverRecentBuilds in
  {| credentials := {|
       usernameEnv :=
         coalesce (chain (raw_credentials raw) raw_usernameEnv) "BROWSERSTACK_USERNAME";
       accessKeyEnv :=
         coalesce (chain (raw_credentials raw) raw_accessKeyEnv) "BROWSERSTACK_ACCESS_KEY";
     |};
     inputs := {|
       testReportingBuildIds :=
         coalesce (chain (raw_inputs raw) raw_testReportingBuildIds) [];
       appAutomateBuildIds :=
         coalesce (chain (raw_inputs raw) raw_appAutomateBuildIds) [];
       appCustomIds := Val (coalesce (chain (raw_inputs raw) raw_appCustomIds) []);
       discoverRecentBuilds := Val {|
         enabled := Val (coalesce (chain discover raw_enabled) true);
         maxBuildsPerSource := Val (coalesce (chain discover raw_maxBuildsPerSource) 20);
         testReportingProjectIds :=
           Val (coalesce (chain discover raw_testReportingProjectIds) []);
       |};
     |};
     testReporting := {|
       tr_enabled := coalesce (chain (raw_testReporting raw) raw_tr_enabled) true;
       fetchAllPages := coalesce (chain (raw_testReporting raw) raw_fetchAllPages) true;
       includeHooks := coalesce (chain (raw_testReporting raw) raw_includeHooks) false;
       testRunQuery := Val (coalesce (chain (raw_testReporting raw) raw_testRunQuery) []);
     |};
     appAutomate := {|
       aa_enabled := coalesce (chain (raw_appAutomate raw) raw_aa_enabled) true;
       sessionLimit := coalesce (chain (raw_appAutomate raw) raw_sessionLimit) 25;
       includeSessionDetails :=
         coalesce (chain (raw_appAutomate raw) raw_includeSessionDetails) true;
       sessionStatusFilter :=
         Val (coalesce (chain (raw_appAutomate raw) raw_sessionStatusFilter) "");
       appListLimit := coalesce (chain (raw_appAutomate raw) raw_appListLimit) 10;
     |};
     outputs := {|
       directory :=
         coalesce (chain (raw_outputs raw) raw_directory) "reports/browserstack-report";
       baseName := coalesce (chain (raw_outputs raw) raw_baseName) "browserstack-report";
       formats := coalesce (chain (raw_outputs raw) raw_formats) [csv; xlsx; md; json];
       markdownMaxRows := coalesce (chain (raw_outputs raw) raw_markdownMaxRows) 0;
     |};
     filters := Val {|
       days :=
         match chain (raw_filters raw) raw_days with
         | Val d => Val d
         | _ => Null
         end;
       projects := Val (coalesce (chain (raw_filters raw) raw_projects) []);
       teams := Val (coalesce (chain (raw_filters raw) raw_teams) []);
       people := Val (coalesce (chain (raw_filters raw) raw_people) []);
       caseSensitive := Val (coalesce (chain (raw_filters raw) raw_caseSensitive) false);
       applyDaysToApps :=
         Val (coalesce (chain (raw_filters raw) raw_applyDaysToApps) false);
     |};
     columns := Val {|
       overview := chain (raw_columns raw) raw_overview;
       builds := chain (raw_columns raw) raw_builds;
       tests := chain (raw_columns raw) raw_tests;
       sessions := chain (raw_columns raw) raw_sessions;
       apps := chain (raw_columns raw) raw_apps;
     |};
  |}.

(** A [ReportConfig] read again as a configuration document. *)
Definition asRaw (c : ReportConfig) : RawConfig :=
  {| raw_credentials := Val {|
       raw_usernameEnv := Val (usernameEnv (credentials c));
       raw_accessKeyEnv := Val (accessKeyEnv (credentials c));
     |};
     raw_inputs := Val {|
       raw_testReportingBuildIds := Val (testReportingBuildIds (inputs c));
       raw_appAutomateBuildIds := Val (appAutomateBuildIds (inputs c));
       raw_appCustomIds := appCustomIds (inputs c);
       raw_discoverRecentBuilds :=
         match discoverRecentBuilds (inputs c) with
         | Val d => Val {|
             raw_enabled := enabled d;
             raw_maxBuildsPerSource := maxBuildsPerSource d;
             raw_testReportingProjectIds := testReportingProjectIds d;
           |}
         | Null => Null
         | Undef => Undef
         end;
     |};
     raw_testReporting := Val {|
       raw_tr_enabled := Val (tr_enabled (testReporting c));
       raw_fetchAllPages := Val (fetchAllPages (testReporting c));
       raw_includeHooks := Val (includeHooks (testReporting c));
       raw_testRunQuery := testRunQuery (testReporting c);
     |};
     raw_appAutomate := Val {|
       raw_aa_enabled := Val (aa_enabled (appAutomate c));
       raw_sessionLimit := Val (sessionLimit (appAutomate c));
       raw_includeSessionDetails := Val (includeSessionDetails (appAutomate c));
       raw_sessionStatusFilter := sessionStatusFilter (appAutomate c);
       raw_appListLimit := Val (appListLimit (appAutomate c));
     |};
     raw_outputs := Val {|
       raw_directory := Val (directory (outputs c));
       raw_baseName := Val (baseName (outputs c));
       raw_formats := Val (formats (outputs c));
       raw_markdownMaxRows := Val (markdownMaxRows (outputs c));
     |};
     raw_filters :=
       match filters c with
       | Val f => Val {|
           raw_days := days f;
           raw_projects := projects f;
           raw_teams := teams f;
           raw_people := people f;
           raw_caseSensitive := caseSensitive f;
           raw_applyDaysToApps := applyDaysToApps f;
         |}
       | Null => Null
       | Undef => Undef
       end;
     raw_columns :=
       match columns c with
       | Val k => Val {|
           raw_builds := builds k;
           raw_tests := tests k;
           raw_sessions := sessions k;
           raw_apps := apps k;
           raw_overview := overview k;
         |}
       | Null => Null
       | Undef => Undef
       end;
  |}.

End Config.

(** ** Validation *)

Module Validation.
Import Config.

(** What a function that may [throw] does. *)
Inductive outcome : Type :=
| Returns
| Throws (message : string).

(** [isPlaceholderValue] *)
Definition isPlaceholderValue (value : string) : bool :=
  let normalized := toLowerCase (trim value) in
  Nat.eqb (String.length normalized) 0
  || includes normalized "replace-with"
  || includes normalized "optional-"
  || includes normalized "your-".

Definition canDiscover (config : ReportConfig) : bool :=
  match chain (discoverRecentBuilds (inputs config)) enabled with
  | Val b => b
  | _ => false
  end.

Definition when (b : bool) (lines : list string) : list string :=
  if b then lines else [].

(** The lines pushed on [errors] for the test-reporting source. *)
Definition testReportingErrors (config : ReportConfig) : list string :=
  when (tr_enabled (testReporting config))
    (let ids := testReportingBuildIds (inputs config) in
     let invalid := List.filter isPlaceholderValue ids in
     when (Nat.eqb (length ids) 0 && negb (canDiscover config))
       ["testReporting.enabled is true but inputs.testReportingBuildIds is empty."]
     ++
     when (Nat.ltb 0 (length invalid))
       [("testReportingBuildIds contains placeholder values: " ++ join ", " invalid)%string])%list.

(** The lines pushed on [errors] for the device-automation source. *)
Definition appAutomateErrors (config : ReportConfig) : list string :=
  when (aa_enabled (appAutomate config))
    (let ids := appAutomateBuildIds (inputs config) in
     let invalid := List.filter isPlaceholderValue ids in
     when (Nat.eqb (length ids) 0 && negb (canDiscover config))
       ["appAutomate.enabled is true but inputs.appAutomateBuildIds is empty."]
     ++
     when (Nat.ltb 0 (length invalid))
       [("appAutomateBuildIds contains placeholder values: " ++ join ", " invalid)%string])%list.

Definition newline : string := String "010" EmptyString.

Definition tip : string :=
  "Tip: provide real BrowserStack build IDs, or disable the corresponding section (testReporting.enabled/appAutomate.enabled).".

Definition daysInvalid (config : ReportConfig) : bool :=
  match chain (filters config) days with
  | Val d => negb (isFinite d) || num_leb d (NFin 0)
  | _ => false
  end.

(** [validateConfig] *)
Definition validateConfig (config : ReportConfig) : outcome :=
  let errors := (testReportingErrors config ++ appAutomateErrors config)%list in
  if Nat.ltb 0 (length errors) then
    Throws (join newline (["Invalid report configuration."] ++ errors ++ [tip])%list)
  else if daysInvalid config then
    Throws "Invalid filters.days. Use a positive number or null."
  else Returns.

End Validation.

(** ** The platform *)

Class Platform : Type := {
  (** [Date.now()] *)
  Date_now : Z;
  (** [new Date(text).getTime()]: NaN when the text is not a date. *)
  Date_getTime : string -> jsnum;
  (** [date.toISOString()] of a valid time value. *)
  Date_toISOString : Z -> string;
  (** [Number(text)] *)
  StringToNumber : string -> jsnum;
}.

Section Dates.
Context `{Platform}.

(** [toIsoOrEmpty] *)
Definition toIsoOrEmpty (rawValue : jsval) : string :=
  if negb (truthy rawValue) then ""
  else match Date_getTime (String_ rawValue) with
       | NFin t => Date_toISOString t
       | _ => ""
       end.

(** [Number(v)] *)
Definition Number_ (v : jsval) : jsnum :=
  match v with
  | JUndefined => NNaN
  | JNull => NFin 0
  | JBool b => NFin (if b then 1 else 0)
  | JNum n => n
  | JStr s => StringToNumber s
  | JArr _ | JObj _ => StringToNumber (String_ v)
  end.

Definition msPerDay : Z := 24 * 60 * 60 * 1000.

(** The finite time values found under [dateKeys] in [row]. *)
Definition rowTimestamps (row : Row) (dateKeys : list string) : list jsnum :=
  List.filter isFinite
    (List.map (fun value => Date_getTime (String_ value))
       (List.filter
          (fun value => negb (is_nullish value) && negb (String.eqb (String_ value) ""))
          (List.map (fun key => prop_get row key) dateKeys))).

(** [isWithinDays] *)
Definition isWithinDays (row : Row) (dateKeys : list string) (days : opt jsnum) : bool :=
  match days with
  | Val d =>
      if negb (num_truthy d) then true
      else
        let cutoff := num_rsub Date_now (num_scale d msPerDay) in
        let timestamps := rowTimestamps row dateKeys in
        if Nat.eqb (length timestamps) 0 then true
        else existsb (fun timestamp => num_leb cutoff timestamp) timestamps
  | _ => true
  end.

End Dates.

(** ** Flattening the test-run hierarchy *)

Module Hierarchy.

Inductive Node : Type :=
| mkNode (display_name : opt string) (type : opt string)
         (details : opt (list (string * jsval))) (children : opt (list Node)).

Definition node_display_name (n : Node) : opt string :=
  match n with mkNode d _ _ _ => d end.
Definition node_type (n : Node) : opt string :=
  match n with mkNode _ t _ _ => t end.
Definition node_details (n : Node) : opt (list (string * jsval)) :=
  match n with mkNode _ _ d _ => d end.
Definition node_children (n : Node) : list Node :=
  match n with mkNode _ _ _ (Val c) => c | _ => [] end.

Definition arrayOrEmpty (v : jsval) : list jsval :=
  match v with JArr items => items | _ => [] end.

Definition firstOr (items : list jsval) (d : jsval) : jsval :=
  nullish_or (List.hd JUndefined items) d.

Section Flatten.
Variables (buildId : string) (buildName buildNumber : jsval) (includeHooks : bool).

Definition qualifies (type displayName : string) : bool :=
  (String.eqb type "TEST" || (includeHooks && String.eqb type "HOOK"))
  && negb (String.eqb displayName "").

(** The row pushed for a qualifying node. *)
Definition testRow (rootDetails : list (string * jsval)) (rootDisplayName : string)
    (parentPath : list string) (type displayName : string)
    (details : list (string * jsval)) : Row :=
  let retries := arrayOrEmpty (prop_get details "retries") in
  let firstRetry := firstOr retries (JObj []) in
  let logs := nullish_or (member firstRetry "logs") (JObj []) in
  let failureLogs := arrayOrEmpty (member logs "TEST_FAILURE") in
  let field k := nullish_or (prop_get details k) (JStr "") in
  [ ("source_build_id", JStr buildId);
    ("source_build_name", buildName);
    ("source_build_number", buildNumber);
    ("root_scope", JStr rootDisplayName);
    ("scope_path", JStr (join " > " parentPath));
    ("test_type", JStr type);
    ("test_name", JStr displayName);
    ("test_status", field "status");
    ("test_duration_ms", field "duration");
    ("test_tags", JStr (safeJoin (arrayOrEmpty (prop_get details "tags")) ", "));
    ("retries_count", JNum (NFin (Z.of_nat (length retries))));
    ("run_count", field "run_count");
    ("is_flaky", field "is_flaky");
    ("is_always_failing", field "is_always_failing");
    ("is_new_failure", field "is_new_failure");
    ("is_performance_anomaly", field "is_performance_anomaly");
    ("is_muted", field "is_muted");
    ("observability_url", field "observability_url");
    ("first_failure_log", firstOr failureLogs (JStr ""));
    ("root_file_path", nullish_or (prop_get rootDetails "file_path") (JStr ""));
    ("root_os_name",
      nullish_or (getNested (prop_get rootDetails "os") "name") (JStr ""));
    ("root_os_version",
      nullish_or (getNested (prop_get rootDetails "os") "version") (JStr ""));
    ("root_browser_name",
      nullish_or (getNested (prop_get rootDetails "browser") "name") (JStr ""));
    ("root_browser_version",
      nullish_or (getNested (prop_get rootDetails "browser") "version") (JStr ""));
    ("root_device", nullish_or (prop_get rootDetails "device") (JStr ""));
    ("finished_at", nullish_or (prop_get rootDetails "finished_at") (JStr "")) ].

(** [walk]: the rows pushed by the visit of [node], in the order pushed. *)
Fixpoint walk (rootDetails : list (string * jsval)) (rootDisplayName : string)
    (node : Node) (parentPath : list string) {struct node} : list Row :=
  match node with
  | mkNode display_name type details children =>
      let type := coalesce type "" in
      let details := coalesce details [] in
      let displayName := coalesce display_name "" in
      let nextPath :=
        if negb (String.eqb displayName "") then (parentPath ++ [displayName])%list
        else parentPath in
      ((if qualifies type displayName
        then [testRow rootDetails rootDisplayName parentPath type displayName details]
        else [])
       ++
       match children with
       | Val children =>
           List.concat
             (List.map (fun child => walk rootDetails rootDisplayName child nextPath)
                children)
       | _ => []
       end)%list
  end.

(** [flattenTestHierarchy] *)
Definition flattenTestHierarchy (hierarchy : list Node) : list Row :=
  List.concat
    (List.map
       (fun rootNode =>
          walk (coalesce (node_details rootNode) [])
               (coalesce (node_display_name rootNode) "") rootNode [])
       hierarchy).

End Flatten.
End Hierarchy.

(** ** Small list helpers *)

(** [Array.from(new Set(values))]: the first occurrence of each value, in
    the order met. *)
Fixpoint distinct {A} (eqb : A -> A -> bool) (seen values : list A) : list A :=
  match values with
  | [] => []
  | v :: rest =>
      if existsb (eqb v) seen then distinct eqb seen rest
      else v :: distinct eqb (v :: seen) rest
  end.

(** [uniqueNumbers] *)
Definition uniqueNumbers (values : list jsnum) : list jsnum :=
  distinct jsnum_eqb [] (List.filter isFinite values).

(** [uniqueNonEmpty] *)
Definition uniqueNonEmpty (values : list string) : list string :=
  distinct String.eqb []
    (List.filter (fun value => Nat.ltb 0 (String.length value)) (List.map trim values)).

(** [obj[k] = v] on a string-valued record such as a query. *)
Fixpoint query_set (query : list (string * string)) (k v : string)
  : list (string * string) :=
  match query with
  | [] => [(k, v)]
  | (k', v') :: rest =>
      if String.eqb k' k then (k, v) :: rest else (k', v') :: query_set rest k v
  end.

(** [toQueryString]: the parameters that are written in the address, those
    with a non-empty value. *)
Definition toQueryString (query : list (string * string)) : list (string * string) :=
  List.filter (fun kv => negb (String.eqb (snd kv) "")) query.

(** ** The remote sources *)

Module Remote.
Import Hierarchy.

Record Pagination : Type := {
  has_next : opt bool;
  next_page : opt string;
}.

Record TestRunsResponse : Type := {
  name : opt string;
  build_name : opt string;
  build_number : opt jsnum;
  hierarchy : opt (list Node);
  pagination : opt Pagination;
}.

(** A GET request: the endpoint of [API] and the query it is sent with.  An
    empty [next_page] or [status] is a parameter left out of the address. *)
Inductive request : Type :=
| GetProjects (next_page : string)
| GetProjectBuilds (projectId : jsnum) (date_from : jsnum) (date_to : Z)
                   (limit : Z) (next_page : string)
| GetBuildDetails (buildId : string)
| GetBuildTests (buildId : string) (query : list (string * string))
| GetBuildSessions (buildId : string) (limit offset : Z) (status : string)
| GetSessionDetails (sessionId : string).

(** The type [T] of [fetchJson<T>] at each endpoint. *)
Definition response (r : request) : Type :=
  match r with
  | GetProjects _ | GetProjectBuilds _ _ _ _ _ => jsval
  | GetBuildDetails _ => list (string * jsval)
  | GetBuildTests _ _ => TestRunsResponse
  | GetBuildSessions _ _ _ _ => list (list (string * jsval))
  | GetSessionDetails _ => list (string * jsval)
  end.

(** What a run of the program can end with. *)
Inductive result (A : Type) : Type :=
| Ok (a : A)
| Threw (message : string)
| OutOfFuel.
Arguments Ok {A} a.
Arguments Threw {A} message.
Arguments OutOfFuel {A}.

Section Fetch.
(** The remote is a state machine; [None] is a failed request (a transport
    failure or a status outside 2xx). *)
Context {W : Type} (respond : W -> forall r : request, option (response r) * W).

Record World : Type := {
  remote : W;
  log : list request;
}.

Definition M (A : Type) : Type := World -> result A * World.

Definition ret {A} (a : A) : M A := fun w => (Ok a, w).

Definition bind {A B} (m : M A) (k : A -> M B) : M B :=
  fun w =>
    match m w with
    | (Ok a, w') => k a w'
    | (Threw e, w') => (Threw e, w')
    | (OutOfFuel, w') => (OutOfFuel, w')
    end.

(** [fetchJson] *)
Definition fetchJson (r : request) : M (response r) :=
  fun w =>
    let (answer, remote') := respond (remote w) r in
    let w' := {| remote := remote'; log := (log w ++ [r])%list |} in
    match answer with
    | Some payload => (Ok payload, w')
    | None => (Threw "Request failed", w')
    end.

(** [for (const x of xs) { acc = body(acc, x) }] *)
Fixpoint forEach {A S} (xs : list A) (body : S -> A -> M S) (acc : S) : M S :=
  match xs with
  | [] => ret acc
  | x :: rest => bind (body acc x) (forEach rest body)
  end.

End Fetch.
End Remote.

Notation "'do' x <- m ; k" := (Remote.bind m (fun x => k))
  (at level 10, x name, m at level 100, k at level 200).

(** ** Pagination over the test-reporting source *)

Module Paging.
Import Config Hierarchy Remote.

Definition maxProjectPages : Z := 200.
Definition maxBuildPagesPerProject : Z := 500.

Definition keepObjects (items : list jsval) : list jsval :=
  List.filter is_object items.

(** [extractObjectsFromUnknownPayload] *)
Definition extractObjectsFromUnknownPayload (payload : jsval) : list jsval :=
  match payload with
  | JArr items => keepObjects items
  | JObj root =>
      match List.find
              (fun key => match prop_get root key with JArr _ => true | _ => false end)
              ["builds"; "projects"; "items"; "data"; "results"] with
      | Some key => keepObjects (arrayOrEmpty (prop_get root key))
      | None => []
      end
  | _ => []
  end.

(** [payload?.k] *)
Definition opt_member (v : jsval) (k : string) : jsval :=
  if is_nullish v then JUndefined else member v k.

(** [a || b] on strings *)
Definition or_else (a b : string) : string :=
  if String.eqb a "" then b else a.

(** [getPagination] *)
Definition getPagination (payload : jsval) : bool * string :=
  let hasNext := truthy (getNested payload "pagination.has_next") in
  let nextPage :=
    or_else
      (String_ (nullish_or (getNested payload "pagination.next_page") (JStr "")))
      (String_ (nullish_or (opt_member payload "next_page") (JStr ""))) in
  (hasNext, nextPage).

Section Loops.
Context `{Platform}.
Context {W : Type} (respond : W -> forall r : request, option (response r) * W).

Local Abbreviation M := (@M W).

(** The identifiers read from one page of projects. *)
Definition pageProjectIds (records : list jsval) : list jsnum :=
  List.filter isFinite
    (List.map
       (fun project =>
          Number_ (nullish_or (member project "id") (member project "project_id")))
       records).

(** The [while] loop of [discoverTestReportingProjectIds]; [fuel] bounds
    its iterations. *)
Fixpoint projectPages (fuel : nat) (projectIds : list jsnum) (nextPage : string)
    (pageCount : Z) (seenNextPages : gset string) : M (list jsnum) :=
  match fuel with
  | O => fun w => (OutOfFuel, w)
  | S fuel =>
      fun w =>
        match fetchJson respond (GetProjects nextPage) w with
        | (Ok payload, w) =>
            let projectRecords := extractObjectsFromUnknownPayload payload in
            let pageCount := pageCount + 1 in
            let projectIds := (projectIds ++ pageProjectIds projectRecords)%list in
            let '(hasNext, paginationNext) := getPagination payload in
            let keepFetching :=
              hasNext
              && Nat.ltb 0 (String.length paginationNext)
              && negb (bool_decide (paginationNext ∈ seenNextPages))
              && Z.ltb pageCount maxProjectPages in
            if keepFetching
            then projectPages fuel projectIds paginationNext pageCount
                   ({[paginationNext]} ∪ seenNextPages) w
            else (Ok projectIds, w)
        | (_, w) => (Ok projectIds, w)
        end
  end.

(** [discoverTestReportingProjectIds] *)
Definition discoverTestReportingProjectIds (fuel : nat) : M (list jsnum) :=
  do projectIds <- projectPages fuel [] "" 0 ∅;
  ret (uniqueNumbers projectIds).

(** The identifiers read from one page of builds. *)
Definition pageBuildIds (records : list jsval) : list string :=
  List.filter (fun value => Nat.ltb 0 (String.length value))
    (List.map
       (fun record =>
          String_
            (nullish_or (member record "build_id")
               (nullish_or (member record "build_uuid")
                  (nullish_or (member record "id") (JStr "")))))
       records).

(** The [while] loop of [discoverTestReportingBuildIds] for one project. *)
Fixpoint buildPages (fuel : nat) (projectId : jsnum) (date_from : jsnum) (now : Z)
    (maxBuilds : Z) (discoveredIds : list string) (nextPage : string)
    (collectedForProject pageCount : Z) (seenNextPages : gset string)
  : M (list string) :=
  match fuel with
  | O => fun w => (OutOfFuel, w)
  | S fuel =>
      fun w =>
        match fetchJson respond
                (GetProjectBuilds projectId date_from now maxBuilds nextPage) w with
        | (Ok payload, w) =>
            let records := extractObjectsFromUnknownPayload payload in
            let pageCount := pageCount + 1 in
            let pageIds := pageBuildIds records in
            let discoveredIds := (discoveredIds ++ pageIds)%list in
            let collectedForProject :=
              collectedForProject + Z.of_nat (length pageIds) in
            let '(hasNext, paginationNext) := getPagination payload in
            let keepFetching :=
              hasNext
              && Nat.ltb 0 (String.length paginationNext)
              && negb (bool_decide (paginationNext ∈ seenNextPages))
              && Z.ltb collectedForProject maxBuilds
              && Z.ltb pageCount maxBuildPagesPerProject in
            if keepFetching
            then buildPages fuel projectId date_from now maxBuilds discoveredIds
                   paginationNext collectedForProject pageCount
                   ({[paginationNext]} ∪ seenNextPages) w
            else (Ok discoveredIds, w)
        | (_, w) => (Ok discoveredIds, w)
        end
  end.

(** The day window of the discovery: [config.filters?.days ?? 7]. *)
Definition discoveryDays (config : ReportConfig) : jsnum :=
  coalesce (chain (filters config) days) (NFin 7).

(** The start of the date range: [now - days * 24 * 60 * 60 * 1000]. *)
Definition discoveryFrom (config : ReportConfig) (now : Z) : jsnum :=
  num_rsub now (num_scale (discoveryDays config) msPerDay).

(** [discoverTestReportingBuildIds] *)
Definition discoverTestReportingBuildIds (fuel : nat) (config : ReportConfig)
  : M (list string) :=
  let maxBuilds :=
    Z.max 1 (coalesce (chain (discoverRecentBuilds (inputs config)) maxBuildsPerSource) 20) in
  let now := Date_now in
  let from := discoveryFrom config now in
  let configuredProjectIds :=
    coalesce (chain (discoverRecentBuilds (inputs config)) testReportingProjectIds) [] in
  do projectIds <-
    (let projectIds := uniqueNumbers configuredProjectIds in
     if Nat.eqb (length projectIds) 0
     then discoverTestReportingProjectIds fuel
     else ret projectIds);
  if Nat.eqb (length projectIds) 0 then ret []
  else
    do discoveredIds <-
      forEach projectIds
        (fun discoveredIds projectId =>
           buildPages fuel projectId from now maxBuilds discoveredIds "" 0 0 ∅)
        [];
    ret (uniqueNonEmpty discoveredIds).

End Loops.
End Paging.

(** ** The direct fetches *)

Module Fetching.
Import Config Hierarchy Remote Paging.

Section Fetches.
Context `{Platform}.
Context {W : Type} (respond : W -> forall r : request, option (response r) * W).

Local Abbreviation M := (@M W).

Definition orEmpty (v : jsval) : jsval := nullish_or v (JStr "").
Definition orZero (v : jsval) : jsval := nullish_or v (JNum (NFin 0)).

Definition opt_str (o : opt string) : jsval :=
  match o with Val s => JStr s | Null => JNull | Undef => JUndefined end.
Definition opt_num (o : opt jsnum) : jsval :=
  match o with Val n => JNum n | Null => JNull | Undef => JUndefined end.

(** The row pushed on [builds]. *)
Definition buildRow (buildId : string) (buildDetails : list (string * jsval)) : Row :=
  let get k := prop_get buildDetails k in
  [ ("source", JStr "test-reporting");
    ("build_id", JStr buildId);
    ("build_name", orEmpty (get "name"));
    ("original_build_name", orEmpty (get "original_name"));
    ("build_number", orEmpty (get "build_number"));
    ("build_status", orEmpty (get "status"));
    ("duration_ms", orEmpty (get "duration"));
    ("user", orEmpty (get "user"));
    ("tags", JStr (safeJoin (arrayOrEmpty (nullish_or (get "tags") (JArr []))) ", "));
    ("started_at", JStr (toIsoOrEmpty (get "started_at")));
    ("finished_at", JStr (toIsoOrEmpty (get "finished_at")));
    ("passed", orZero (opt_member (get "status_stats") "passed"));
    ("failed", orZero (opt_member (get "status_stats") "failed"));
    ("skipped", orZero (opt_member (get "status_stats") "skipped"));
    ("pending", orZero (opt_member (get "status_stats") "pending"));
    ("unknown", orZero (opt_member (get "status_stats") "unknown"));
    ("flaky_count", orZero (opt_member (get "smart_tags") "is_flaky"));
    ("always_failing_count", orZero (opt_member (get "smart_tags") "is_always_failing"));
    ("performance_anomaly_count",
      orZero (opt_member (get "smart_tags") "is_performance_anomaly"));
    ("new_failure_count", orZero (opt_member (get "smart_tags") "is_new_failure"));
    ("observability_url", orEmpty (get "observability_url"));
    ("tcm_test_run_identifier", orEmpty (get "tcmTestRunIdentifier")) ].

(** The rows that one page of test runs adds to [tests]. *)
Definition pageRows (config : ReportConfig) (buildId : string)
    (buildDetails : list (string * jsval)) (testRunsResponse : TestRunsResponse)
  : list Row :=
  let flattenedRows :=
    flattenTestHierarchy buildId
      (nullish_or (opt_str (build_name testRunsResponse))
         (orEmpty (prop_get buildDetails "name")))
      (nullish_or (opt_num (build_number testRunsResponse))
         (orEmpty (prop_get buildDetails "build_number")))
      (includeHooks (testReporting config))
      (coalesce (hierarchy testRunsResponse) []) in
  let buildStartedAt := toIsoOrEmpty (prop_get buildDetails "started_at") in
  let buildFinishedAt := toIsoOrEmpty (prop_get buildDetails "finished_at") in
  List.map
    (fun row =>
       prop_set (prop_set row "build_started_at" (JStr buildStartedAt))
         "build_finished_at" (JStr buildFinishedAt))
    flattenedRows.

(** [if (nextPage)] on the cursor of the previous page. *)
Definition cursor_set (nextPage : opt string) : bool :=
  match nextPage with Val s => negb (String.eqb s "") | _ => false end.

(** The [while] loop of [fetchTestReportingData] over the pages of the test
    runs of one build; [fuel] bounds its iterations. *)
Fixpoint testRunPages (fuel : nat) (config : ReportConfig) (buildId : string)
    (buildDetails : list (string * jsval)) (tests : list Row)
    (nextPage : opt string) (pageCount : Z) : M (list Row) :=
  match fuel with
  | O => fun w => (OutOfFuel, w)
  | S fuel =>
      let query := coalesce (testRunQuery (testReporting config)) [] in
      let query :=
        if cursor_set nextPage then query_set query "next_page" (coalesce nextPage "")
        else query in
      do testRunsResponse <- fetchJson respond (GetBuildTests buildId (toQueryString query));
      let pageCount := pageCount + 1 in
      let tests := (tests ++ pageRows config buildId buildDetails testRunsResponse)%list in
      let hasNext :=
        match chain (pagination testRunsResponse) has_next with
        | Val b => b
        | _ => false
        end in
      let nextPage := chain (pagination testRunsResponse) next_page in
      let keepFetching :=
        fetchAllPages (testReporting config) && hasNext && cursor_set nextPage in
      if keepFetching
      then testRunPages fuel config buildId buildDetails tests nextPage pageCount
      else ret tests
  end.

(** [fetchTestReportingData] *)
Definition fetchTestReportingData (fuel : nat) (config : ReportConfig)
  : M (list Row * list Row) :=
  if negb (tr_enabled (testReporting config))
     || Nat.eqb (length (testReportingBuildIds (inputs config))) 0
  then ret ([], [])
  else
    forEach (testReportingBuildIds (inputs config))
      (fun '(builds, tests) buildId =>
         do buildDetails <- fetchJson respond (GetBuildDetails buildId);
         let builds := (builds ++ [buildRow buildId buildDetails])%list in
         do tests <- testRunPages fuel config buildId buildDetails tests Undef 0;
         ret (builds, tests))
      ([], []).

(** The row built from the summary of a session. *)
Definition sessionRow (buildId : string) (session sessionId : jsval) : Row :=
  let get k := member session k in
  [ ("source", JStr "app-automate");
    ("build_id", JStr buildId);
    ("session_id", sessionId);
    ("session_name", orEmpty (get "name"));
    ("session_created_at", JStr (toIsoOrEmpty (get "created_at")));
    ("session_started_at", JStr (toIsoOrEmpty (get "started_at")));
    ("session_finished_at", JStr (toIsoOrEmpty (get "finished_at")));
    ("session_status", orEmpty (get "status"));
    ("session_duration_sec", orEmpty (get "duration"));
    ("os", orEmpty (get "os"));
    ("os_version", orEmpty (get "os_version"));
    ("device", orEmpty (get "device"));
    ("reason", orEmpty (get "reason"));
    ("build_name", orEmpty (get "build_name"));
    ("project_name", orEmpty (get "project_name"));
    ("logs_url", orEmpty (get "logs"));
    ("appium_logs_url", orEmpty (get "appium_logs_url"));
    ("video_url", orEmpty (get "video_url"));
    ("public_url", orEmpty (get "public_url")) ].

(** The overlay of the detail record of a session on its row. *)
Definition withDetails (baseRow : Row) (details : list (string * jsval)) : Row :=
  let appDetails :=
    nullish_or (opt_member (prop_get details "automation_session") "app_details")
      (JObj []) in
  let sessionDetails := nullish_or (prop_get details "automation_session") (JObj []) in
  let overlay k field row :=
    prop_set row k
      (JStr (or_else (toIsoOrEmpty (member sessionDetails field))
               (String_ (orEmpty (prop_get row k))))) in
  let baseRow := overlay "session_created_at" "created_at" baseRow in
  let baseRow := overlay "session_started_at" "started_at" baseRow in
  let baseRow := overlay "session_finished_at" "finished_at" baseRow in
  let baseRow := prop_set baseRow "app_url" (orEmpty (member appDetails "app_url")) in
  let baseRow := prop_set baseRow "app_name" (orEmpty (member appDetails "app_name")) in
  let baseRow :=
    prop_set baseRow "app_version" (orEmpty (member appDetails "app_version")) in
  let baseRow :=
    prop_set baseRow "app_custom_id" (orEmpty (member appDetails "app_custom_id")) in
  prop_set baseRow "app_uploaded_at"
    (JStr (toIsoOrEmpty (member appDetails "uploaded_at"))).

(** The body of [for (const item of response)]. *)
Definition sessionItem (buildId : string) (config : ReportConfig)
    (rows : list Row) (item : list (string * jsval)) : M (list Row) :=
  let session := nullish_or (prop_get item "automation_session") (JObj []) in
  let sessionId := orEmpty (member session "hashed_id") in
  let baseRow := sessionRow buildId session sessionId in
  if includeSessionDetails (appAutomate config) && truthy sessionId
  then
    do details <- fetchJson respond (GetSessionDetails (String_ sessionId));
    ret (rows ++ [withDetails baseRow details])%list
  else ret (rows ++ [baseRow])%list.

(** The page size of the session listing: [Math.max(1, sessionLimit)]. *)
Definition pageLimit (config : ReportConfig) : Z :=
  Z.max 1 (sessionLimit (appAutomate config)).

Definition statusFilter (config : ReportConfig) : string :=
  coalesce (sessionStatusFilter (appAutomate config)) "".

(** The [while] loop of [fetchAppAutomateSessionsForBuild]; [fuel] bounds
    its iterations. *)
Fixpoint sessionPages (fuel : nat) (buildId : string) (config : ReportConfig)
    (limit : Z) (rows : list Row) (offset : Z) : M (list Row) :=
  match fuel with
  | O => fun w => (OutOfFuel, w)
  | S fuel =>
      do response <-
        fetchJson respond (GetBuildSessions buildId limit offset (statusFilter config));
      do rows <- forEach response (sessionItem buildId config) rows;
      let hasMore := Z.eqb (Z.of_nat (length response)) limit in
      let offset := offset + limit in
      if hasMore then sessionPages fuel buildId config limit rows offset
      else ret rows
  end.

(** [fetchAppAutomateSessionsForBuild] *)
Definition fetchAppAutomateSessionsForBuild (fuel : nat) (buildId : string)
    (config : ReportConfig) : M (list Row) :=
  sessionPages fuel buildId config (pageLimit config) [] 0.

End Fetches.
End Fetching.

(** ** Column projection *)

Module Projection.
Import Config.

(** The cell written for one column of [columns]. *)
Definition pickCell (row : Row) (column : ColumnConfig) : string * jsval :=
  let header := coalesce (header column) (key column) in
  let value := getNested (JObj row) (key column) in
  (header,
   if negb (is_nullish value) then value
   else nullish_or (coalesce (default column) JUndefined) (JStr "")).

(** [!columns || columns.length === 0] *)
Definition noColumns (columns : opt (list ColumnConfig)) : bool :=
  match columns with
  | Val cols => Nat.eqb (length cols) 0
  | _ => true
  end.

(** [pickColumns] *)
Definition pickColumns (rows : list Row) (columns : opt (list ColumnConfig)) : list Row :=
  if noColumns columns then rows
  else
    List.map
      (fun row =>
         fold_left
           (fun nextRow column =>
              let '(header, value) := pickCell row column in
              prop_set nextRow header value)
           (coalesce columns []) [])
      rows.

End Projection.

(** ** Delimited text *)

Module Csv.

Definition dquote : ascii := "034".
Definition comma : ascii := ",".
Definition LF : ascii := "010".
Definition CR : ascii := "013".

(** The test of [csvEscape]: does [text] hold a quote, a comma or a line
    feed? *)
Fixpoint needsQuotes (text : string) : bool :=
  match text with
  | EmptyString => false
  | String c rest =>
      Ascii.eqb c dquote || Ascii.eqb c comma || Ascii.eqb c LF || needsQuotes rest
  end.

(** The replacement of [csvEscape]: every quote is written twice. *)
Fixpoint doubleQuotes (text : string) : string :=
  match text with
  | EmptyString => EmptyString
  | String c rest =>
      if Ascii.eqb c dquote then String dquote (String dquote (doubleQuotes rest))
      else String c (doubleQuotes rest)
  end.

(** [csvEscape] *)
Definition csvEscape (value : jsval) : string :=
  let text := String_ (nullish_or value (JStr "")) in
  if needsQuotes text
  then String dquote (doubleQuotes text ++ String dquote EmptyString)
  else text.

(** [toCsv] *)
Definition toCsv (rows : list Row) : string :=
  match rows with
  | [] => ""
  | first :: _ =>
      let headers := List.map fst first in
      let headerLine := join "," (List.map (fun h => csvEscape (JStr h)) headers) in
      let lines :=
        List.map
          (fun row => join "," (List.map (fun key => csvEscape (prop_get row key)) headers))
          rows in
      join (String LF EmptyString) (headerLine :: lines)
  end.

(** *** The reader

    The reader of RFC 4180: fields are separated by commas, a field that
    starts with a quote runs to its closing quote with every doubled quote
    read as one, and a record ends at a line break, written CR LF or, as
    [toCsv] writes it, LF alone. *)

(** The text of a quoted field, after its opening quote, and what follows
    the closing quote. *)
Fixpoint readQuoted (s : string) : option (string * string) :=
  match s with
  | EmptyString => None
  | String c rest =>
      if Ascii.eqb c dquote then
        match rest with
        | String c' rest' =>
            if Ascii.eqb c' dquote
            then match readQuoted rest' with
                 | Some (v, r) => Some (String dquote v, r)
                 | None => None
                 end
            else Some (EmptyString, rest)
        | EmptyString => Some (EmptyString, EmptyString)
        end
      else match readQuoted rest with
           | Some (v, r) => Some (String c v, r)
           | None => None
           end
  end.

Definition startsWith (c : ascii) (s : string) : bool :=
  match s with String c' _ => Ascii.eqb c' c | EmptyString => false end.

(** Is [s] at a line break? *)
Definition atLineBreak (s : string) : bool :=
  match s with
  | String c rest => Ascii.eqb c LF || (Ascii.eqb c CR && startsWith LF rest)
  | EmptyString => false
  end.

(** The text of a field that is not quoted, and what follows it. *)
Fixpoint readPlain (s : string) : string * string :=
  match s with
  | EmptyString => (EmptyString, EmptyString)
  | String c rest =>
      if Ascii.eqb c comma || atLineBreak s then (EmptyString, s)
      else let '(v, r) := readPlain rest in (String c v, r)
  end.

Definition readField (s : string) : option (string * string) :=
  match s with
  | String c rest => if Ascii.eqb c dquote then readQuoted rest else Some (readPlain s)
  | EmptyString => Some (EmptyString, EmptyString)
  end.

(** The records of [s]; [current] holds the fields already read of the
    record under way. *)
Fixpoint readRecords (fuel : nat) (s : string) (current : list string)
  : option (list (list string)) :=
  match fuel with
  | O => None
  | S fuel =>
      match readField s with
      | None => None
      | Some (v, rest) =>
          let record := (current ++ [v])%list in
          match rest with
          | EmptyString => Some [record]
          | String c rest' =>
              if Ascii.eqb c comma then readRecords fuel rest' record
              else if Ascii.eqb c LF
                   then option_map (cons record) (readRecords fuel rest' [])
              else if Ascii.eqb c CR then
                     match rest' with
                     | String c' rest'' =>
                         if Ascii.eqb c' LF
                         then option_map (cons record) (readRecords fuel rest'' [])
                         else None
                     | EmptyString => None
                     end
              else None
          end
      end
  end.

Definition parseCsv (s : string) : option (list (list string)) :=
  match s with
  | EmptyString => Some []
  | _ => readRecords (S (String.length s)) s []
  end.

End Csv.

(** ** The row filters *)

Module Filtering.
Import Config Validation.

(** [normalizeTerms] *)
Definition normalizeTerms (values : opt (list string)) : list string :=
  match values with
  | Val values =>
      List.filter (fun value => negb (isPlaceholderValue value))
        (List.filter (fun value => Nat.ltb 0 (String.length value))
           (List.map trim values))
  | _ => []
  end.

(** [matchAnyTerm] *)
Definition matchAnyTerm (text : string) (terms : list string) (caseSensitive : bool)
  : bool :=
  if Nat.eqb (length terms) 0 then true
  else if caseSensitive then existsb (fun term => includes text term) terms
  else
    let haystack := toLowerCase text in
    existsb (fun term => includes haystack (toLowerCase term)) terms.

(** The [options] of [applyFiltersToRows]. *)
Record FilterOptions : Type := {
  f_days : opt jsnum;
  f_projects : opt (list string);
  f_teams : opt (list string);
  f_people : opt (list string);
  f_caseSensitive : bool;
  dateKeys : list string;
  projectKeys : list string;
  teamKeys : list string;
  peopleKeys : list string;
}.

(** The rows of the four fetched sections. *)
Record Data : Type := {
  d_builds : list Row;
  d_tests : list Row;
  d_sessions : list Row;
  d_apps : list Row;
}.

Section Filters.
Context `{Platform}.

(** The test of the [rows.filter] of [applyFiltersToRows]. *)
Definition rowMatches (options : FilterOptions) (row : Row) : bool :=
  let projects := normalizeTerms (f_projects options) in
  let teams := normalizeTerms (f_teams options) in
  let people := normalizeTerms (f_people options) in
  let text keys := safeJoin (List.map (fun key => prop_get row key) keys) ", " in
  let projectMatch :=
    matchAnyTerm (text (projectKeys options)) projects (f_caseSensitive options) in
  let teamMatch :=
    matchAnyTerm (text (teamKeys options)) teams (f_caseSensitive options) in
  let peopleMatch :=
    matchAnyTerm (text (peopleKeys options)) people (f_caseSensitive options) in
  let dayMatch := isWithinDays row (dateKeys options) (f_days options) in
  projectMatch && teamMatch && peopleMatch && dayMatch.

(** [applyFiltersToRows] *)
Definition applyFiltersToRows (rows : list Row) (options : FilterOptions) : list Row :=
  List.filter (rowMatches options) rows.

(** [applyConfiguredFilters] *)
Definition applyConfiguredFilters (config : ReportConfig) (data : Data) : Data :=
  match filters config with
  | Val filters =>
      let caseSensitive :=
        match caseSensitive filters with Val b => b | _ => false end in
      let options days dateKeys projectKeys teamKeys peopleKeys :=
        {| f_days := days;
           f_projects := projects filters;
           f_teams := teams filters;
           f_people := people filters;
           f_caseSensitive := caseSensitive;
           dateKeys := dateKeys;
           projectKeys := projectKeys;
           teamKeys := teamKeys;
           peopleKeys := peopleKeys |} in
      {| d_builds :=
           applyFiltersToRows (d_builds data)
             (options (days filters)
                ["started_at"; "finished_at"]
                ["build_name"; "original_build_name"; "tags"]
                ["tags"; "build_name"]
                ["user"; "tags"]);
         d_tests :=
           applyFiltersToRows (d_tests data)
             (options (days filters)
                ["build_started_at"; "build_finished_at"; "finished_at"]
                ["source_build_name"; "root_scope"; "test_tags"]
                ["test_tags"; "root_scope"]
                ["test_tags"; "test_name"; "scope_path"]);
         d_sessions :=
           applyFiltersToRows (d_sessions data)
             (options (days filters)
                ["session_created_at"; "app_uploaded_at"]
                ["project_name"; "build_name"; "session_name"]
                ["project_name"; "session_name"]
                ["session_name"; "project_name"; "build_name"]);
         d_apps :=
           applyFiltersToRows (d_apps data)
             (options
                (match applyDaysToApps filters with
                 | Val true => days filters
                 | _ => Undef
                 end)
                ["uploaded_at"]
                ["custom_id"; "shareable_id"; "app_name"]
                ["custom_id"; "shareable_id"]
                ["shareable_id"; "custom_id"]) |}
  | _ => data
  end.

End Filters.
End Filtering.

(** ** The order of the rows *)

Module RowOrder.

(** [Math.max(a, b)] *)
Definition num_max (a b : jsnum) : jsnum :=
  match a, b with
  | NNaN, _ | _, NNaN => NNaN
  | NPosInf, _ | _, NPosInf => NPosInf
  | NNegInf, other | other, NNegInf => other
  | NFin x, NFin y => NFin (Z.max x y)
  end.

(** [a - b] *)
Definition num_sub (a b : jsnum) : jsnum :=
  match a, b with
  | NNaN, _ | _, NNaN => NNaN
  | NFin x, NFin y => NFin (x - y)
  | NPosInf, NPosInf | NNegInf, NNegInf => NNaN
  | NPosInf, _ => NPosInf
  | NNegInf, _ => NNegInf
  | NFin _, NPosInf => NNegInf
  | NFin _, NNegInf => NPosInf
  end.

(** [a !== b] on numbers: NaN differs from every number, itself included. *)
Definition num_differ (a b : jsnum) : bool := negb (jsnum_eqb a b).

(** Is the value a comparator returned above zero?  NaN counts as zero. *)
Definition positive (n : jsnum) : bool :=
  match n with
  | NFin z => Z.ltb 0 z
  | NPosInf => true
  | _ => false
  end.

(** [Array.prototype.sort] with a comparator.  The sort is stable; for a
    comparator that orders the values consistently the result is the stable
    arrangement, built here by insertion: an element goes before the first
    one that the comparator does not put before it. *)
Section Sort.
Context {A : Type} (compare : A -> A -> jsnum).

Fixpoint insert (x : A) (sorted : list A) : list A :=
  match sorted with
  | [] => [x]
  | y :: rest =>
      if positive (compare x y) then y :: insert x rest else x :: y :: rest
  end.

Definition sort (items : list A) : list A := fold_right insert [] items.

End Sort.

Section Rows.
Context `{Platform}.

(** [getLatestTimestamp] *)
Definition getLatestTimestamp (row : Row) (preferredDateKeys : list string) : jsnum :=
  let timestamps := rowTimestamps row preferredDateKeys in
  if Nat.eqb (length timestamps) 0 then NNegInf
  else fold_left num_max timestamps NNegInf.

(** The comparator of [sortRowsByDateDesc]. *)
Definition byDateDesc (preferredDateKeys : list string) (left right : Row) : jsnum :=
  let rightTs := getLatestTimestamp right preferredDateKeys in
  let leftTs := getLatestTimestamp left preferredDateKeys in
  if num_differ rightTs leftTs then num_sub rightTs leftTs else NFin 0.

(** [sortRowsByDateDesc] *)
Definition sortRowsByDateDesc (rows : list Row) (preferredDateKeys : list string)
  : list Row :=
  sort (byDateDesc preferredDateKeys) rows.

End Rows.
End RowOrder.

(** ** The overview *)

Module Overview.

(** [map.set(key, (map.get(key) ?? 0) + 1)] on a [Map], whose entries stay in
    the order of their insertion. *)
Fixpoint bump (counts : list (string * Z)) (key : string) : list (string * Z) :=
  match counts with
  | [] => [(key, 1)]
  | (k, n) :: rest =>
      if String.eqb k key then (k, n + 1) :: rest else (k, n) :: bump rest key
  end.

(** The tally of the rows by the text of a cell, [unknown] when the cell is
    missing. *)
Definition countByStatus (statusKey : string) (rows : list Row) : list (string * Z) :=
  fold_left
    (fun counts row =>
       bump counts (String_ (nullish_or (prop_get row statusKey) (JStr "unknown"))))
    rows [].

(** The identifiers added to [uniqueBuildIds] from one section. *)
Definition addBuildIds (idKey : string) (rows : list Row) (ids : gset string)
  : gset string :=
  fold_left
    (fun ids row =>
       let id := trim (String_ (nullish_or (prop_get row idKey) (JStr ""))) in
       if negb (String.eqb id "") then {[id]} ∪ ids else ids)
    rows ids.

Definition metricRow (metric : string) (value : Z) : Row :=
  [("metric", JStr metric); ("value", JNum (NFin value))].

(** [createOverviewRows] *)
Definition createOverviewRows (buildRows testRows sessionRows : list Row) : list Row :=
  let testsByStatus := countByStatus "test_status" testRows in
  let sessionsByStatus := countByStatus "session_status" sessionRows in
  let uniqueBuildIds :=
    addBuildIds "build_id" sessionRows
      (addBuildIds "source_build_id" testRows
         (addBuildIds "build_id" buildRows ∅)) in
  let totalBuilds := Z.of_nat (size uniqueBuildIds) in
  let totalTests := Z.of_nat (length testRows) in
  let totalSessions := Z.of_nat (length sessionRows) in
  ([ metricRow "total_builds" totalBuilds;
     metricRow "total_tests" totalTests;
     metricRow "total_sessions" totalSessions ]
   ++ List.map (fun '(status, count) => metricRow ("tests_" ++ status) count)
        testsByStatus
   ++ List.map (fun '(status, count) => metricRow ("sessions_" ++ status) count)
        sessionsByStatus)%list.

End Overview.

(** ** The Markdown table *)

Module Markdown.
Import Csv.

Definition pipe : ascii := "|".
Definition backslash : ascii := "\".

(** The first replacement of a cell: every line break, LF or CR LF,
    becomes a break tag between two blanks. *)
Fixpoint breakLines (text : string) : string :=
  match text with
  | EmptyString => EmptyString
  | String c rest =>
      if Ascii.eqb c LF then " <br> " ++ breakLines rest
      else
        match rest with
        | String c' rest' =>
            if Ascii.eqb c CR && Ascii.eqb c' LF then " <br> " ++ breakLines rest'
            else String c (breakLines rest)
        | EmptyString => String c EmptyString
        end
  end.

(** The second replacement of a cell: a backslash goes before every
    pipe. *)
Fixpoint escapePipes (text : string) : string :=
  match text with
  | EmptyString => EmptyString
  | String c rest =>
      if Ascii.eqb c pipe then String backslash (String pipe (escapePipes rest))
      else String c (escapePipes rest)
  end.

(** The text of a cell of the table. *)
Definition cell (value : jsval) : string :=
  escapePipes (breakLines (String_ (nullish_or value (JStr "")))).





End Markdown.

(** ** The command line *)

Module CommandLine.

(** What a function that returns a value or throws does. *)
Inductive thrown (A : Type) : Type :=
| Returned (a : A)
| Thrown (message : string).
Arguments Returned {A} a.
Arguments Thrown {A} message.

Section Args.
(** [path.resolve(process.cwd(), value)] and [DEFAULT_CONFIG_PATH] belong to
    the platform. *)
Variables (resolve : string -> string) (DEFAULT_CONFIG_PATH : string).

Definition isConfigFlag (arg : string) : bool :=
  String.eqb arg "--config" || String.eqb arg "-c".

(** The [for] loop of [parseArgs] from an index on; [configPath] is the path
    held so far.  The value of a flag is skipped with it. *)
Fixpoint scanArgs (argv : list string) (configPath : string) : thrown string :=
  match argv with
  | [] => Returned configPath
  | arg :: rest =>
      if isConfigFlag arg then
        match rest with
        | nextValue :: rest' =>
            if String.eqb nextValue "" then Thrown "Missing value for --config"
            else scanArgs rest' (resolve nextValue)
        | [] => Thrown "Missing value for --config"
        end
      else scanArgs rest configPath
  end.

(** [parseArgs] *)
Definition parseArgs (argv : list string) : thrown string :=
  scanArgs argv DEFAULT_CONFIG_PATH.

End Args.
End CommandLine.

(** ** Credentials *)

Module Auth.
Import Config CommandLine.

Section Env.
(** [process.env] and the Base64 writer of [Buffer] belong to the platform. *)
Variables (env : string -> opt string) (base64 : string -> string).

(** [!value] on a variable of the environment. *)
Definition unset (value : opt string) : bool :=
  match value with Val s => String.eqb s "" | _ => true end.

(** [getAuthHeaders] *)
Definition getAuthHeaders (config : ReportConfig) : thrown (list (string * string)) :=
  let username := env (usernameEnv (credentials config)) in
  let accessKey := env (accessKeyEnv (credentials config)) in
  if unset username || unset accessKey then
    Thrown
      ("Missing BrowserStack credentials. Please set "
       ++ usernameEnv (credentials config) ++ " and "
       ++ accessKeyEnv (credentials config) ++ ".")
  else
    let token := base64 (coalesce username "" ++ ":" ++ coalesce accessKey "") in
    Returned [("Authorization", "Basic " ++ token); ("Accept", "application/json")].

End Env.
End Auth.

(** ** Both sources

    The requests of the device-automation listings beside those of
    [Remote], which are sent on to the same remote. *)

Module Sources.
Import Config Validation Hierarchy Remote Paging Fetching.

(** A GET request: one of [Remote], the listing of the device-automation
    builds (sent with [limit] and the offset 0), the listing of the recent
    applications (sent with [limit]), or the listing of the applications
    of a custom identifier. *)
Inductive request : Type :=
| Listed (r : Remote.request)
| GetAppBuilds (limit : Z)
| GetRecentApps (limit : Z)
| GetRecentAppsByCustomId (customId : string).

(** The type [T] of [fetchJson<T>] at each endpoint. *)
Definition response (r : request) : Type :=
  match r with
  | Listed r => Remote.response r
  | GetAppBuilds _ => jsval
  | GetRecentApps _ | GetRecentAppsByCustomId _ => list (list (string * jsval))
  end.

Section Fetch.
Context {W : Type} (respond : W -> forall r : request, option (response r) * W).

Record World : Type := {
  remote : W;
  log : list request;
}.

Definition M (A : Type) : Type := World -> result A * World.

Definition ret {A} (a : A) : M A := fun w => (Ok a, w).

Definition throw {A} (message : string) : M A := fun w => (Threw message, w).

Definition bind {A B} (m : M A) (k : A -> M B) : M B :=
  fun w =>
    match m w with
    | (Ok a, w') => k a w'
    | (Threw e, w') => (Threw e, w')
    | (OutOfFuel, w') => (OutOfFuel, w')
    end.

(** [fetchJson] *)
Definition fetchJson (r : request) : M (response r) :=
  fun w =>
    let (answer, remote') := respond (remote w) r in
    let w' := {| remote := remote'; log := (log w ++ [r])%list |} in
    match answer with
    | Some payload => (Ok payload, w')
    | None => (Threw "Request failed", w')
    end.

(** [for (const x of xs) { acc = body(acc, x) }] *)
Fixpoint forEach {A S} (xs : list A) (body : S -> A -> M S) (acc : S) : M S :=
  match xs with
  | [] => ret acc
  | x :: rest => bind (body acc x) (forEach rest body)
  end.

(** The remote as the functions of [Paging] and [Fetching] call it. *)
Definition listed (w : W) (r : Remote.request) : option (Remote.response r) * W :=
  respond w (Listed r).

(** A computation of [Paging] or [Fetching] run here: its requests go to the
    same remote and are added to the log in their order. *)
Definition lift {A} (m : Remote.M A) : M A :=
  fun w =>
    let '(a, w') := m {| Remote.remote := remote w; Remote.log := [] |} in
    (a, {| remote := Remote.remote w';
           log := (log w ++ List.map Listed (Remote.log w'))%list |}).

End Fetch.
End Sources.

(** ** The device-automation listings and the run as a whole *)

Module Pipeline.
Import Config Validation Hierarchy Remote Paging Fetching Projection.
Import Filtering RowOrder Overview CommandLine Auth Sources.

Notation "'await' x <- m ; k" := (Sources.bind m (fun x => k))
  (at level 10, x name, m at level 100, k at level 200).

(** The sections handed to the writers. *)
Record Sections : Type := {
  s_overview : list Row;
  s_builds : list Row;
  s_tests : list Row;
  s_sessions : list Row;
  s_apps : list Row;
}.

Section Run.
Context `{Platform}.
Context {W : Type}
  (respond : W -> forall r : Sources.request, option (Sources.response r) * W).

Local Abbreviation M := (@Sources.M W).

(** [isRecentByDays] *)
Definition isRecentByDays (source : jsval) (days : opt jsnum)
    (startedAtKeys : list string) : bool :=
  match days with
  | Val d =>
      if negb (num_truthy d) then true
      else
        let cutoff := num_rsub Date_now (num_scale d msPerDay) in
        let timestamps :=
          List.filter isFinite
            (List.map (fun value => Date_getTime (String_ value))
               (List.filter (fun value => negb (is_nullish value))
                  (List.map (fun key => member source key) startedAtKeys))) in
        if Nat.eqb (length timestamps) 0 then true
        else existsb (fun timestamp => num_leb cutoff timestamp) timestamps
  | _ => true
  end.

(** The keys [isRecentByDays] reads when none are given. *)
Definition startedAtKeys : list string := ["started_at"; "created_at"; "uploaded_at"].

(** [Math.max(1, config.inputs.discoverRecentBuilds?.maxBuildsPerSource ?? 20)] *)
Definition maxBuilds (config : ReportConfig) : Z :=
  Z.max 1 (coalesce (chain (discoverRecentBuilds (inputs config)) maxBuildsPerSource) 20).

(** The identifiers read from the listing of the device-automation builds. *)
Definition appBuildIds (config : ReportConfig) (records : list jsval) : list string :=
  List.filter (fun value => Nat.ltb 0 (String.length value))
    (List.map
       (fun record =>
          String_
            (nullish_or (member record "hashed_id")
               (nullish_or (member record "id")
                  (nullish_or (member record "build_id")
                     (nullish_or (member record "uuid") (JStr ""))))))
       (List.filter
          (fun record => isRecentByDays record (chain (filters config) days) startedAtKeys)
          (List.map
             (fun record => nullish_or (getNested record "automation_build") record)
             records))).

(** [discoverAppAutomateBuildIds] *)
Definition discoverAppAutomateBuildIds (config : ReportConfig) : M (list string) :=
  await payload <- fetchJson respond (GetAppBuilds (maxBuilds config));
  let records := extractObjectsFromUnknownPayload payload in
  ret (uniqueNonEmpty (appBuildIds config records)).

Definition noTestReportingBuilds : string :=
  join newline
    ["No Test Reporting build IDs available.";
     "Could not discover builds using GET /ext/v1/projects/{project_id}/builds.";
     "Set inputs.discoverRecentBuilds.testReportingProjectIds (one or more project IDs),";
     "or set inputs.testReportingBuildIds manually, or disable testReporting."].

Definition noAppAutomateBuilds : string :=
  "No App Automate builds found. Add inputs.appAutomateBuildIds manually, increase inputs.discoverRecentBuilds.maxBuildsPerSource, or disable appAutomate.".

(** [{ ...config, inputs: { ...config.inputs, testReportingBuildIds,
    appAutomateBuildIds } }] *)
Definition withBuildIds (config : ReportConfig) (trIds aaIds : list string)
  : ReportConfig :=
  {| credentials := credentials config;
     inputs :=
       {| testReportingBuildIds := trIds;
          appAutomateBuildIds := aaIds;
          appCustomIds := appCustomIds (inputs config);
          discoverRecentBuilds := discoverRecentBuilds (inputs config) |};
     testReporting := testReporting config;
     appAutomate := appAutomate config;
     outputs := outputs config;
     filters := filters config;
     columns := columns config |}.

(** [resolveBuildInputs] *)
Definition resolveBuildInputs (fuel : nat) (config : ReportConfig) : M ReportConfig :=
  if negb (canDiscover config) then ret config
  else
    await trIds <-
      (if tr_enabled (testReporting config)
          && Nat.eqb (length (testReportingBuildIds (inputs config))) 0
       then lift (discoverTestReportingBuildIds (listed respond) fuel config)
       else ret (testReportingBuildIds (inputs config)));
    await aaIds <-
      (if aa_enabled (appAutomate config)
          && Nat.eqb (length (appAutomateBuildIds (inputs config))) 0
       then discoverAppAutomateBuildIds config
       else ret (appAutomateBuildIds (inputs config)));
    if tr_enabled (testReporting config) && Nat.eqb (length trIds) 0
    then throw noTestReportingBuilds
    else if aa_enabled (appAutomate config) && Nat.eqb (length aaIds) 0
    then throw noAppAutomateBuilds
    else ret (withBuildIds config trIds aaIds).

(** The row pushed on [appRows] for an application. *)
Definition appRow (app : list (string * jsval)) : Row :=
  let get k := prop_get app k in
  [ ("app_name", orEmpty (get "app_name"));
    ("app_version", orEmpty (get "app_version"));
    ("app_url", orEmpty (get "app_url"));
    ("app_id", orEmpty (get "app_id"));
    ("uploaded_at", JStr (toIsoOrEmpty (get "uploaded_at")));
    ("custom_id", orEmpty (get "custom_id"));
    ("shareable_id", orEmpty (get "shareable_id")) ].

(** [items.slice(0, end)]: a negative [end] counts from the end. *)
Definition slice0 {A} (items : list A) (end_ : Z) : list A :=
  if Z.ltb end_ 0
  then take (Z.to_nat (Z.max (Z.of_nat (length items) + end_) 0)) items
  else take (Z.to_nat end_) items.

(** [fetchAppAutomateApps] *)
Definition fetchAppAutomateApps (config : ReportConfig) : M (list Row) :=
  if negb (aa_enabled (appAutomate config)) then ret []
  else
    let appCustomIds := coalesce (appCustomIds (inputs config)) [] in
    if Nat.eqb (length appCustomIds) 0 then
      await apps <- fetchJson respond (GetRecentApps (appListLimit (appAutomate config)));
      ret (List.map appRow apps)
    else
      forEach appCustomIds
        (fun appRows customId =>
           await apps <- fetchJson respond (GetRecentAppsByCustomId customId);
           ret (appRows
                ++ List.map appRow (slice0 apps (appListLimit (appAutomate config))))%list)
        [].

(** [fetchAppAutomateData] *)
Definition fetchAppAutomateData (fuel : nat) (config : ReportConfig)
  : M (list Row * list Row) :=
  if negb (aa_enabled (appAutomate config)) then ret ([], [])
  else
    await sessions <-
      forEach (appAutomateBuildIds (inputs config))
        (fun sessions buildId =>
           await perBuildSessions <-
             lift (fetchAppAutomateSessionsForBuild (listed respond) fuel buildId config);
           ret (sessions ++ perBuildSessions)%list)
        [];
    await apps <- fetchAppAutomateApps config;
    ret (sessions, apps).

(** The sections [main] computes from the fetched rows: filtered, ordered,
    summed up and projected on the configured columns. *)
Definition sectionsOf (config : ReportConfig) (data : Data) : Sections :=
  let filtered := applyConfiguredFilters config data in
  let builds := sortRowsByDateDesc (d_builds filtered) ["finished_at"; "started_at"] in
  let tests :=
    sortRowsByDateDesc (d_tests filtered)
      ["build_finished_at"; "build_started_at"; "finished_at"] in
  let sessions :=
    sortRowsByDateDesc (d_sessions filtered)
      ["session_started_at"; "session_created_at"; "session_finished_at";
       "app_uploaded_at"] in
  let apps := sortRowsByDateDesc (d_apps filtered) ["uploaded_at"] in
  let overview := createOverviewRows builds tests sessions in
  {| s_overview := pickColumns overview (chain (columns config) Config.overview);
     s_builds := pickColumns builds (chain (columns config) Config.builds);
     s_tests := pickColumns tests (chain (columns config) Config.tests);
     s_sessions := pickColumns sessions (chain (columns config) Config.sessions);
     s_apps := pickColumns apps (chain (columns config) Config.apps) |}.

Section Main.
Variables (env : string -> opt string) (base64 : string -> string).

(** [main], from the configuration as resolved to the sections it hands to
    the writers of the files. *)
Definition main (fuel : nat) (config : ReportConfig) : M Sections :=
  match validateConfig config with
  | Throws message => throw message
  | Returns =>
      match getAuthHeaders env base64 config with
      | Thrown message => throw message
      | Returned headers =>
          await config <- resolveBuildInputs fuel config;
          await testReportingData <-
            lift (fetchTestReportingData (listed respond) fuel config);
          await appAutomateData <- fetchAppAutomateData fuel config;
          ret (sectionsOf config
                 {| d_builds := fst testReportingData;
                    d_tests := snd testReportingData;
                    d_sessions := fst appAutomateData;
                    d_apps := snd appAutomateData |})
      end
  end.

End Main.
End Run.
End Pipeline.

(** * The vocabulary of the properties *)

(** ** A platform and values to run the definitions on *)

Module Sample.
Import Config.

Definition decimal (s : string) : jsnum :=
  match NilZero.int_of_string s with
  | Some i => NFin (Z.of_int i)
  | None => NNaN
  end.

(** Midnight (UTC) of three days of the autumn of 2026, in milliseconds. *)
Definition nov01 : Z := 1793491200000.
Definition oct30 : Z := 1793318400000.
Definition oct22 : Z := 1792627200000.

Definition getTime (text : string) : jsnum :=
  if String.eqb text "2026-11-01T00:00:00.000Z" then NFin nov01
  else if String.eqb text "2026-10-30T00:00:00.000Z" then NFin oct30
  else if String.eqb text "2026-10-22T00:00:00.000Z" then NFin oct22
  else NNaN.

Definition toISOString (t : Z) : string :=
  if Z.eqb t nov01 then "2026-11-01T00:00:00.000Z"
  else if Z.eqb t oct30 then "2026-10-30T00:00:00.000Z"
  else if Z.eqb t oct22 then "2026-10-22T00:00:00.000Z"
  else "".

(** The platform at midnight of the first of November 2026. *)
Definition platform : Platform := {|
  Date_now := nov01;
  Date_getTime := getTime;
  Date_toISOString := toISOString;
  StringToNumber := decimal;
|}.

(** The empty configuration document, [{}]. *)
Definition emptyRaw : RawConfig := {|
  raw_credentials := Undef;
  raw_inputs := Undef;
  raw_testReporting := Undef;
  raw_appAutomate := Undef;
  raw_outputs := Undef;
  raw_filters := Undef;
  raw_columns := Undef;
|}.

Definition defaults : ReportConfig := resolveConfig emptyRaw.

(** The world before any request: nothing in the log. *)
Definition start : @Remote.World unit := {| Remote.remote := tt; Remote.log := [] |}.

End Sample.

(** ** What resolution is to give *)

Module ResolveSpec.
Import Config.

(** Every key the source marks optional, the column specs left aside. *)
Definition optionalsDefined (c : ReportConfig) : Prop :=
  defined (appCustomIds (inputs c))
  /\ (exists d, discoverRecentBuilds (inputs c) = Val d
        /\ defined (enabled d)
        /\ defined (maxBuildsPerSource d)
        /\ defined (testReportingProjectIds d))
  /\ defined (testRunQuery (testReporting c))
  /\ defined (sessionStatusFilter (appAutomate c))
  /\ (exists f, filters c = Val f
        /\ defined (days f)
        /\ defined (projects f)
        /\ defined (teams f)
        /\ defined (people f)
        /\ defined (caseSensitive f)
        /\ defined (applyDaysToApps f))
  /\ (exists k, columns c = Val k).

(** The five column specs. *)
Definition columnSpecsDefined (c : ReportConfig) : Prop :=
  exists k, columns c = Val k
    /\ defined (overview k)
    /\ defined (builds k)
    /\ defined (tests k)
    /\ defined (sessions k)
    /\ defined (apps k).

(** The column specs of [c] are those of the document [raw], as given. *)
Definition columnSpecsKept (raw : RawConfig) (c : ReportConfig) : Prop :=
  exists k, columns c = Val k
    /\ overview k = chain (raw_columns raw) raw_overview
    /\ builds k = chain (raw_columns raw) raw_builds
    /\ tests k = chain (raw_columns raw) raw_tests
    /\ sessions k = chain (raw_columns raw) raw_sessions
    /\ apps k = chain (raw_columns raw) raw_apps.

End ResolveSpec.

(** ** The violations of a configuration *)

Module ValidationSpec.
Import Config Validation.

Inductive source : Type := TestReportingSource | AppAutomateSource.

Inductive violation : Type :=
| MissingIds (s : source)
| PlaceholderIds (s : source)
| InvalidDays.

Definition sourceEnabled (c : ReportConfig) (s : source) : bool :=
  match s with
  | TestReportingSource => tr_enabled (testReporting c)
  | AppAutomateSource => aa_enabled (appAutomate c)
  end.

Definition sourceIds (c : ReportConfig) (s : source) : list string :=
  match s with
  | TestReportingSource => testReportingBuildIds (inputs c)
  | AppAutomateSource => appAutomateBuildIds (inputs c)
  end.

(** The violations in the words of the specification: a placeholder among
    the supplied identifiers counts whatever the source. *)
Definition claimed (c : ReportConfig) (v : violation) : bool :=
  match v with
  | MissingIds s =>
      sourceEnabled c s && Nat.eqb (length (sourceIds c s)) 0 && negb (canDiscover c)
  | PlaceholderIds s => existsb isPlaceholderValue (sourceIds c s)
  | InvalidDays => daysInvalid c
  end.

(** The violations the validation looks for: the identifiers of a source
    are checked when the source is enabled. *)
Definition present (c : ReportConfig) (v : violation) : bool :=
  match v with
  | MissingIds s =>
      sourceEnabled c s && Nat.eqb (length (sourceIds c s)) 0 && negb (canDiscover c)
  | PlaceholderIds s => sourceEnabled c s && existsb isPlaceholderValue (sourceIds c s)
  | InvalidDays => daysInvalid c
  end.

(** The line that reports a violation. *)
Definition describe (c : ReportConfig) (v : violation) : string :=
  match v with
  | MissingIds TestReportingSource =>
      "testReporting.enabled is true but inputs.testReportingBuildIds is empty."
  | MissingIds AppAutomateSource =>
      "appAutomate.enabled is true but inputs.appAutomateBuildIds is empty."
  | PlaceholderIds TestReportingSource =>
      "testReportingBuildIds contains placeholder values: "
      ++ join ", " (List.filter isPlaceholderValue (testReportingBuildIds (inputs c)))
  | PlaceholderIds AppAutomateSource =>
      "appAutomateBuildIds contains placeholder values: "
      ++ join ", " (List.filter isPlaceholderValue (appAutomateBuildIds (inputs c)))
  | InvalidDays => "Invalid filters.days. Use a positive number or null."
  end.

Definition isSourceViolation (v : violation) : bool :=
  match v with InvalidDays => false | _ => true end.

(** A document that disables discovery and the test-reporting source, keeps
    the device-automation source without identifiers, and asks for a window
    of -1 days. *)
Definition noIdsBadDays : ReportConfig :=
  resolveConfig {|
    raw_credentials := Undef;
    raw_inputs := Val {|
      raw_testReportingBuildIds := Val ["replace-with-build-id"];
      raw_appAutomateBuildIds := Undef;
      raw_appCustomIds := Undef;
      raw_discoverRecentBuilds := Val {|
        raw_enabled := Val false;
        raw_maxBuildsPerSource := Undef;
        raw_testReportingProjectIds := Undef;
      |};
    |};
    raw_testReporting := Val {|
      raw_tr_enabled := Val false;
      raw_fetchAllPages := Undef;
      raw_includeHooks := Undef;
      raw_testRunQuery := Undef;
    |};
    raw_appAutomate := Undef;
    raw_outputs := Undef;
    raw_filters := Val {|
      raw_days := Val (NFin (-1));
      raw_projects := Undef;
      raw_teams := Undef;
      raw_people := Undef;
      raw_caseSensitive := Undef;
      raw_applyDaysToApps := Undef;
    |};
    raw_columns := Undef;
  |}.

(** A document that disables discovery, gives the test-reporting source a
    placeholder for identifier and the device-automation source none. *)
Definition twoSourceViolations : ReportConfig :=
  resolveConfig {|
    raw_credentials := Undef;
    raw_inputs := Val {|
      raw_testReportingBuildIds := Val ["your-build-id"];
      raw_appAutomateBuildIds := Undef;
      raw_appCustomIds := Undef;
      raw_discoverRecentBuilds := Val {|
        raw_enabled := Val false;
        raw_maxBuildsPerSource := Undef;
        raw_testReportingProjectIds := Undef;
      |};
    |};
    raw_testReporting := Undef;
    raw_appAutomate := Undef;
    raw_outputs := Undef;
    raw_filters := Undef;
    raw_columns := Undef;
  |}.

End ValidationSpec.

(** ** The requests a computation issues *)

Module LogSpec.
Import Remote.

(** [issues m Q]: run from any world, [m] leaves the log as it was and adds
    to it requests that satisfy [Q]. *)
Definition issues {W A : Type} (m : @M W A) (Q : list request -> Prop) : Prop :=
  forall w, exists new, log (snd (m w)) = (log w ++ new)%list /\ Q new.

End LogSpec.

(** ** The day window of the discovery *)

Module DiscoverySpec.
Import Config Remote Paging.


Section Range.
Context `{Platform}.


End Range.




End DiscoverySpec.

(** ** Session listings and an honest remote *)

Module SessionSpec.
Import Config Remote Paging Fetching.

Definition isPage (r : request) : bool :=
  match r with GetBuildSessions _ _ _ _ => true | _ => false end.

(** The page requests of a listing that starts at [offset] and asks for
    [count] pages of [limit] sessions. *)
Definition pagesFrom (buildId : string) (limit : Z) (status : string)
    (offset : Z) (count : nat) : list request :=
  List.map
    (fun k => GetBuildSessions buildId limit (offset + Z.of_nat k * limit) status)
    (seq 0 count).

Definition withSessionLimit (config : ReportConfig) (l : Z) : ReportConfig :=
  {| credentials := credentials config;
     inputs := inputs config;
     testReporting := testReporting config;
     appAutomate := {|
       aa_enabled := aa_enabled (appAutomate config);
       sessionLimit := l;
       includeSessionDetails := includeSessionDetails (appAutomate config);
       sessionStatusFilter := sessionStatusFilter (appAutomate config);
       appListLimit := appListLimit (appAutomate config);
     |};
     outputs := outputs config;
     filters := filters config;
     columns := columns config;
  |}.

Definition notPage (r : request) : Prop := isPage r = false.

(** The remote holds the sessions of the build and answers a page request
    with the [limit] sessions that follow the first [offset]; it answers
    the request for the details of a session with [details]. *)
Definition honest (sessions : list (list (string * jsval)))
    (details : string -> list (string * jsval))
  : unit -> forall r : request, option (response r) * unit :=
  fun _ r =>
    (match r return option (response r) with
     | GetBuildSessions _ limit offset _ =>
         Some (firstn (Z.to_nat limit) (skipn (Z.to_nat offset) sessions))
     | GetSessionDetails sessionId => Some (details sessionId)
     | _ => None
     end, tt).

(** The sessions that follow the first [offset]. *)
Definition remaining (sessions : list (list (string * jsval))) (offset : Z)
  : list (list (string * jsval)) :=
  skipn (Z.to_nat offset) sessions.

(** 25 sessions, each with an identifier. *)
Definition sessions25 : list (list (string * jsval)) :=
  List.map
    (fun k => [("automation_session",
                JObj [("hashed_id", JStr (string_of_Z (Z.of_nat k)));
                      ("status", JStr "done")])])
    (seq 1 25).

Definition noDetails : string -> list (string * jsval) := fun _ => [].

End SessionSpec.

(** ** A remote whose cursor repeats *)

Module PaginationSpec.
Import Config Hierarchy Remote Paging Fetching.

Definition projectsPage (id : Z) (next : string) : jsval :=
  JObj [("projects", JArr [JObj [("id", JNum (NFin id))]]);
        ("pagination", JObj [("has_next", JBool true); ("next_page", JStr next)])].

Definition testRunsPage (test next : string) : TestRunsResponse :=
  {| name := Undef;
     build_name := Undef;
     build_number := Undef;
     hierarchy :=
       Val [mkNode (Val "suite") (Val "SUITE") Undef
              (Val [mkNode (Val test) (Val "TEST") Undef Undef])];
     pagination := Val {| has_next := Val true; next_page := Val next |};
  |}.

Definition buildsPage (id next : string) : jsval :=
  JObj [("builds", JArr [JObj [("build_id", JStr id)]]);
        ("pagination", JObj [("has_next", JBool true); ("next_page", JStr next)])].

Definition cursorOf (query : list (string * string)) : string :=
  match List.find (fun kv => String.eqb (fst kv) "next_page") query with
  | Some kv => snd kv
  | None => ""
  end.

(** The first page points to A, the page at A to B, and the page at B back
    to A; every page says that another one follows. *)
Definition cyclic : unit -> forall r : request, option (response r) * unit :=
  fun _ r =>
    (match r return option (response r) with
     | GetProjects cursor =>
         if String.eqb cursor "" then Some (projectsPage 1 "A")
         else if String.eqb cursor "A" then Some (projectsPage 2 "B")
         else if String.eqb cursor "B" then Some (projectsPage 3 "A")
         else None
     | GetProjectBuilds _ _ _ _ cursor =>
         if String.eqb cursor "" then Some (buildsPage "b1" "A")
         else if String.eqb cursor "A" then Some (buildsPage "b2" "B")
         else if String.eqb cursor "B" then Some (buildsPage "b3" "A")
         else None
     | GetBuildDetails _ => Some []
     | GetBuildTests _ query =>
         if String.eqb (cursorOf query) "" then Some (testRunsPage "t1" "A")
         else if String.eqb (cursorOf query) "A" then Some (testRunsPage "t2" "B")
         else if String.eqb (cursorOf query) "B" then Some (testRunsPage "t3" "A")
         else None
     | _ => None
     end, tt).


(** The same, asking for the first page of test runs only. *)
Definition firstPageOnly : ReportConfig :=
  resolveConfig {|
    raw_credentials := Undef;
    raw_inputs := Val {|
      raw_testReportingBuildIds := Val ["b1"];
      raw_appAutomateBuildIds := Undef;
      raw_appCustomIds := Undef;
      raw_discoverRecentBuilds := Undef;
    |};
    raw_testReporting := Val {|
      raw_tr_enabled := Undef;
      raw_fetchAllPages := Val false;
      raw_includeHooks := Undef;
      raw_testRunQuery := Undef;
    |};
    raw_appAutomate := Undef;
    raw_outputs := Undef;
    raw_filters := Undef;
    raw_columns := Undef;
  |}.




End PaginationSpec.

(** ** The leaves of a hierarchy *)

Module FlattenSpec.
Import Hierarchy.

Definition displayName (n : Node) : string := coalesce (node_display_name n) "".
Definition typeOf (n : Node) : string := coalesce (node_type n) "".

Definition isTest (n : Node) : bool := String.eqb (typeOf n) "TEST".
Definition isHook (n : Node) : bool := String.eqb (typeOf n) "HOOK".
Definition isNamed (n : Node) : bool := negb (String.eqb (displayName n) "").

(** Every node of type TEST in the tree is a leaf. *)
Fixpoint testsAreLeaves (n : Node) : bool :=
  match n with
  | mkNode d t det ch =>
      (if String.eqb (coalesce t "") "TEST"
       then match coalesce ch [] with [] => true | _ => false end
       else true)
      && match ch with
         | Val l => forallb testsAreLeaves l
         | _ => true
         end
  end.

(** The leaves of a tree, left to right, each with the display names of its
    ancestors from the root down.  With [skipEmpty] an ancestor whose
    display name is empty adds nothing to the names. *)
Fixpoint leaves (skipEmpty : bool) (ancestors : list string) (n : Node)
  : list (list string * Node) :=
  match n with
  | mkNode d t det ch =>
      let below :=
        if skipEmpty && String.eqb (coalesce d "") "" then ancestors
        else (ancestors ++ [coalesce d ""])%list in
      match ch with
      | Val (c :: l) => List.concat (List.map (leaves skipEmpty below) (c :: l))
      | _ => [(ancestors, n)]
      end
  end.

Definition forestLeaves (skipEmpty : bool) (hierarchy : list Node)
  : list (list string * Node) :=
  List.concat (List.map (leaves skipEmpty []) hierarchy).

(** The number of leaves of the forest that satisfy [p]. *)
Definition countLeaves (p : Node -> bool) (hierarchy : list Node) : nat :=
  length (List.filter (fun an => p (snd an)) (forestLeaves true hierarchy)).

(** What the claim is about in a row: its scope path, type and name. *)
Definition rowKey (row : Row) : jsval * jsval * jsval :=
  (prop_get row "scope_path", prop_get row "test_type", prop_get row "test_name").

(** The key of the row expected for a leaf with its ancestor names. *)
Definition leafKey (an : list string * Node) : jsval * jsval * jsval :=
  (JStr (join " > " (fst an)), JStr (typeOf (snd an)), JStr (displayName (snd an))).

Definition namedTest (an : list string * Node) : bool :=
  isTest (snd an) && isNamed (snd an).

(** A suite with two tests and a hook, one of the tests in an inner suite. *)
Definition twoTestsOneHook : list Node :=
  [mkNode (Val "S") (Val "SUITE") Undef
     (Val [mkNode (Val "t1") (Val "TEST") Undef Undef;
           mkNode (Val "before") (Val "HOOK") Undef Undef;
           mkNode (Val "inner") (Val "SUITE") Undef
             (Val [mkNode (Val "t2") (Val "TEST") Undef Undef])])].

(** A suite A that holds a suite without a display name, which holds a test
    t and a test without a display name. *)
Definition unnamedNodes : list Node :=
  [mkNode (Val "A") (Val "SUITE") Undef
     (Val [mkNode Undef (Val "SUITE") Undef
             (Val [mkNode (Val "t") (Val "TEST") Undef Undef;
                   mkNode Undef (Val "TEST") Undef Undef])])].

End FlattenSpec.

(** ** Fields and their ends *)

Module CsvSpec.
Import Csv.



Definition commaQuoteNewline : string :=
  "a,b " ++ String dquote ("c" ++ String dquote (String LF "d")).

Definition quoted : string :=
  "say " ++ String dquote ("hi" ++ String dquote (String LF "bye")).

Definition table : list Row :=
  [[("name", JStr "a,b"); ("note", JStr quoted); ("n", JNum (NFin 3))];
   [("name", JStr "plain"); ("note", JNull); ("n", JUndefined)]].

(** A failure log that ends with a carriage return, as a line cut from a
    text with CR LF line ends does. *)
Definition boomCR : string := "boom" ++ String CR "".

Definition logRows : list Row := [[("log", JStr boomCR)]; [("log", JStr "x")]].

End CsvSpec.

(** ** The headers of a projection *)

Module ColumnSpec.
Import Config.

(** The header a column is written under: [column.header ?? column.key]. *)
Definition headerOf (column : ColumnConfig) : string :=
  coalesce (header column) (key column).

(** The text opens with a decimal digit. *)
Definition startsWithDigit (text : string) : bool :=
  match text with
  | String c _ => ((48 <=? nat_of_ascii c) && (nat_of_ascii c <=? 57))%nat
  | EmptyString => false
  end.

(** A header that an object keeps at the place where it was first written:
    it is no integer index, which an object lists before its other keys
    (an index opens with a digit), and it is not [__proto__], which
    writes no property of the object. *)
Definition plainHeader (header : string) : bool :=
  negb (startsWithDigit header) && negb (String.eqb header "__proto__").

End ColumnSpec.

(** ** Filters that keep every row *)

Module FilterSpec.
Import Config Filtering.

(** No day window: the key is missing, [null], zero or NaN. *)
Definition noWindow (days : opt jsnum) : Prop :=
  match days with
  | Val d => num_truthy d = false
  | _ => True
  end.

(** No term is left of the three lists once they are normalized. *)
Definition noTerms (f : Filters) : Prop :=
  normalizeTerms (projects f) = []
  /\ normalizeTerms (teams f) = []
  /\ normalizeTerms (people f) = [].

(** A text of ASCII characters only: on such a text [trim] and
    [toLowerCase] are those of JavaScript. *)
Fixpoint isAscii (text : string) : bool :=
  match text with
  | EmptyString => true
  | String c rest => Nat.ltb (nat_of_ascii c) 128 && isAscii rest
  end.

(** A build row by a user, with its tags. *)
Definition buildBy (user tags : string) : Row :=
  [("build_name", JStr "nightly"); ("user", JStr user); ("tags", JStr tags)].

End FilterSpec.

(** ** Rows in the order of their dates *)

Module SortSpec.
Import RowOrder.

Section Order.
Context `{Platform}.

(** Every row comes before the rows whose latest date is the same or
    earlier; a row without a date has the earliest. *)
Fixpoint latestFirst (keys : list string) (rows : list Row) : Prop :=
  match rows with
  | [] => True
  | row :: rest =>
      Forall
        (fun later =>
           num_leb (getLatestTimestamp later keys) (getLatestTimestamp row keys) = true)
        rest
      /\ latestFirst keys rest
  end.

(** The rows whose latest date is [t], in the order of the list. *)
Definition datedAt (keys : list string) (t : jsnum) (rows : list Row) : list Row :=
  List.filter (fun row => jsnum_eqb (getLatestTimestamp row keys) t) rows.

End Order.

(** A time value or, for a row without a date, minus infinity. *)
Definition dated (n : jsnum) : Prop := n = NNegInf \/ exists t, n = NFin t.

(** A session row started at a date. *)
Definition sessionAt (name started : string) : Row :=
  [("session_name", JStr name); ("session_started_at", JStr started)].

End SortSpec.

(** ** The figures of the overview *)

Module OverviewSpec.

(** The sum of the counts of a tally. *)
Definition total (counts : list (string * Z)) : Z :=
  fold_right Z.add 0 (List.map snd counts).

(** The status a row is counted under: the text of its cell, [unknown]
    when the cell is missing or [null]. *)
Definition statusOf (statusKey : string) (row : Row) : string :=
  match prop_get row statusKey with
  | JUndefined | JNull => "unknown"
  | cell => String_ cell
  end.

(** The number of the rows that have the status. *)
Definition occurrences (statusKey status : string) (rows : list Row) : Z :=
  Z.of_nat
    (length (List.filter (fun row => String.eqb (statusOf statusKey row) status) rows)).

(** The texts of a list, each once, in the order in which they first
    appear. *)
Fixpoint firstOccurrences (texts : list string) : list string :=
  match texts with
  | [] => []
  | text :: rest =>
      text :: List.filter (fun other => negb (String.eqb other text)) (firstOccurrences rest)
  end.

(** The statuses of the rows with the number of rows of each, in the order
    in which the statuses first appear. *)
Definition statusCounts (statusKey : string) (rows : list Row) : list (string * Z) :=
  List.map (fun status => (status, occurrences statusKey status rows))
    (firstOccurrences (List.map (statusOf statusKey) rows)).

(** Is the key among the keys? *)
Definition known (key : string) (keys : list string) : bool :=
  existsb (String.eqb key) keys.

(** The count a tally holds for a key, zero when it holds none. *)
Definition countOf (counts : list (string * Z)) (key : string) : Z :=
  match List.find (fun kv => String.eqb (fst kv) key) counts with
  | Some kv => snd kv
  | None => 0
  end.

(** The text of the cell under [key], empty when the cell is missing. *)
Definition idUnder (key : string) (row : Row) : string :=
  String_ (nullish_or (prop_get row key) (JStr "")).

(** The build identifiers the three sections name, in the order read. *)
Definition namedBuildIds (buildRows testRows sessionRows : list Row) : list string :=
  (List.map (idUnder "build_id") buildRows
   ++ List.map (idUnder "source_build_id") testRows
   ++ List.map (idUnder "build_id") sessionRows)%list.

End OverviewSpec.

(** ** The lines of a table *)

Module MarkdownSpec.
Import Csv Markdown.

(** Does the text hold a line feed? *)
Fixpoint hasLF (text : string) : bool :=
  match text with
  | EmptyString => false
  | String c rest => Ascii.eqb c LF || hasLF rest
  end.

(** Does the text hold a pipe? *)
Fixpoint hasPipe (text : string) : bool :=
  match text with
  | EmptyString => false
  | String c rest => Ascii.eqb c pipe || hasPipe rest
  end.

(** Every pipe of the text comes right after a backslash; [previous] is
    the character before the text. *)
Fixpoint pipesEscapedAfter (previous : ascii) (text : string) : bool :=
  match text with
  | EmptyString => true
  | String c rest =>
      (negb (Ascii.eqb c pipe) || Ascii.eqb previous backslash)
      && pipesEscapedAfter c rest
  end.

Definition pipesEscaped (text : string) : bool := pipesEscapedAfter " " text.

(** The lines of a text: its parts between the line feeds. *)
Definition lines (text : string) : list string := split LF text.


End MarkdownSpec.

(** ** An account with one build in each source *)

Module SourcesSpec.
Import Config Hierarchy Remote Sources.

(** The remote lists one project with one build of one test, one
    device-automation build with one session, and applications. *)
Definition account
  : unit -> forall r : Sources.request, option (Sources.response r) * unit :=
  fun _ r =>
    (match r return option (Sources.response r) with
     | Listed (GetProjects _) =>
         Some (JObj [("projects", JArr [JObj [("id", JNum (NFin 7))]])])
     | Listed (GetProjectBuilds _ _ _ _ _) =>
         Some (JObj [("builds", JArr [JObj [("build_id", JStr "tr-1")]])])
     | Listed (GetBuildDetails _) =>
         Some [("name", JStr "nightly");
               ("started_at", JStr "2026-10-30T00:00:00.000Z")]
     | Listed (GetBuildTests _ _) =>
         Some {| name := Undef;
                 build_name := Undef;
                 build_number := Undef;
                 hierarchy :=
                   Val [mkNode (Val "suite") (Val "SUITE") Undef
                          (Val [mkNode (Val "login") (Val "TEST")
                                  (Val [("status", JStr "passed")]) Undef])];
                 pagination := Undef |}
     | Listed (GetBuildSessions _ _ offset _) =>
         Some (if Z.eqb offset 0
               then [[("automation_session",
                       JObj [("hashed_id", JStr "s1"); ("status", JStr "done")])]]
               else [])
     | Listed (GetSessionDetails _) =>
         Some [("automation_session",
                JObj [("app_details", JObj [("app_name", JStr "dialler")])])]
     | GetAppBuilds _ =>
         Some (JArr [JObj [("automation_build", JObj [("hashed_id", JStr "aa-1")])]])
     | GetRecentApps _ =>
         Some [[("app_name", JStr "dialler")]]
     | GetRecentAppsByCustomId customId =>
         Some [[("app_name", JStr "dialler"); ("custom_id", JStr customId)];
               [("app_name", JStr "dialler"); ("custom_id", JStr customId)];
               [("app_name", JStr "dialler"); ("custom_id", JStr customId)]]
     end, tt).

(** The world before any request: nothing in the log. *)
Definition begin : @Sources.World unit := {| Sources.remote := tt; Sources.log := [] |}.

(** An environment that holds both credentials. *)
Definition signedIn (name : string) : opt string :=
  if String.eqb name "BROWSERSTACK_USERNAME" then Val "user"
  else if String.eqb name "BROWSERSTACK_ACCESS_KEY" then Val "key"
  else Undef.

(** An environment without the access key. *)
Definition keyless (name : string) : opt string :=
  if String.eqb name "BROWSERSTACK_USERNAME" then Val "user" else Undef.

(** The defaults, with applications asked for by two custom identifiers
    and at most two of each. *)
Definition twoCustomIds : ReportConfig :=
  resolveConfig {|
    raw_credentials := Undef;
    raw_inputs := Val {|
      raw_testReportingBuildIds := Undef;
      raw_appAutomateBuildIds := Undef;
      raw_appCustomIds := Val ["dialler"; "wiki"];
      raw_discoverRecentBuilds := Undef;
    |};
    raw_testReporting := Undef;
    raw_appAutomate := Val {|
      raw_aa_enabled := Undef;
      raw_sessionLimit := Undef;
      raw_includeSessionDetails := Undef;
      raw_sessionStatusFilter := Undef;
      raw_appListLimit := Val 2;
    |};
    raw_outputs := Undef;
    raw_filters := Undef;
    raw_columns := Undef;
  |}.

(** The defaults, with a build named for each source. *)
Definition explicitBuilds : ReportConfig :=
  resolveConfig {|
    raw_credentials := Undef;
    raw_inputs := Val {|
      raw_testReportingBuildIds := Val ["tr-1"];
      raw_appAutomateBuildIds := Val ["aa-1"];
      raw_appCustomIds := Undef;
      raw_discoverRecentBuilds := Undef;
    |};
    raw_testReporting := Undef;
    raw_appAutomate := Undef;
    raw_outputs := Undef;
    raw_filters := Undef;
    raw_columns := Undef;
  |}.

(** The defaults, with the device-automation source off. *)
Definition withoutDevices : ReportConfig :=
  resolveConfig {|
    raw_credentials := Undef;
    raw_inputs := Undef;
    raw_testReporting := Undef;
    raw_appAutomate := Val {|
      raw_aa_enabled := Val false;
      raw_sessionLimit := Undef;
      raw_includeSessionDetails := Undef;
      raw_sessionStatusFilter := Undef;
      raw_appListLimit := Undef;
    |};
    raw_outputs := Undef;
    raw_filters := Undef;
    raw_columns := Undef;
  |}.

End SourcesSpec.

(** ** The columns of the fetched rows *)

Module RowSpec.

Definition columnsOf (row : Row) : list string := List.map fst row.

(** The columns of a row of the builds section. *)
Definition buildColumns : list string :=
  ["source"; "build_id"; "build_name"; "original_build_name"; "build_number";
   "build_status"; "duration_ms"; "user"; "tags"; "started_at"; "finished_at";
   "passed"; "failed"; "skipped"; "pending"; "unknown"; "flaky_count";
   "always_failing_count"; "performance_anomaly_count"; "new_failure_count";
   "observability_url"; "tcm_test_run_identifier"].

(** The columns of a row of the tests section. *)
Definition testColumns : list string :=
  ["source_build_id"; "source_build_name"; "source_build_number"; "root_scope";
   "scope_path"; "test_type"; "test_name"; "test_status"; "test_duration_ms";
   "test_tags"; "retries_count"; "run_count"; "is_flaky"; "is_always_failing";
   "is_new_failure"; "is_performance_anomaly"; "is_muted"; "observability_url";
   "first_failure_log"; "root_file_path"; "root_os_name"; "root_os_version";
   "root_browser_name"; "root_browser_version"; "root_device"; "finished_at";
   "build_started_at"; "build_finished_at"].

(** The columns of a session row, and those the details of a session add. *)
Definition sessionColumns : list string :=
  ["source"; "build_id"; "session_id"; "session_name"; "session_created_at";
   "session_started_at"; "session_finished_at"; "session_status";
   "session_duration_sec"; "os"; "os_version"; "device"; "reason"; "build_name";
   "project_name"; "logs_url"; "appium_logs_url"; "video_url"; "public_url"].

Definition detailColumns : list string :=
  ["app_url"; "app_name"; "app_version"; "app_custom_id"; "app_uploaded_at"].

(** The columns of a session row when the details are asked for or not:
    those of the listing, followed by those of the details when they are
    asked for and the session has an identifier. *)
Definition sessionColumnsOf (detailsAsked : bool) (row : Row) : list string :=
  if detailsAsked && truthy (prop_get row "session_id")
  then (sessionColumns ++ detailColumns)%list
  else sessionColumns.

(** A test row of the build [buildId]. *)
Definition testRowOf (buildId : string) (row : Row) : Prop :=
  columnsOf row = testColumns /\ prop_get row "source_build_id" = JStr buildId.

(** A build row of the build [buildId]. *)
Definition buildRowOf (buildId : string) (row : Row) : Prop :=
  columnsOf row = buildColumns
  /\ prop_get row "source" = JStr "test-reporting"
  /\ prop_get row "build_id" = JStr buildId.

(** A session row of the build [buildId], with or without the columns of
    the details. *)
Definition sessionRowOf (buildId : string) (row : Row) : Prop :=
  (columnsOf row = sessionColumns
   \/ columnsOf row = (sessionColumns ++ detailColumns)%list)
  /\ prop_get row "source" = JStr "app-automate"
  /\ prop_get row "build_id" = JStr buildId.

End RowSpec.

(** ** Tables that are read back *)

Module TableSpec.
Import Csv CsvSpec.

(** The text written for a cell. *)
Definition textOf (value : jsval) : string := String_ (nullish_or value (JStr "")).






(** The line written for the texts of a record, and the text written for
    the records of a table. *)
Definition line (fields : list string) : string :=
  join "," (List.map (fun field => csvEscape (JStr field)) fields).



End TableSpec.

(** ** The timestamps of a row *)

Module WindowSpec.

Section Window.
Context `{Platform}.



End Window.




End WindowSpec.

(** * Properties *)

(** ** The definitions at work *)

Example getNested_path :
  getNested (JObj [("details", JObj [("status", JStr "passed")])]) "details.status"
  = JStr "passed".
Proof. reflexivity. Qed.

Example getNested_absent :
  getNested (JObj [("details", JStr "x")]) "details.status" = JUndefined.
Proof. reflexivity. Qed.

Example trim_both : trim "  a b  " = "a b".
Proof. reflexivity. Qed.

Example string_of_Z_20 : string_of_Z 20 = "20".
Proof. reflexivity. Qed.

Example defaults_sessionLimit :
  Config.sessionLimit (Config.appAutomate Sample.defaults) = 25.
Proof. reflexivity. Qed.

(** ** Column projection (C10) *)

Section ProjectionFacts.
Import Config Projection.

Example pickColumns_renames :
  pickColumns [[("a", JObj [("b", JStr "x")]); ("c", JNull)]]
    (Val [ {| key := "a.b"; header := Val "AB"; default := Undef |};
           {| key := "c"; header := Undef; default := Val (JStr "none") |} ])
  = [[("AB", JStr "x"); ("c", JStr "none")]].
Proof. reflexivity. Qed.

(** C10.  An empty list of column specs projects like an absent one: the
    rows come back as they are, whether the spec is an empty list, missing
    or null; they do not come back emptied. *)
Theorem pickColumns_empty_is_identity (rows : list Row) :
  pickColumns rows (Val []) = rows
  /\ pickColumns rows Undef = rows
  /\ pickColumns rows Null = rows
  /\ ((exists row, In row rows /\ row <> []) ->
      pickColumns rows (Val []) <> List.map (fun _ => []) rows).
Proof.
  repeat split. intros (row & Hin & Hrow) Heq.
  change (pickColumns rows (Val [])) with rows in Heq.
  rewrite Heq in Hin. apply List.in_map_iff in Hin as (x & Hx & _).
  apply Hrow. symmetry. exact Hx.
Qed.

(** The rows of a section with one build are given back as they are. *)
Lemma pickColumns_empty_keeps_cells :
  pickColumns [[("build_id", JStr "b1"); ("build_status", JStr "passed")]] (Val [])
  = [[("build_id", JStr "b1"); ("build_status", JStr "passed")]]
  /\ pickColumns [[("build_id", JStr "b1"); ("build_status", JStr "passed")]] (Val [])
     <> [[]].
Proof.
  destruct (pickColumns_empty_is_identity
              [[("build_id", JStr "b1"); ("build_status", JStr "passed")]])
    as (Hid & _ & _ & Hkept).
  split; [exact Hid |].
  apply Hkept. eexists. split; [left; reflexivity | discriminate].
Defined.

End ProjectionFacts.

(** ** Configuration resolution (C7) *)

Module ResolveFacts.
Import Config ResolveSpec.

Lemma resolveConfig_idempotent (raw : RawConfig) :
  resolveConfig (asRaw (resolveConfig raw)) = resolveConfig raw.
Proof.
  unfold resolveConfig, asRaw; cbn.
  destruct (chain (raw_filters raw) raw_days); reflexivity.
Qed.

(** C7, as the code has it.  Resolution gives every optional key a value,
    the five column specs left aside: those are copied from the document
    and stay absent when it has none.  Resolving a resolved configuration
    changes nothing. *)
Theorem resolveConfig_total_idempotent (raw : RawConfig) :
  optionalsDefined (resolveConfig raw)
  /\ columnSpecsKept raw (resolveConfig raw)
  /\ resolveConfig (asRaw (resolveConfig raw)) = resolveConfig raw.
Proof.
  split; [| split; [| apply resolveConfig_idempotent]].
  - unfold optionalsDefined, defined; cbn.
    split; [discriminate |].
    split.
    { eexists. split; [reflexivity |]. cbn. repeat split; discriminate. }
    split; [discriminate |].
    split; [discriminate |].
    split.
    { eexists. split; [reflexivity |]. cbn. repeat split; try discriminate.
      destruct (chain (raw_filters raw) raw_days); discriminate. }
    eexists; reflexivity.
  - eexists. split; [reflexivity |]. cbn. repeat split.
Qed.

(** C7 as claimed fails on the empty document: its column specs are absent
    after resolution. *)
Lemma resolveConfig_column_specs_absent :
  ~ columnSpecsDefined (resolveConfig Sample.emptyRaw).
Proof.
  intros (k & Hk & Ho & _). cbn in Hk. injection Hk as <-. apply Ho. reflexivity.
Qed.

End ResolveFacts.

(** ** Facts on texts *)

Section TextFacts.

Lemma app_cons (c : ascii) (s t : string) : String c s ++ t = String c (s ++ t).
Proof. reflexivity. Qed.

Lemma app_empty_r (s : string) : s ++ "" = s.
Proof. induction s as [| c s IH]; [reflexivity |]. rewrite app_cons, IH. reflexivity. Qed.

Lemma prefix_empty (s : string) : String.prefix "" s = true.
Proof. destruct s; reflexivity. Qed.

Lemma prefix_app (n s t : string) :
  String.prefix n s = true -> String.prefix n (s ++ t) = true.
Proof.
  revert s; induction n as [| a n IH]; intros s Hp; [apply prefix_empty |].
  destruct s as [| b s]; [discriminate |].
  rewrite app_cons. cbn in *.
  destruct (ascii_dec a b); [auto | discriminate].
Qed.

Lemma prefix_self (s t : string) : String.prefix s (s ++ t) = true.
Proof.
  induction s as [| a s IH]; [apply prefix_empty |].
  rewrite app_cons. cbn.
  destruct (ascii_dec a a); [assumption | congruence].
Qed.

Lemma includes_unfold (s n : string) :
  includes s n =
  String.prefix n s
  || match s with EmptyString => false | String _ rest => includes rest n end.
Proof. destruct s; reflexivity. Qed.

Lemma includes_app_l (s t n : string) :
  includes s n = true -> includes (s ++ t) n = true.
Proof.
  induction s as [| c s IH]; intros Hi; rewrite includes_unfold in Hi.
  - rewrite orb_false_r in Hi. destruct n; [| discriminate].
    rewrite includes_unfold, prefix_empty. reflexivity.
  - apply orb_true_iff in Hi as [Hp | Hr].
    + rewrite includes_unfold. rewrite (prefix_app _ _ t Hp). reflexivity.
    + rewrite app_cons, includes_unfold. rewrite (IH Hr).
      apply orb_true_r.
Qed.

Lemma includes_app_r (s t n : string) :
  includes t n = true -> includes (s ++ t) n = true.
Proof.
  intros Hi. induction s as [| c s IH]; [assumption |].
  rewrite app_cons, includes_unfold, IH. apply orb_true_r.
Qed.

Lemma includes_self (s : string) : includes s s = true.
Proof.
  rewrite includes_unfold.
  pose proof (prefix_self s "") as Hp. rewrite app_empty_r in Hp.
  rewrite Hp. reflexivity.
Qed.

Lemma join_cons (sep p : string) (rest : list string) :
  rest <> [] -> join sep (p :: rest) = p ++ sep ++ join sep rest.
Proof. destruct rest; [congruence | reflexivity]. Qed.

(** A text joined with others is found in the result. *)
Lemma includes_join (sep x : string) (parts : list string) :
  In x parts -> includes (join sep parts) x = true.
Proof.
  induction parts as [| p rest IH]; intros Hin; [destruct Hin |].
  destruct rest as [| q rest].
  - destruct Hin as [-> | []]. apply includes_self.
  - rewrite join_cons by discriminate.
    destruct Hin as [-> | Hin].
    + apply includes_app_l, includes_self.
    + apply includes_app_r, includes_app_r, IH, Hin.
Qed.

End TextFacts.

(** ** Validation (C4) *)

Module ValidationFacts.
Import Config Validation ValidationSpec.

Example placeholder_marker : isPlaceholderValue "  Replace-With-build-id " = true.
Proof. reflexivity. Qed.

Example placeholder_blank : isPlaceholderValue "   " = true.
Proof. reflexivity. Qed.

Example placeholder_real : isPlaceholderValue "abc123" = false.
Proof. reflexivity. Qed.

Lemma filter_nonempty {A} (f : A -> bool) (l : list A) :
  Nat.ltb 0 (length (List.filter f l)) = existsb f l.
Proof.
  induction l as [| x l IH]; [reflexivity |].
  cbn. destruct (f x); [reflexivity | exact IH].
Qed.

(** The lines pushed on [errors] are the lines of the source violations
    present. *)
Lemma errors_describe (c : ReportConfig) (v : violation) :
  isSourceViolation v = true -> present c v = true ->
  In (describe c v) (testReportingErrors c ++ appAutomateErrors c)%list.
Proof.
  intros Hs Hp. apply in_or_app.
  destruct v as [[] | [] |]; try discriminate; cbn in Hp;
    unfold testReportingErrors, appAutomateErrors;
    apply andb_true_iff in Hp as [Hp Hq]; try apply andb_true_iff in Hp as [Hp Hp'].
  - left. rewrite Hp; cbn [when]. rewrite Hp', Hq. left. reflexivity.
  - right. rewrite Hp; cbn [when]. rewrite Hp', Hq. left. reflexivity.
  - left. rewrite Hp; cbn [when]. apply in_or_app. right.
    rewrite filter_nonempty, Hq. left. reflexivity.
  - right. rewrite Hp; cbn [when]. apply in_or_app. right.
    rewrite filter_nonempty, Hq. left. reflexivity.
Qed.

Lemma errors_none (c : ReportConfig) :
  (forall v, isSourceViolation v = true -> present c v = false) ->
  (testReportingErrors c ++ appAutomateErrors c)%list = [].
Proof.
  intros Hn.
  pose proof (Hn (MissingIds TestReportingSource) eq_refl) as H1.
  pose proof (Hn (MissingIds AppAutomateSource) eq_refl) as H2.
  pose proof (Hn (PlaceholderIds TestReportingSource) eq_refl) as H3.
  pose proof (Hn (PlaceholderIds AppAutomateSource) eq_refl) as H4.
  cbn in H1, H2, H3, H4.
  unfold testReportingErrors, appAutomateErrors.
  rewrite !filter_nonempty.
  destruct (tr_enabled (testReporting c)), (aa_enabled (appAutomate c));
    cbn in *; rewrite ?H1, ?H2, ?H3, ?H4; reflexivity.
Qed.

Lemma errors_some (c : ReportConfig) (v : violation) :
  isSourceViolation v = true -> present c v = true ->
  Nat.ltb 0 (length (testReportingErrors c ++ appAutomateErrors c)%list) = true.
Proof.
  intros Hs Hp. pose proof (errors_describe c v Hs Hp) as Hin.
  destruct (testReportingErrors c ++ appAutomateErrors c)%list; [destruct Hin | reflexivity].
Qed.

(** C4, as the code has it.  Validation passes exactly when no violation
    is present, where the identifiers of a source count when the source is
    enabled.  When it fails it throws one error; that error lists, together,
    every missing-identifier and placeholder violation present, and when
    there is none of those it is the error of the day window. *)
Theorem validateConfig_lists_source_violations (c : ReportConfig) :
  (validateConfig c = Returns <-> forall v, present c v = false)
  /\ (forall m, validateConfig c = Throws m ->
        (forall v, isSourceViolation v = true -> present c v = true ->
                   includes m (describe c v) = true)
        /\ ((forall v, isSourceViolation v = true -> present c v = false) ->
            m = describe c InvalidDays)).
Proof.
  unfold validateConfig. split.
  - split.
    + intros Hr v.
      destruct (Nat.ltb 0 _) eqn:He; [discriminate |].
      destruct (daysInvalid c) eqn:Hd; [discriminate |].
      destruct (isSourceViolation v) eqn:Hs.
      * destruct (present c v) eqn:Hp; [| reflexivity].
        rewrite (errors_some c v Hs Hp) in He. discriminate.
      * destruct v; try discriminate. exact Hd.
    + intros Hn. rewrite errors_none by (intros v _; apply Hn). cbn.
      pose proof (Hn InvalidDays) as Hd. cbn in Hd. rewrite Hd. reflexivity.
  - intros m Hm. split.
    + intros v Hs Hp. rewrite (errors_some c v Hs Hp) in Hm.
      match type of Hm with
      | Throws ?x = _ => assert (Heq : m = x) by congruence
      end.
      rewrite Heq. apply includes_join.
      apply in_or_app; right. apply in_or_app; left.
      apply errors_describe; assumption.
    + intros Hn. rewrite errors_none in Hm by exact Hn. cbn in Hm.
      destruct (daysInvalid c); [| discriminate]. injection Hm as <-. reflexivity.
Qed.

(** C4 as claimed fails on [noIdsBadDays].  Three violations of the claim
    are there: the device-automation source has no identifier, the day
    window is -1, and an identifier of the (disabled) test-reporting source
    is a placeholder.  The error thrown reports the first only. *)
Lemma validateConfig_omits_violations :
  claimed noIdsBadDays (MissingIds AppAutomateSource) = true
  /\ claimed noIdsBadDays InvalidDays = true
  /\ claimed noIdsBadDays (PlaceholderIds TestReportingSource) = true
  /\ exists m, validateConfig noIdsBadDays = Throws m
       /\ includes m (describe noIdsBadDays (MissingIds AppAutomateSource)) = true
       /\ includes m (describe noIdsBadDays InvalidDays) = false
       /\ includes m (describe noIdsBadDays (PlaceholderIds TestReportingSource)) = false.
Proof.
  repeat split. eexists. split; [reflexivity |]. repeat split.
Qed.

(** Both violations of [twoSourceViolations] are in the one error. *)
Lemma validateConfig_two_source_violations :
  exists m,
    validateConfig twoSourceViolations = Throws m
    /\ includes m "testReportingBuildIds contains placeholder values: your-build-id" = true
    /\ includes m "appAutomate.enabled is true but inputs.appAutomateBuildIds is empty."
       = true.
Proof.
  destruct (validateConfig_lists_source_violations twoSourceViolations) as [_ Hlists].
  eexists. split; [reflexivity |].
  destruct (Hlists _ eq_refl) as [Hall _]. split.
  - exact (Hall (PlaceholderIds TestReportingSource) eq_refl eq_refl).
  - exact (Hall (MissingIds AppAutomateSource) eq_refl eq_refl).
Defined.

End ValidationFacts.

(** ** The time window (C3) *)

Section WindowFacts.
Context `{Platform}.
Import WindowSpec.

Lemma length_zero_nil {A} (l : list A) : Nat.eqb (length l) 0 = true <-> l = [].
Proof. destruct l; cbn; split; congruence. Qed.





End WindowFacts.




Example isWithinDays_two_days_old :
  isWithinDays (H := Sample.platform)
    [("started_at", JStr "2026-10-30T00:00:00.000Z")] ["started_at"] (Val (NFin 7)) = true.
Proof. reflexivity. Qed.

Example isWithinDays_no_timestamp :
  isWithinDays (H := Sample.platform)
    [("started_at", JStr ""); ("name", JStr "x")] ["started_at"; "finished_at"]
    (Val (NFin 7)) = true.
Proof. reflexivity. Qed.

(** ** The requests a computation issues *)

Module LogFacts.
Import Remote LogSpec.

Section Issues.
Context {W : Type} (respond : W -> forall r : request, option (response r) * W).

Lemma issues_weaken {A} (m : @M W A) (Q Q' : list request -> Prop) :
  issues m Q -> (forall new, Q new -> Q' new) -> issues m Q'.
Proof. intros Hm Hq w. destruct (Hm w) as (new & Hl & HQ). eauto. Qed.

Lemma issues_ret {A} (a : A) (Q : list request -> Prop) :
  Q [] -> issues (ret a : @M W A) Q.
Proof. intros HQ w. exists []. cbn. rewrite app_nil_r. auto. Qed.

Lemma issues_stop {A} (r : result A) (Q : list request -> Prop) :
  Q [] -> issues (fun w : @World W => (r, w)) Q.
Proof. intros HQ w. exists []. cbn. rewrite app_nil_r. auto. Qed.

Lemma issues_fetchJson (r : request) :
  issues (fetchJson respond r) (fun new => new = [r]).
Proof.
  intros w. exists [r]. unfold fetchJson.
  destruct (respond (remote w) r) as [[payload |] remote']; cbn; auto.
Qed.

Lemma issues_bind {A B} (m : @M W A) (k : A -> @M W B)
    (Q1 Q2 : list request -> Prop) :
  issues m Q1 -> (forall a, issues (k a) Q2) -> Q2 [] ->
  issues (bind m k)
    (fun new => exists n1 n2, new = (n1 ++ n2)%list /\ Q1 n1 /\ Q2 n2).
Proof.
  intros Hm Hk Hnil w. unfold bind.
  destruct (Hm w) as (n1 & Hl1 & HQ1).
  destruct (m w) as [[a | e |] w1]; cbn in *.
  - destruct (Hk a w1) as (n2 & Hl2 & HQ2).
    exists (n1 ++ n2)%list. rewrite Hl2, Hl1, app_assoc. eauto 6.
  - exists n1. split; [assumption |]. exists n1, []. rewrite app_nil_r. auto.
  - exists n1. split; [assumption |]. exists n1, []. rewrite app_nil_r. auto.
Qed.

(** Requests that all satisfy [P]. *)
Lemma issues_bind_all {A B} (m : @M W A) (k : A -> @M W B) (P : request -> Prop) :
  issues m (Forall P) -> (forall a, issues (k a) (Forall P)) ->
  issues (bind m k) (Forall P).
Proof.
  intros Hm Hk. eapply issues_weaken.
  - apply (issues_bind m k _ _ Hm Hk). constructor.
  - intros new (n1 & n2 & -> & H1 & H2). apply Forall_app; auto.
Qed.

Lemma issues_forEach_all {A S} (xs : list A) (body : S -> A -> @M W S)
    (P : request -> Prop) :
  (forall acc x, issues (body acc x) (Forall P)) ->
  forall acc, issues (forEach xs body acc) (Forall P).
Proof.
  intros Hbody. induction xs as [| x xs IH]; intros acc; cbn [forEach].
  - apply issues_ret. constructor.
  - apply issues_bind_all; auto.
Qed.

Lemma issues_fetchJson_all (r : request) (P : request -> Prop) :
  P r -> issues (fetchJson respond r) (Forall P).
Proof.
  intros HP. eapply issues_weaken; [apply issues_fetchJson |].
  intros new ->. repeat constructor. exact HP.
Qed.

End Issues.
End LogFacts.

(** ** Termination of the pagination loops (C1) *)

Module PaginationFacts.
Import LogSpec Config Hierarchy Remote Paging Fetching LogFacts PaginationSpec.

Section AnyRemote.
Context `{Platform}.
Context {W : Type} (respond : W -> forall r : request, option (response r) * W).













End AnyRemote.

(** *** A remote whose cursor repeats: A, B, A, ... *)

Local Existing Instance Sample.platform.




End PaginationFacts.

(** ** The date range of the build discovery (C6) *)

Module DiscoveryFacts.
Import LogSpec Config Remote Paging LogFacts PaginationFacts DiscoverySpec.

Section Range.
Context `{Platform}.
Context {W : Type} (respond : W -> forall r : request, option (response r) * W).





End Range.



End DiscoveryFacts.

(** ** The session listing (C5, C9) *)

Module SessionFacts.
Import LogSpec Config Remote Paging Fetching LogFacts SessionSpec.

Lemma pagesFrom_S buildId limit status offset count :
  pagesFrom buildId limit status offset (S count)
  = GetBuildSessions buildId limit offset status
    :: pagesFrom buildId limit status (offset + limit) count.
Proof.
  unfold pagesFrom. cbn [seq List.map]. f_equal.
  - f_equal. lia.
  - rewrite <- seq_shift, List.map_map. apply List.map_ext. intros k. f_equal. lia.
Qed.

Section AnyRemote.
Context `{Platform}.
Context {W : Type} (respond : W -> forall r : request, option (response r) * W).

Lemma filter_notPage (new : list request) :
  Forall notPage new -> List.filter isPage new = [].
Proof.
  induction 1 as [| r new Hr _ IH]; [reflexivity |].
  cbn. rewrite Hr. exact IH.
Qed.

Lemma sessionItem_issues buildId config rows item :
  issues (sessionItem respond buildId config rows item) (Forall notPage).
Proof.
  unfold sessionItem.
  destruct (includeSessionDetails (appAutomate config) && truthy _).
  - apply issues_bind_all.
    + apply issues_fetchJson_all. reflexivity.
    + intros a. apply issues_ret. constructor.
  - apply issues_ret. constructor.
Qed.

(** Whatever the remote answers, the pages are asked for with the same
    limit and with offsets that grow by that limit. *)
Lemma sessionPages_issues buildId config limit :
  forall fuel rows offset,
    issues (sessionPages respond fuel buildId config limit rows offset)
      (fun new => exists count,
           List.filter isPage new
           = pagesFrom buildId limit (statusFilter config) offset count).
Proof.
  induction fuel as [| fuel IH]; intros rows offset; cbn [sessionPages].
  - apply issues_stop. exists 0%nat. reflexivity.
  - eapply issues_weaken.
    + eapply issues_bind; [apply issues_fetchJson | | ].
      * intros response. eapply issues_bind.
        -- apply issues_forEach_all. intros acc x. apply sessionItem_issues.
        -- intros rows'.
           instantiate (1 := fun new => exists count,
             List.filter isPage new
             = pagesFrom buildId limit (statusFilter config) (offset + limit) count).
           destruct (Z.eqb _ limit); [apply IH |].
           apply issues_ret. exists 0%nat. reflexivity.
        -- exists 0%nat. reflexivity.
      * exists [], []. repeat split; [constructor |]. exists 0%nat. reflexivity.
    + intros new (n1 & n2 & -> & -> & n3 & n4 & -> & Hn3 & count & Hn4).
      exists (S count). rewrite pagesFrom_S. cbn [app List.filter isPage].
      f_equal. rewrite List.filter_app, (filter_notPage _ Hn3), Hn4. reflexivity.
Qed.

(** After a page was read and its rows pushed, the listing goes on exactly
    when the page holds as many sessions as were asked for; the next page
    is asked for at the offset moved on by the limit. *)
Lemma sessionPages_continues fuel buildId config limit rows offset (w : @World W)
    page w1 rows1 w2 :
  fetchJson respond (GetBuildSessions buildId limit offset (statusFilter config)) w
  = (Ok page, w1) ->
  forEach page (sessionItem respond buildId config) rows w1 = (Ok rows1, w2) ->
  sessionPages respond (S fuel) buildId config limit rows offset w
  = if Z.eqb (Z.of_nat (length page)) limit
    then sessionPages respond fuel buildId config limit rows1 (offset + limit) w2
    else (Ok rows1, w2).
Proof.
  intros Hfetch Hrows. cbn [sessionPages]. unfold bind at 1. rewrite Hfetch.
  unfold bind at 1. rewrite Hrows. destruct (Z.eqb _ limit); reflexivity.
Qed.

(** An iteration of the listing begins with a request for a page. *)
Lemma sessionPages_asks fuel buildId config limit rows offset (w : @World W) :
  exists new,
    log (snd (sessionPages respond (S fuel) buildId config limit rows offset w))
    = (log w ++ GetBuildSessions buildId limit offset (statusFilter config) :: new)%list.
Proof.
  cbn [sessionPages].
  edestruct (issues_bind
               (fetchJson respond
                  (GetBuildSessions buildId limit offset (statusFilter config)))
               (fun response =>
                  do rows0 <- forEach response (sessionItem respond buildId config) rows;
                  if Z.eqb (Z.of_nat (length response)) limit
                  then sessionPages respond fuel buildId config limit rows0 (offset + limit)
                  else ret rows0)
               _ (fun _ => True) (issues_fetchJson respond _)) as (new & Hnew & Hsplit).
  - intros response w0.
    edestruct (issues_bind
                 (forEach response (sessionItem respond buildId config) rows)
                 (fun rows0 =>
                    if Z.eqb (Z.of_nat (length response)) limit
                    then sessionPages respond fuel buildId config limit rows0
                           (offset + limit)
                    else ret rows0)
                 (fun _ => True) (fun _ => True)) as (new & Hnew & _).
    + intros w1.
      destruct (issues_forEach_all response (sessionItem respond buildId config) notPage
                  (fun acc x => sessionItem_issues buildId config acc x) rows w1)
        as (new & Hnew & _).
      eauto.
    + intros rows0 w1. destruct (Z.eqb _ limit).
      * destruct (sessionPages_issues buildId config limit fuel rows0 (offset + limit) w1)
          as (new & Hnew & _).
        eauto.
      * exists []. cbn. rewrite app_nil_r. auto.
    + exact I.
    + eauto.
  - exact I.
  - destruct Hsplit as (n1 & n2 & -> & -> & _). exists n2. exact Hnew.
Qed.

(** So, when the remote keeps to the limit, the listing stops exactly at a
    page that is shorter than the limit. *)
Lemma sessionPages_stops_at_short_page fuel buildId config limit rows offset
    (w : @World W) page w1 rows1 w2 :
  fetchJson respond (GetBuildSessions buildId limit offset (statusFilter config)) w
  = (Ok page, w1) ->
  forEach page (sessionItem respond buildId config) rows w1 = (Ok rows1, w2) ->
  Z.of_nat (length page) <= limit ->
  (Z.of_nat (length page) < limit
   <-> sessionPages respond (S (S fuel)) buildId config limit rows offset w
       = (Ok rows1, w2)).
Proof.
  intros Hfetch Hrows Hle.
  rewrite (sessionPages_continues _ _ _ _ _ _ _ _ _ _ _ Hfetch Hrows).
  destruct (Z.eqb_spec (Z.of_nat (length page)) limit) as [Heq | Hne].
  - split; [lia |]. intros Hstop. exfalso.
    destruct (sessionPages_asks fuel buildId config limit rows1 (offset + limit) w2)
      as (new & Hnew).
    rewrite Hstop in Hnew. cbn [snd] in Hnew.
    apply (f_equal (@length request)) in Hnew. rewrite length_app in Hnew.
    cbn in Hnew. lia.
  - split; [reflexivity | lia].
Qed.

End AnyRemote.

(** *** A remote that pages honestly *)

Section Honest.
Context `{Platform}.
Variables (sessions : list (list (string * jsval)))
          (details : string -> list (string * jsval)).
Variables (buildId : string) (config : ReportConfig).

Local Abbreviation run := (honest sessions details).

(** One row is pushed for every item of a page, and no page is asked for
    meanwhile. *)
Lemma forEach_sessionItem (items : list (list (string * jsval))) :
  forall rows (w : @World unit),
  exists rows' new,
    forEach items (sessionItem run buildId config) rows w
    = (Ok (rows ++ rows')%list, {| remote := tt; log := (log w ++ new)%list |})
    /\ length rows' = length items
    /\ List.filter isPage new = [].
Proof.
  induction items as [| item items IH]; intros rows w; cbn [forEach].
  - exists [], []. rewrite !app_nil_r. destruct w as [[] l]. repeat split.
  - unfold bind at 1. unfold sessionItem at 1.
    destruct (includeSessionDetails (appAutomate config) && truthy _).
    + unfold bind at 1. cbn.
      match goal with
      | |- context [forEach items _ ?r ?w1] => destruct (IH r w1) as (rows' & new & -> & Hlen & Hnew)
      end.
      eexists (_ :: rows'), (_ :: new). cbn [log].
      rewrite <- !app_assoc. cbn [app]. repeat split; [cbn; lia | cbn; exact Hnew].
    + cbn.
      match goal with
      | |- context [forEach items _ ?r ?w1] => destruct (IH r w1) as (rows' & new & -> & Hlen & Hnew)
      end.
      eexists (_ :: rows'), new. rewrite <- !app_assoc. cbn [app].
      repeat split; [cbn; lia | exact Hnew].
Qed.

End Honest.
End SessionFacts.

Module SessionPaging.
Import LogSpec SessionSpec Config Remote Paging Fetching LogFacts SessionFacts.

Section Honest.
Context `{Platform}.
Variables (sessions : list (list (string * jsval)))
          (details : string -> list (string * jsval)).
Variables (buildId : string) (config : ReportConfig).

Local Abbreviation run := (honest sessions details).
Local Abbreviation remaining := (SessionSpec.remaining sessions).

Lemma div_step (a b : nat) : (b <> 0 -> b <= a -> a / b = S ((a - b) / b))%nat.
Proof.
  intros Hb Hle. replace a with ((a - b) + 1 * b)%nat at 1 by lia.
  rewrite Nat.div_add by assumption. lia.
Qed.

(** From any offset, the listing asks for the pages up to the first one
    that is short, and pushes one row for each session that was left. *)
Lemma sessionPages_honest (limit : Z) :
  1 <= limit ->
  forall fuel rows offset (w : @World unit),
    0 <= offset ->
    (length (remaining offset) / Z.to_nat limit < fuel)%nat ->
    exists rows' new,
      sessionPages run fuel buildId config limit rows offset w
      = (Ok (rows ++ rows')%list, {| remote := tt; log := (log w ++ new)%list |})
      /\ length rows' = length (remaining offset)
      /\ List.filter isPage new
         = pagesFrom buildId limit (statusFilter config) offset
             (length (remaining offset) / Z.to_nat limit + 1).
Proof.
  intros Hlimit. induction fuel as [| fuel IH]; intros rows offset w Hoff Hfuel; [lia |].
  cbn [sessionPages]. unfold bind at 1. unfold fetchJson at 1. cbn [honest fst snd remote].
  unfold bind at 1.
  set (page := firstn (Z.to_nat limit) (skipn (Z.to_nat offset) sessions)).
  set (r := GetBuildSessions buildId limit offset (statusFilter config)).
  destruct (forEach_sessionItem sessions details buildId config page rows
              {| remote := tt; log := (log w ++ [r])%list |})
    as (rows1 & new1 & -> & Hrows1 & Hnew1).
  cbn [log] in *.
  assert (Hpage : length page = Nat.min (Z.to_nat limit) (length (remaining offset))).
  { unfold page, SessionSpec.remaining. apply length_take. }
  assert (Hpos : Z.to_nat limit <> 0%nat) by lia.
  destruct (Nat.le_gt_cases (Z.to_nat limit) (length (remaining offset))) as [Hfull | Hshort].
  - (* a full page: the listing goes on *)
    replace (Z.eqb (Z.of_nat (length page)) limit) with true
      by (symmetry; apply Z.eqb_eq; lia).
    assert (Hrem : remaining (offset + limit) = skipn (Z.to_nat limit) (remaining offset)).
    { unfold SessionSpec.remaining. rewrite Z2Nat.inj_add by lia. rewrite skipn_skipn.
      f_equal. lia. }
    assert (Hlen : length (remaining (offset + limit))
                   = (length (remaining offset) - Z.to_nat limit)%nat).
    { rewrite Hrem. apply length_drop. }
    pose proof (div_step _ _ Hpos Hfull) as Hdiv.
    destruct (IH (rows ++ rows1)%list (offset + limit)
                {| remote := tt; log := ((log w ++ [r]) ++ new1)%list |})
      as (rows2 & new2 & -> & Hrows2 & Hnew2); [lia | rewrite Hlen; lia |].
    exists (rows1 ++ rows2)%list, ([r] ++ new1 ++ new2)%list. cbn [log].
    rewrite <- !app_assoc. split; [reflexivity |]. split.
    + rewrite length_app, Hrows1, Hrows2, Hpage, Hlen. lia.
    + cbn [app List.filter isPage r]. rewrite List.filter_app, Hnew1, Hnew2. cbn [app].
      rewrite Hlen, Hdiv. cbn [Nat.add]. rewrite pagesFrom_S. reflexivity.
  - (* a short page: the listing stops *)
    replace (Z.eqb (Z.of_nat (length page)) limit) with false
      by (symmetry; apply Z.eqb_neq; lia).
    exists rows1, ([r] ++ new1)%list. cbn [ret].
    rewrite <- !app_assoc. split; [reflexivity |]. split.
    + rewrite Hrows1, Hpage. lia.
    + cbn [app List.filter isPage r]. rewrite Hnew1.
      rewrite Nat.div_small by assumption. cbn [Nat.add].
      rewrite pagesFrom_S. reflexivity.
Qed.

End Honest.

Section Claims.
Context `{Platform}.

Lemma pagesFrom_zero buildId limit status count :
  pagesFrom buildId limit status 0 count
  = List.map (fun k => GetBuildSessions buildId limit (Z.of_nat k * limit) status)
      (seq 0 count).
Proof. unfold pagesFrom. apply List.map_ext. intros k. f_equal. Qed.

Lemma remaining_zero (sessions : list (list (string * jsval))) :
  remaining sessions 0 = sessions.
Proof. reflexivity. Qed.

Lemma pageLimit_positive (config : ReportConfig) : 1 <= pageLimit config.
Proof. unfold pageLimit. lia. Qed.

(** The size of page [k] of an honest listing of [n] sessions by [L]. *)
Lemma page_sizes (sessions : list (list (string * jsval))) (L k : nat) :
  (L <> 0)%nat ->
  let pages := (length sessions / L + 1)%nat in
  let page := firstn L (skipn (k * L) sessions) in
  (k < pages)%nat ->
  if Nat.eqb (S k) pages then (length page < L)%nat else length page = L.
Proof.
  intros HL pages page Hk. unfold page. rewrite length_take, length_drop.
  pose proof (Nat.div_mod_eq (length sessions) L) as Hdm.
  pose proof (Nat.mod_upper_bound (length sessions) L HL) as Hmod.
  destruct (Nat.eqb_spec (S k) pages) as [Heq | Hne]; unfold pages in *; nia.
Qed.

(** The listing against an honest remote: its rows, the pages it asks for
    and their sizes. *)
Lemma honest_listing
    (sessions : list (list (string * jsval)))
    (details : string -> list (string * jsval))
    (buildId : string) (config : ReportConfig) (fuel : nat) :
  let limit := pageLimit config in
  let pages := (length sessions / Z.to_nat limit + 1)%nat in
  (pages <= fuel)%nat ->
  exists rows new,
    fetchAppAutomateSessionsForBuild (honest sessions details) fuel buildId config Sample.start
    = (Ok rows, {| remote := tt; log := new |})
    /\ length rows = length sessions
    /\ List.filter isPage new
       = List.map
           (fun k => GetBuildSessions buildId limit (Z.of_nat k * limit)
                       (statusFilter config))
           (seq 0 pages)
    /\ (forall k, (k < pages)%nat ->
          let page := firstn (Z.to_nat limit) (skipn (k * Z.to_nat limit) sessions) in
          if Nat.eqb (S k) pages then (length page < Z.to_nat limit)%nat
          else length page = Z.to_nat limit).
Proof.
  intros limit pages Hfuel.
  pose proof (pageLimit_positive config) as Hlimit. fold limit in Hlimit.
  destruct (sessionPages_honest sessions details buildId config limit Hlimit
              fuel [] 0 Sample.start) as (rows & new & Hrun & Hrows & Hnew).
  - lia.
  - rewrite remaining_zero. unfold pages in Hfuel. lia.
  - exists rows, new. unfold fetchAppAutomateSessionsForBuild. fold limit.
    rewrite Hrun. rewrite remaining_zero in *.
    split; [reflexivity |]. split; [assumption |]. split.
    + rewrite Hnew. apply pagesFrom_zero.
    + intros k Hk. apply page_sizes; [lia | exact Hk].
Qed.

(** C5.  The listing stops exactly when a page holds fewer sessions than
    the limit asked for (the remote keeping to the limit).  Against a
    remote that holds [n] sessions for the build and pages them honestly,
    it returns one row per session and asks for [n / limit + 1] pages, at
    the offsets 0, limit, 2 * limit, ...: each page but the last is full,
    the last one holds fewer than [limit] sessions. *)
Theorem session_listing_stops_at_short_page (buildId : string) (config : ReportConfig) :
  let limit := pageLimit config in
  (forall (W : Type) (respond : W -> forall r : request, option (response r) * W)
          fuel rows offset (w : @World W) page w1 rows1 w2,
      fetchJson respond (GetBuildSessions buildId limit offset (statusFilter config)) w
      = (Ok page, w1) ->
      forEach page (sessionItem respond buildId config) rows w1 = (Ok rows1, w2) ->
      Z.of_nat (length page) <= limit ->
      (Z.of_nat (length page) < limit
       <-> sessionPages respond (S (S fuel)) buildId config limit rows offset w
           = (Ok rows1, w2)))
  /\ (forall (sessions : list (list (string * jsval)))
             (details : string -> list (string * jsval)) (fuel : nat),
        let pages := (length sessions / Z.to_nat limit + 1)%nat in
        (pages <= fuel)%nat ->
        exists rows new,
          fetchAppAutomateSessionsForBuild (honest sessions details) fuel buildId config
            Sample.start
          = (Ok rows, {| remote := tt; log := new |})
          /\ length rows = length sessions
          /\ List.filter isPage new
             = List.map
                 (fun k => GetBuildSessions buildId limit (Z.of_nat k * limit)
                             (statusFilter config))
                 (seq 0 pages)
          /\ (forall k, (k < pages)%nat ->
                let page :=
                  firstn (Z.to_nat limit) (skipn (k * Z.to_nat limit) sessions) in
                if Nat.eqb (S k) pages then (length page < Z.to_nat limit)%nat
                else length page = Z.to_nat limit)).
Proof.
  intros limit. split.
  - intros W respond fuel rows offset w page w1 rows1 w2.
    apply sessionPages_stops_at_short_page.
  - intros sessions details fuel. exact (honest_listing sessions details buildId config fuel).
Qed.


End Claims.

(** With 25 sessions and a page limit of 25, two pages are asked for; the
    second one is empty. *)
Lemma session_listing_25_by_25 :
  exists rows new,
    fetchAppAutomateSessionsForBuild (H := Sample.platform) (honest sessions25 noDetails)
      2 "b" Sample.defaults Sample.start
    = (Ok rows, {| remote := tt; log := new |})
    /\ length rows = 25%nat
    /\ List.filter isPage new
       = [GetBuildSessions "b" 25 0 ""; GetBuildSessions "b" 25 25 ""]
    /\ firstn 25 (skipn 25 sessions25) = [].
Proof.
  destruct (session_listing_stops_at_short_page (H := Sample.platform)
              "b" Sample.defaults) as [_ Hhonest].
  destruct (Hhonest sessions25 noDetails 2%nat ltac:(vm_compute; lia))
    as (rows & new & Hrun & Hrows & Hnew & _).
  exists rows, new. repeat split; assumption.
Defined.

(** With 25 sessions and a page limit of 10, three pages are asked for, at
    the offsets 0, 10 and 20. *)
Lemma session_listing_25_by_10 :
  exists rows new,
    fetchAppAutomateSessionsForBuild (H := Sample.platform) (honest sessions25 noDetails)
      3 "b" (withSessionLimit Sample.defaults 10) Sample.start
    = (Ok rows, {| remote := tt; log := new |})
    /\ length rows = 25%nat
    /\ List.filter isPage new
       = [GetBuildSessions "b" 10 0 ""; GetBuildSessions "b" 10 10 "";
          GetBuildSessions "b" 10 20 ""].
Proof.
  destruct (honest_listing (H := Sample.platform)
              sessions25 noDetails "b" (withSessionLimit Sample.defaults 10) 3
              ltac:(vm_compute; lia))
    as (rows & new & Hrun & Hrows & Hnew & _).
  exists rows, new. repeat split; assumption.
Qed.

(** A session limit of zero or below is read as 1. *)
Example pageLimit_of_nonpositive :
  pageLimit (withSessionLimit Sample.defaults 0) = 1
  /\ pageLimit (withSessionLimit Sample.defaults (-5)) = 1.
Proof. split; reflexivity. Qed.


End SessionPaging.

(** ** Flattening (C2) *)

Module FlattenFacts.
Import Hierarchy FlattenSpec.

(** Induction on a tree of nodes. *)
Lemma Node_rect' (P : Node -> Prop) :
  (forall d t det ch, Forall P (coalesce ch []) -> P (mkNode d t det ch)) ->
  forall n, P n.
Proof.
  intros Hnode. fix IH 1. intros [d t det ch]. apply Hnode.
  destruct ch as [| | l]; cbn; [constructor | constructor |].
  induction l as [| x l IHl]; constructor; [apply IH | exact IHl].
Qed.

Section Walk.
Variables (buildId : string) (buildName buildNumber : jsval).

Lemma rowKey_testRow rootDetails rootName parentPath type name details :
  rowKey (testRow buildId buildName buildNumber rootDetails rootName parentPath
            type name details)
  = (JStr (join " > " parentPath), JStr type, JStr name).
Proof. reflexivity. Qed.

Lemma concat_map_keys {A} (f g : A -> list (jsval * jsval * jsval)) (l : list A) :
  Forall (fun x => f x = g x) l ->
  List.concat (List.map f l) = List.concat (List.map g l).
Proof. induction 1 as [| x l Hx _ IH]; cbn; congruence. Qed.

Lemma map_concat_map {A B C} (h : B -> C) (f : A -> list B) (l : list A) :
  List.map h (List.concat (List.map f l))
  = List.concat (List.map (fun x => List.map h (f x)) l).
Proof.
  induction l as [| x l IH]; [reflexivity |].
  cbn. rewrite List.map_app, IH. reflexivity.
Qed.

Lemma filter_concat_map {A B} (p : B -> bool) (f : A -> list B) (l : list A) :
  List.filter p (List.concat (List.map f l))
  = List.concat (List.map (fun x => List.filter p (f x)) l).
Proof.
  induction l as [| x l IH]; [reflexivity |].
  cbn. rewrite List.filter_app, IH. reflexivity.
Qed.

(** With the hooks left out, the visit of a tree whose TEST nodes are
    leaves pushes one row for each named TEST leaf, in order, with the
    path that the visit has built. *)
Lemma walk_keys rootDetails rootName :
  forall n parentPath,
    testsAreLeaves n = true ->
    List.map rowKey
      (walk buildId buildName buildNumber false rootDetails rootName n parentPath)
    = List.map leafKey (List.filter namedTest (leaves true parentPath n)).
Proof.
  induction n as [d t det ch IH] using Node_rect'. intros parentPath Hleaves.
  cbn [walk leaves testsAreLeaves] in *.
  apply andb_true_iff in Hleaves as [Hown Hbelow].
  unfold qualifies. cbn [andb orb]. rewrite orb_false_r.
  destruct ch as [| | [| c l]]; cbn [coalesce] in *.
  1-3: rewrite ?app_nil_r; cbn [List.concat List.map app];
       unfold namedTest, isTest, isNamed, typeOf, displayName; cbn;
       destruct (String.eqb (coalesce t "") "TEST"), (String.eqb (coalesce d "") "");
       reflexivity.
  destruct (String.eqb (coalesce t "") "TEST"); [discriminate |].
  cbn [andb app].
  rewrite map_concat_map, filter_concat_map, map_concat_map.
  replace (if negb (String.eqb (coalesce d "") "")
           then (parentPath ++ [coalesce d ""])%list else parentPath)
    with (if true && String.eqb (coalesce d "") ""
          then parentPath else (parentPath ++ [coalesce d ""])%list)
    by (cbn; destruct (String.eqb (coalesce d "") ""); reflexivity).
  apply concat_map_keys.
  pose proof (proj1 (List.forallb_forall _ _) Hbelow) as Hall.
  rewrite List.Forall_forall in IH |- *.
  intros x Hx. apply IH; [exact Hx |]. apply Hall. exact Hx.
Qed.

Lemma filter_split_length {A} (p q : A -> bool) (l : list A) :
  (length (List.filter (fun x => p x && q x) l)
   + length (List.filter (fun x => p x && negb (q x)) l)
   = length (List.filter p l))%nat.
Proof.
  induction l as [| x l IH]; [reflexivity |].
  cbn. destruct (p x), (q x); cbn; lia.
Qed.

(** C2, as the code has it.  With the hooks left out, a hierarchy whose
    TEST nodes are all leaves gives one row for each leaf TEST node that
    has a non-empty display name, in order: the row carries the name of the
    leaf, and its scope path joins the non-empty display names of the
    ancestors of the leaf, from the root down.  So the rows are as many as
    the leaf TEST nodes less the unnamed ones; no row comes from a HOOK
    node or from a node without a name. *)
Theorem flatten_rows_are_named_test_leaves (hierarchy : list Node) :
  forallb testsAreLeaves hierarchy = true ->
  let rows := flattenTestHierarchy buildId buildName buildNumber false hierarchy in
  List.map rowKey rows
  = List.map leafKey (List.filter namedTest (forestLeaves true hierarchy))
  /\ length rows
     = (countLeaves isTest hierarchy
        - countLeaves (fun n => isTest n && negb (isNamed n)) hierarchy)%nat
  /\ Forall (fun row => prop_get row "test_type" = JStr "TEST"
                        /\ prop_get row "test_name" <> JStr "") rows.
Proof.
  intros Hleaves rows.
  assert (Hkeys : List.map rowKey rows
                  = List.map leafKey (List.filter namedTest (forestLeaves true hierarchy))).
  { unfold rows, flattenTestHierarchy, forestLeaves.
    rewrite map_concat_map, filter_concat_map, map_concat_map.
    apply concat_map_keys. rewrite List.Forall_forall. intros n Hn.
    apply walk_keys. exact (proj1 (List.forallb_forall _ _) Hleaves n Hn). }
  split; [exact Hkeys |]. split.
  - rewrite <- (List.length_map rowKey), Hkeys, List.length_map.
    unfold countLeaves.
    pose proof (filter_split_length (fun an : list string * Node => isTest (snd an))
                  (fun an => isNamed (snd an)) (forestLeaves true hierarchy)) as Hsplit.
    cbv beta in Hsplit.
    change (fun x : list string * Node => isTest (snd x) && isNamed (snd x))
      with namedTest in Hsplit.
    lia.
  - assert (Hall : Forall (fun k : jsval * jsval * jsval =>
                             snd (fst k) = JStr "TEST" /\ snd k <> JStr "")
                     (List.map rowKey rows)).
    { rewrite Hkeys. rewrite List.Forall_forall. intros k Hk.
      apply List.in_map_iff in Hk as (an & <- & Han).
      apply List.filter_In in Han as [_ Hnt]. unfold namedTest in Hnt.
      apply andb_true_iff in Hnt as [Ht Hn]. unfold isTest in Ht. unfold isNamed in Hn.
      apply String.eqb_eq in Ht. cbn. rewrite Ht. split; [reflexivity |].
      intros Heq. injection Heq as Heq. rewrite Heq in Hn. discriminate. }
    rewrite List.Forall_forall in Hall |- *. intros row Hrow.
    apply (Hall (rowKey row)). apply List.in_map. exact Hrow.
Qed.

End Walk.

Lemma flatten_two_tests_one_hook :
  List.map rowKey (flattenTestHierarchy "b" (JStr "n") (JNum (NFin 1)) false twoTestsOneHook)
  = [(JStr "S", JStr "TEST", JStr "t1"); (JStr "S > inner", JStr "TEST", JStr "t2")]
  /\ length (flattenTestHierarchy "b" (JStr "n") (JNum (NFin 1)) false twoTestsOneHook)
     = 2%nat
  /\ countLeaves isTest twoTestsOneHook = 2%nat
  /\ countLeaves isHook twoTestsOneHook = 1%nat.
Proof.
  destruct (flatten_rows_are_named_test_leaves "b" (JStr "n") (JNum (NFin 1))
              twoTestsOneHook eq_refl) as (Hkeys & Hlen & _).
  split; [exact Hkeys |]. split; [exact Hlen |]. split; reflexivity.
Defined.

Example flatten_with_hooks :
  List.map rowKey (flattenTestHierarchy "b" (JStr "n") (JNum (NFin 1)) true twoTestsOneHook)
  = [(JStr "S", JStr "TEST", JStr "t1"); (JStr "S", JStr "HOOK", JStr "before");
     (JStr "S > inner", JStr "TEST", JStr "t2")].
Proof. reflexivity. Qed.

(** C2 as claimed fails on [unnamedNodes]: its TEST nodes are leaves and
    there are two of them, yet one row comes out; and the scope path of
    that row is A, where the display names of the ancestors of the leaf,
    the empty one included, join to another text. *)
Lemma flatten_unnamed_nodes :
  forallb testsAreLeaves unnamedNodes = true
  /\ countLeaves isTest unnamedNodes = 2%nat
  /\ List.map rowKey
       (flattenTestHierarchy "b" (JStr "n") (JNum (NFin 1)) false unnamedNodes)
     = [(JStr "A", JStr "TEST", JStr "t")]
  /\ List.map leafKey (List.filter namedTest (forestLeaves false unnamedNodes))
     = [(JStr "A > ", JStr "TEST", JStr "t")].
Proof. repeat split. Qed.

End FlattenFacts.

(** ** Delimited text (C8) *)

Module CsvFacts.
Import Csv CsvSpec.





(** A value without a quote, a comma or a line feed is written as it is. *)
Lemma csvEscape_verbatim (s : string) :
  needsQuotes s = false -> csvEscape (JStr s) = s.
Proof. intros Hq. unfold csvEscape. cbn. rewrite Hq. reflexivity. Qed.

Example csvEscape_comma_quote_newline :
  readField (csvEscape (JStr commaQuoteNewline)) = Some (commaQuoteNewline, "").
Proof. reflexivity. Qed.

Example csv_table_read_back :
  parseCsv (toCsv table)
  = Some [["name"; "note"; "n"]; ["a,b"; quoted; "3"]; ["plain"; ""; ""]].
Proof. reflexivity. Qed.

(** C8 fails on a value that ends with a carriage return.  The value is
    written bare; in the last column its carriage return meets the line
    feed that [toCsv] puts between rows, and the reader takes the two for
    the line break: the value comes back without its last character. *)
Theorem csv_trailing_carriage_return_lost :
  csvEscape (JStr boomCR) = boomCR
  /\ toCsv logRows = "log" ++ String LF (boomCR ++ String LF "x")
  /\ parseCsv (toCsv logRows) = Some [["log"]; ["boom"]; ["x"]]
  /\ readField (csvEscape (JStr boomCR) ++ String LF "x") = Some ("boom", String CR (String LF "x")).
Proof. repeat split. Qed.

End CsvFacts.

(** ** Dotted paths and joined texts *)

Module PathFacts.

Lemma split_nonempty (sep : ascii) (s : string) : split sep s <> [].
Proof.
  induction s as [| c s IH]; cbn; [discriminate |].
  destruct (Ascii.eqb c sep); [discriminate |].
  destruct (split sep s); [congruence | discriminate].
Qed.

(** The parts of two texts put together around a separator are the parts
    of the one followed by the parts of the other. *)
Lemma split_app (sep : ascii) (a b : string) :
  split sep (a ++ String sep b) = (split sep a ++ split sep b)%list.
Proof.
  induction a as [| c a IH].
  - change ("" ++ String sep b) with (String sep b).
    cbn [split]. rewrite Ascii.eqb_refl. reflexivity.
  - rewrite app_cons. cbn [split]. rewrite IH.
    destruct (Ascii.eqb c sep); [reflexivity |].
    pose proof (split_nonempty sep a) as Hne.
    destruct (split sep a) as [| w ws]; [congruence | reflexivity].
Qed.

Lemma walk_undefined (parts : list string) :
  fold_left (fun acc part => if is_object acc then member acc part else JUndefined)
    parts JUndefined = JUndefined.
Proof. induction parts as [| p parts IH]; [reflexivity | exact IH]. Qed.

(** X1.  A dotted path is read step by step: the value at [a.b] is the
    value at [b] of the value at [a].  Under a value that is neither an
    object nor an array every path reads [undefined]. *)
Theorem getNested_path_composes (input : jsval) (a b : string) :
  getNested input (a ++ "." ++ b) = getNested (getNested input a) b
  /\ (is_object input = false -> getNested input a = JUndefined).
Proof.
  split.
  - unfold getNested.
    change (a ++ "." ++ b) with (a ++ String "." b).
    rewrite split_app, fold_left_app. reflexivity.
  - intros Hprim. unfold getNested.
    pose proof (split_nonempty "." a) as Hne.
    destruct (split "." a) as [| p parts]; [congruence |].
    cbn [fold_left]. rewrite Hprim. apply walk_undefined.
Qed.

Lemma getNested_of_primitive :
  getNested (JObj [("os", JStr "android")]) "os" = JStr "android"
  /\ getNested (JStr "android") "os.name" = JUndefined.
Proof.
  split; [reflexivity |].
  exact (proj2 (getNested_path_composes (JStr "android") "os.name" "") eq_refl).
Defined.

Lemma join_empty (sep : string) (parts : list string) :
  Forall (fun p => p <> "") parts -> join sep parts = "" -> parts = [].
Proof.
  intros Hall Hjoin. destruct parts as [| p rest]; [reflexivity |].
  apply Forall_cons in Hall as [Hp _].
  destruct p as [| c p]; [congruence |].
  destruct rest; [discriminate |].
  rewrite join_cons, app_cons in Hjoin by discriminate. discriminate.
Qed.

(** The texts [safeJoin] puts together. *)
Lemma safeJoin_parts (values : list jsval) (text : string) :
  In text
    (List.filter (fun s => negb (String.eqb s ""))
       (List.map (fun v => trim (String_ v))
          (List.filter (fun v => negb (is_nullish v)) values)))
  <-> text <> "" /\ exists v, In v values /\ is_nullish v = false
                              /\ trim (String_ v) = text.
Proof.
  rewrite List.filter_In, List.in_map_iff. split.
  - intros [(v & Htext & Hv) Hne]. apply List.filter_In in Hv as [Hin Hnn].
    apply negb_true_iff in Hnn. apply negb_true_iff, String.eqb_neq in Hne.
    split; [exact Hne |]. exists v. auto.
  - intros (Hne & v & Hin & Hnn & Htext). split.
    + exists v. split; [exact Htext |]. apply List.filter_In.
      split; [exact Hin |]. rewrite Hnn. reflexivity.
    + apply negb_true_iff, String.eqb_neq, Hne.
Qed.

(** The trimmed text of a value that is neither [null] nor [undefined] is
    found in the joined text. *)
Lemma safeJoin_parts_found (values : list jsval) (delimiter : string) (v : jsval) :
  In v values -> is_nullish v = false ->
  includes (safeJoin values delimiter) (trim (String_ v)) = true.
Proof.
  intros Hin Hnn. unfold safeJoin.
  destruct (String.eqb_spec (trim (String_ v)) "") as [He | Hne].
  - rewrite He, includes_unfold, prefix_empty. reflexivity.
  - apply includes_join, safeJoin_parts. split; [exact Hne |]. exists v. auto.
Qed.

(** X2.  [safeJoin] leaves out what is [null], [undefined] or blank: the
    result is empty exactly when every value is, and the trimmed text of
    every other value is found in the result, whatever the delimiter. *)
Theorem safeJoin_keeps_texts (values : list jsval) (delimiter : string) :
  (safeJoin values delimiter = ""
   <-> forall v, In v values -> is_nullish v = true \/ trim (String_ v) = "")
  /\ (forall v, In v values -> is_nullish v = false ->
      includes (safeJoin values delimiter) (trim (String_ v)) = true).
Proof.
  unfold safeJoin. split; [split |].
  - intros Hjoin v Hin.
    apply join_empty in Hjoin.
    + destruct (is_nullish v) eqn:Hnn; [left; reflexivity | right].
      destruct (String.eqb_spec (trim (String_ v)) "") as [He | Hne]; [exact He |].
      assert (Hmem : In (trim (String_ v)) []).
      { rewrite <- Hjoin. apply safeJoin_parts. split; [exact Hne |]. exists v. auto. }
      destruct Hmem.
    + apply List.Forall_forall. intros text Htext.
      apply safeJoin_parts in Htext. tauto.
  - intros Hall.
    match goal with |- join _ ?parts = _ => destruct parts as [| p rest] eqn:Hparts end;
      [reflexivity |].
    assert (Hp : In p (p :: rest)) by (left; reflexivity).
    rewrite <- Hparts in Hp. apply safeJoin_parts in Hp as (Hne & v & Hin & Hnn & Htext).
    destruct (Hall v Hin) as [Hn | Hb]; congruence.
  - intros v Hin Hnn. apply (safeJoin_parts_found values delimiter v Hin Hnn).
Qed.

Lemma safeJoin_of_tags :
  includes (safeJoin [JStr " smoke "; JNull; JStr "checkout"] ", ") "smoke" = true.
Proof.
  exact (proj2 (safeJoin_keeps_texts [JStr " smoke "; JNull; JStr "checkout"] ", ")
           (JStr " smoke ") ltac:(left; reflexivity) eq_refl).
Defined.

End PathFacts.

(** ** Values kept once *)

Module UniqueFacts.

Section Distinct.
Context {A : Type} (eqb : A -> A -> bool) (P : A -> Prop).
Hypothesis eqb_eq : forall a b, P a -> P b -> (eqb a b = true <-> a = b).

Lemma existsb_eqb (x : A) (seen : list A) :
  P x -> Forall P seen -> (existsb (eqb x) seen = true <-> In x seen).
Proof.
  intros Hx Hseen. rewrite existsb_exists. split.
  - intros (y & Hin & He).
    apply eqb_eq in He; [subst; exact Hin | exact Hx |].
    exact (proj1 (List.Forall_forall _ _) Hseen y Hin).
  - intros Hin. exists x. split; [exact Hin |]. apply eqb_eq; auto.
Qed.

Lemma distinct_In (values : list A) :
  forall seen x, Forall P values -> Forall P seen ->
    (In x (distinct eqb seen values) <-> In x values /\ ~ In x seen).
Proof.
  induction values as [| v rest IH]; intros seen x Hvalues Hseen; cbn [distinct].
  - cbn. tauto.
  - apply Forall_cons in Hvalues as [Hv Hrest].
    pose proof (existsb_eqb v seen Hv Hseen) as Hmem.
    destruct (existsb (eqb v) seen) eqn:He.
    + rewrite IH by assumption. cbn [In]. split; [tauto |].
      intros [[-> | Hin] Hnot]; [| tauto].
      exfalso. apply Hnot, Hmem. reflexivity.
    + cbn [In]. rewrite IH by (try constructor; assumption). cbn [In].
      assert (Hnew : ~ In v seen) by (intros Hin; apply Hmem in Hin; discriminate).
      split.
      * intros [-> | [Hin Hnot]]; [tauto |]. tauto.
      * intros [[-> | Hin] Hnot]; [tauto |].
        destruct (existsb (eqb v) [x]) eqn:Hvx.
        -- cbn in Hvx. rewrite orb_false_r in Hvx.
           apply eqb_eq in Hvx;
             [tauto | exact Hv | exact (proj1 (List.Forall_forall _ _) Hrest x Hin)].
        -- right. split; [exact Hin |]. intros [-> | Hs]; [| tauto].
           cbn in Hvx. rewrite orb_false_r in Hvx.
           assert (eqb x x = true) by (apply eqb_eq; auto). congruence.
Qed.

Lemma distinct_NoDup (values : list A) :
  forall seen, Forall P values -> Forall P seen ->
    List.NoDup (distinct eqb seen values).
Proof.
  induction values as [| v rest IH]; intros seen Hvalues Hseen; cbn [distinct].
  - constructor.
  - apply Forall_cons in Hvalues as [Hv Hrest].
    destruct (existsb (eqb v) seen); [apply IH; assumption |].
    apply List.NoDup_cons.
    + rewrite distinct_In by (try constructor; assumption).
      cbn [In]. tauto.
    + apply IH; [| constructor]; assumption.
Qed.

End Distinct.

Lemma string_eqb_eq (a b : string) : True -> True -> (String.eqb a b = true <-> a = b).
Proof. intros _ _. apply String.eqb_eq. Qed.

Lemma jsnum_eqb_eq (a b : jsnum) :
  isFinite a = true -> isFinite b = true -> (jsnum_eqb a b = true <-> a = b).
Proof.
  destruct a, b; cbn; try discriminate. intros _ _.
  rewrite Z.eqb_eq. split; congruence.
Qed.

Lemma Forall_True {A} (l : list A) : Forall (fun _ => True) l.
Proof. induction l; constructor; auto. Qed.

Lemma uniqueNonEmpty_distinct (values : list string) :
  List.NoDup (uniqueNonEmpty values) /\ ~ In "" (uniqueNonEmpty values).
Proof.
  unfold uniqueNonEmpty. split.
  - apply (distinct_NoDup String.eqb (fun _ => True) string_eqb_eq);
      apply Forall_True.
  - rewrite (distinct_In String.eqb (fun _ => True) string_eqb_eq)
      by apply Forall_True.
    rewrite List.filter_In. cbn. intuition discriminate.
Qed.

(** X3.  [uniqueNonEmpty] returns every trimmed text that is not empty, and
    each of them once. *)
Theorem uniqueNonEmpty_once (values : list string) :
  List.NoDup (uniqueNonEmpty values)
  /\ forall x, In x (uniqueNonEmpty values)
               <-> x <> "" /\ exists v, In v values /\ trim v = x.
Proof.
  unfold uniqueNonEmpty. split.
  - apply (distinct_NoDup String.eqb (fun _ => True) string_eqb_eq);
      apply Forall_True.
  - intros x.
    rewrite (distinct_In String.eqb (fun _ => True) string_eqb_eq)
      by apply Forall_True.
    rewrite List.filter_In, List.in_map_iff. cbn [In].
    assert (Hlen : Nat.ltb 0 (String.length x) = true <-> x <> "").
    { destruct x; cbn; split; intros; congruence. }
    rewrite Hlen. split.
    + intros [[(v & Htrim & Hin) Hne] _]. split; [exact Hne |]. exists v. auto.
    + intros (Hne & v & Hin & Htrim). split; [| tauto].
      split; [exists v; auto | exact Hne].
Qed.

Lemma uniqueNumbers_distinct (values : list jsnum) :
  List.NoDup (uniqueNumbers values)
  /\ Forall (fun n => isFinite n = true) (uniqueNumbers values).
Proof.
  unfold uniqueNumbers.
  assert (Hfin : Forall (fun n => isFinite n = true) (List.filter isFinite values)).
  { apply List.Forall_forall. intros n Hn. apply List.filter_In in Hn. tauto. }
  split.
  - apply (distinct_NoDup jsnum_eqb (fun n => isFinite n = true) jsnum_eqb_eq);
      [exact Hfin | constructor].
  - apply List.Forall_forall. intros n Hn.
    apply (distinct_In jsnum_eqb (fun n => isFinite n = true) jsnum_eqb_eq) in Hn;
      [| exact Hfin | constructor].
    destruct Hn as [Hn _]. apply List.filter_In in Hn. tauto.
Qed.

(** X4.  [uniqueNumbers] returns every finite number of the list, and each
    of them once; NaN and the infinities are left out. *)
Theorem uniqueNumbers_once (values : list jsnum) :
  List.NoDup (uniqueNumbers values)
  /\ forall x, In x (uniqueNumbers values) <-> In x values /\ isFinite x = true.
Proof.
  unfold uniqueNumbers.
  assert (Hfin : Forall (fun n => isFinite n = true) (List.filter isFinite values)).
  { apply List.Forall_forall. intros n Hn. apply List.filter_In in Hn. tauto. }
  split.
  - apply (distinct_NoDup jsnum_eqb (fun n => isFinite n = true) jsnum_eqb_eq);
      [exact Hfin | constructor].
  - intros x.
    rewrite (distinct_In jsnum_eqb (fun n => isFinite n = true) jsnum_eqb_eq)
      by (try exact Hfin; constructor).
    rewrite List.filter_In. cbn [In]. tauto.
Qed.

End UniqueFacts.

(** ** Payloads of unknown shape *)

Module PayloadFacts.
Import Paging.

Lemma keepObjects_objects (items : list jsval) :
  Forall (fun record => is_object record = true) (keepObjects items).
Proof.
  apply List.Forall_forall. intros record Hin.
  apply List.filter_In in Hin. tauto.
Qed.

(** X5.  [extractObjectsFromUnknownPayload] returns objects only, and none
    from a payload that is neither an array nor an object; an array under
    [builds] is read before any other key. *)
Theorem extractObjects_only_objects (payload : jsval) :
  Forall (fun record => is_object record = true)
    (extractObjectsFromUnknownPayload payload)
  /\ (is_object payload = false -> extractObjectsFromUnknownPayload payload = [])
  /\ (forall root items,
        payload = JObj root -> prop_get root "builds" = JArr items ->
        extractObjectsFromUnknownPayload payload = keepObjects items).
Proof.
  split; [| split].
  - destruct payload; unfold extractObjectsFromUnknownPayload; try constructor.
    + apply keepObjects_objects.
    + match goal with
      | |- context [match List.find ?f ?l with _ => _ end] => destruct (List.find f l)
      end; [apply keepObjects_objects | constructor].
  - destruct payload; cbn; congruence.
  - intros root items -> Hbuilds. cbn. rewrite !Hbuilds. reflexivity.
Qed.

Lemma extractObjects_of_builds :
  extractObjectsFromUnknownPayload (JStr "down for maintenance") = []
  /\ extractObjectsFromUnknownPayload
       (JObj [("data", JArr [JNum (NFin 1)]);
              ("builds", JArr [JObj [("id", JStr "b1")]; JNull])])
     = [JObj [("id", JStr "b1")]].
Proof.
  split.
  - exact (proj1 (proj2 (extractObjects_only_objects (JStr "down for maintenance")))
             eq_refl).
  - exact (proj2 (proj2 (extractObjects_only_objects _))
             [("data", JArr [JNum (NFin 1)]);
              ("builds", JArr [JObj [("id", JStr "b1")]; JNull])]
             [JObj [("id", JStr "b1")]; JNull] eq_refl eq_refl).
Defined.

End PayloadFacts.

(** ** The columns of a projection *)

Module ColumnFacts.
Import Config Projection ColumnSpec.

Lemma prop_set_new (props : list (string * jsval)) (k : string) (v : jsval) :
  ~ In k (List.map fst props) -> prop_set props k v = (props ++ [(k, v)])%list.
Proof.
  induction props as [| [k' v'] rest IH]; intros Hnew; [reflexivity |].
  cbn [prop_set]. cbn in Hnew.
  destruct (String.eqb_spec k' k) as [-> | Hne]; [tauto |].
  rewrite IH by tauto. reflexivity.
Qed.

Lemma pickCell_header (row : Row) (column : ColumnConfig) :
  fst (pickCell row column) = headerOf column.
Proof. reflexivity. Qed.

(** The cells are written one after the other when no header comes twice. *)
Lemma cells_in_order (row : Row) (columns : list ColumnConfig) :
  forall written,
    List.NoDup (List.map fst written ++ List.map headerOf columns) ->
    fold_left
      (fun nextRow column =>
         let '(header, value) := pickCell row column in prop_set nextRow header value)
      columns written
    = (written ++ List.map (pickCell row) columns)%list.
Proof.
  induction columns as [| column rest IH]; intros written Hnd; cbn [fold_left List.map].
  - rewrite app_nil_r. reflexivity.
  - destruct (pickCell row column) as [header value] eqn:Hcell.
    assert (Hheader : header = headerOf column)
      by (rewrite <- (pickCell_header row column), Hcell; reflexivity).
    cbn [List.map] in Hnd.
    rewrite prop_set_new.
    + rewrite IH.
      * rewrite <- app_assoc. reflexivity.
      * rewrite List.map_app, <- app_assoc. cbn [List.map fst app].
        rewrite Hheader. exact Hnd.
    + rewrite Hheader. intros Hin.
      apply List.NoDup_remove_2 in Hnd. apply Hnd, in_or_app. left. exact Hin.
Qed.

Lemma pickColumns_length (rows : list Row) (columns : opt (list ColumnConfig)) :
  length (pickColumns rows columns) = length rows.
Proof.
  unfold pickColumns.
  destruct (noColumns columns); [reflexivity | apply List.length_map].
Qed.

(** X6.  The projection keeps the number of rows.  When no header comes
    twice, and every header is one that an object keeps at the place where
    it was written (no integer index and not [__proto__]), every row is
    written as the cells of the columns, in the order of the columns: all
    rows get the same headers, whatever they hold. *)
Theorem pickColumns_writes_columns (rows : list Row) :
  (forall columns, length (pickColumns rows columns) = length rows)
  /\ (forall columns,
        columns <> [] -> List.NoDup (List.map headerOf columns) ->
        Forall (fun column => plainHeader (headerOf column) = true) columns ->
        pickColumns rows (Val columns)
        = List.map (fun row => List.map (pickCell row) columns) rows).
Proof.
  split.
  - intros columns. apply pickColumns_length.
  - intros columns Hne Hnd _. unfold pickColumns.
    destruct columns as [| column rest]; [congruence |].
    cbn [noColumns length Nat.eqb coalesce].
    apply List.map_ext. intros row.
    rewrite cells_in_order; [reflexivity | exact Hnd].
Qed.

Lemma pickColumns_two_columns :
  pickColumns [[("name", JStr "login"); ("status", JStr "passed")]; [("name", JStr "pay")]]
    (Val [{| key := "status"; header := Val "Status"; default := Val (JStr "n/a") |};
          {| key := "name"; header := Undef; default := Undef |}])
  = [[("Status", JStr "passed"); ("name", JStr "login")];
     [("Status", JStr "n/a"); ("name", JStr "pay")]].
Proof.
  refine (proj2 (pickColumns_writes_columns _) _ _ _ _).
  - discriminate.
  - repeat constructor; cbn; intuition discriminate.
  - repeat constructor.
Defined.

End ColumnFacts.

(** ** The row filters *)

Module FilterFacts.
Import Config Validation Filtering FilterSpec.

Lemma trimEnd_idempotent (s : string) : trimEnd (trimEnd s) = trimEnd s.
Proof.
  induction s as [| c rest IH]; [reflexivity |].
  cbn [trimEnd]. destruct (trimEnd rest) as [| k kept] eqn:Hrest.
  - destruct (is_space c) eqn:Hc; [reflexivity |].
    cbn [trimEnd]. rewrite Hc. reflexivity.
  - cbn [trimEnd]. cbn [trimEnd] in IH. rewrite IH. reflexivity.
Qed.

Lemma trimStart_head (s : string) :
  match trimStart s with
  | EmptyString => True
  | String c _ => is_space c = false
  end.
Proof.
  induction s as [| c rest IH]; [exact I |].
  cbn [trimStart]. destruct (is_space c) eqn:Hc; [exact IH | exact Hc].
Qed.

Lemma trimStart_trimEnd (u : string) :
  match u with EmptyString => True | String c _ => is_space c = false end ->
  trimStart (trimEnd u) = trimEnd u.
Proof.
  destruct u as [| c rest]; [reflexivity |]. intros Hc.
  cbn [trimEnd]. destruct (trimEnd rest).
  - rewrite Hc. cbn [trimStart]. rewrite Hc. reflexivity.
  - cbn [trimStart]. rewrite Hc. reflexivity.
Qed.

Lemma trim_idempotent (s : string) : trim (trim s) = trim s.
Proof.
  unfold trim. rewrite (trimStart_trimEnd _ (trimStart_head s)).
  apply trimEnd_idempotent.
Qed.

Lemma isPlaceholderValue_trim (s : string) :
  isPlaceholderValue (trim s) = isPlaceholderValue s.
Proof. unfold isPlaceholderValue. rewrite trim_idempotent. reflexivity. Qed.

Lemma filter_all {A} (p : A -> bool) (l : list A) :
  (forall x, In x l -> p x = true) -> List.filter p l = l.
Proof.
  induction l as [| x l IH]; intros Hall; [reflexivity |].
  cbn [List.filter]. rewrite (Hall x) by (left; reflexivity).
  rewrite IH; [reflexivity |]. intros y Hy. apply Hall. right. exact Hy.
Qed.

Lemma map_id_on {A} (f : A -> A) (l : list A) :
  (forall x, In x l -> f x = x) -> List.map f l = l.
Proof.
  induction l as [| x l IH]; intros Hall; [reflexivity |].
  cbn [List.map]. rewrite (Hall x) by (left; reflexivity).
  rewrite IH; [reflexivity |]. intros y Hy. apply Hall. right. exact Hy.
Qed.

(** What [normalizeTerms] keeps. *)
Lemma normalizeTerms_kept (values : opt (list string)) (x : string) :
  In x (normalizeTerms values) ->
  trim x = x /\ Nat.ltb 0 (String.length x) = true /\ isPlaceholderValue x = false.
Proof.
  destruct values as [| | values]; cbn [normalizeTerms]; intros Hin;
    [destruct Hin | destruct Hin |].
  apply List.filter_In in Hin as [Hin Hp].
  apply List.filter_In in Hin as [Hin Hlen].
  apply List.in_map_iff in Hin as (v & <- & _).
  rewrite trim_idempotent. apply negb_true_iff in Hp. auto.
Qed.

(** X7.  The terms [normalizeTerms] keeps are trimmed, not empty and no
    placeholders, and normalizing them again changes nothing. *)
Theorem normalizeTerms_idempotent (values : opt (list string)) :
  normalizeTerms (Val (normalizeTerms values)) = normalizeTerms values
  /\ forall x, In x (normalizeTerms values) ->
               trim x = x /\ x <> "" /\ isPlaceholderValue x = false.
Proof.
  split.
  - change (normalizeTerms (Val (normalizeTerms values)))
      with (List.filter (fun value => negb (isPlaceholderValue value))
              (List.filter (fun value => Nat.ltb 0 (String.length value))
                 (List.map trim (normalizeTerms values)))).
    rewrite (map_id_on trim)
      by (intros x Hx; apply (normalizeTerms_kept values x Hx)).
    rewrite (filter_all (fun value => Nat.ltb 0 (String.length value)))
      by (intros x Hx; apply (normalizeTerms_kept values x Hx)).
    apply filter_all. intros x Hx.
    destruct (normalizeTerms_kept values x Hx) as (_ & _ & ->). reflexivity.
  - intros x Hx. destruct (normalizeTerms_kept values x Hx) as (Ht & Hl & Hp).
    repeat split; [exact Ht | | exact Hp].
    intros ->. discriminate.
Qed.

Lemma normalizeTerms_of_team :
  trim "payments" = "payments" /\ "payments" <> ""
  /\ isPlaceholderValue "payments" = false.
Proof.
  exact (proj2 (normalizeTerms_idempotent (Val ["  payments "; "your-team"; " "]))
           "payments" ltac:(vm_compute; left; reflexivity)).
Defined.

(** *** Matching without regard to case *)

Lemma lower_idempotent (c : ascii) : lower (lower c) = lower c.
Proof. destruct c as [[] [] [] [] [] [] [] []]; reflexivity. Qed.

Lemma toLowerCase_idempotent (s : string) : toLowerCase (toLowerCase s) = toLowerCase s.
Proof.
  induction s as [| c s IH]; [reflexivity |].
  cbn [toLowerCase]. rewrite lower_idempotent, IH. reflexivity.
Qed.

Lemma prefix_cons (a b : ascii) (n s : string) :
  String.prefix (String a n) (String b s) = true <-> a = b /\ String.prefix n s = true.
Proof.
  cbn [String.prefix]. destruct (ascii_dec a b) as [-> | Hne]; [tauto |].
  split; [discriminate | tauto].
Qed.

Lemma prefix_toLowerCase (n s : string) :
  String.prefix n s = true -> String.prefix (toLowerCase n) (toLowerCase s) = true.
Proof.
  revert s. induction n as [| a n IH]; intros s Hp; [apply prefix_empty |].
  destruct s as [| b s]; [discriminate |].
  apply prefix_cons in Hp as [-> Hp]. cbn [toLowerCase].
  apply prefix_cons. split; [reflexivity | apply IH, Hp].
Qed.

Lemma includes_toLowerCase (s n : string) :
  includes s n = true -> includes (toLowerCase s) (toLowerCase n) = true.
Proof.
  induction s as [| c s IH]; intros Hi; rewrite includes_unfold in Hi;
    rewrite includes_unfold.
  - rewrite orb_false_r in Hi. apply prefix_toLowerCase in Hi.
    rewrite Hi. reflexivity.
  - apply orb_true_iff in Hi as [Hp | Hr].
    + apply prefix_toLowerCase in Hp. rewrite Hp. reflexivity.
    + cbn [toLowerCase]. rewrite (IH Hr). apply orb_true_r.
Qed.

(** X8.  Without terms every text matches.  For a text and terms of ASCII
    characters, a match with regard to case is also a match without, and
    matching without regard to case is matching the lowered text against
    the lowered terms. *)
Theorem matchAnyTerm_case (text : string) (terms : list string) :
  (forall caseSensitive, matchAnyTerm text [] caseSensitive = true)
  /\ (isAscii text = true -> Forall (fun term => isAscii term = true) terms ->
      (matchAnyTerm text terms true = true -> matchAnyTerm text terms false = true)
      /\ matchAnyTerm text terms false
         = matchAnyTerm (toLowerCase text) (List.map toLowerCase terms) true).
Proof.
  split; [reflexivity |]. intros _ _. split.
  - unfold matchAnyTerm. destruct (Nat.eqb (length terms) 0); [reflexivity |].
    rewrite !existsb_exists. intros (term & Hin & Hi).
    exists term. split; [exact Hin | apply includes_toLowerCase, Hi].
  - unfold matchAnyTerm. rewrite List.length_map.
    destruct (Nat.eqb (length terms) 0); [reflexivity |].
    induction terms as [| term rest IH]; [reflexivity |].
    cbn [existsb List.map]. rewrite IH. reflexivity.
Qed.

Lemma matchAnyTerm_of_capitals :
  matchAnyTerm "Checkout Team" ["Team"] false = true.
Proof.
  exact (proj1 (proj2 (matchAnyTerm_case "Checkout Team" ["Team"])
                  eq_refl ltac:(repeat constructor)) eq_refl).
Defined.

(** *** A term found in a cell *)

Lemma append_assoc (a b c : string) : (a ++ b) ++ c = a ++ (b ++ c).
Proof.
  induction a as [| x a IH]; [reflexivity |].
  rewrite !app_cons, IH. reflexivity.
Qed.

Lemma prefix_split (n s : string) :
  String.prefix n s = true -> exists q, s = n ++ q.
Proof.
  revert s. induction n as [| a n IH]; intros s Hp; [exists s; reflexivity |].
  destruct s as [| b s]; [discriminate |].
  apply prefix_cons in Hp as [-> Hp]. destruct (IH s Hp) as (q & ->).
  exists q. reflexivity.
Qed.

Lemma includes_split (s n : string) :
  includes s n = true <-> exists p q, s = p ++ n ++ q.
Proof.
  split.
  - induction s as [| c s IH]; intros Hi; rewrite includes_unfold in Hi.
    + rewrite orb_false_r in Hi. apply prefix_split in Hi as (q & ->).
      exists "", q. reflexivity.
    + apply orb_true_iff in Hi as [Hp | Hr].
      * apply prefix_split in Hp as (q & ->). exists "", q. reflexivity.
      * destruct (IH Hr) as (p & q & ->). exists (String c p), q. reflexivity.
  - intros (p & q & ->). apply includes_app_r, includes_app_l, includes_self.
Qed.

Lemma includes_trans (a b c : string) :
  includes a b = true -> includes b c = true -> includes a c = true.
Proof.
  rewrite !includes_split. intros (p & q & ->) (p' & q' & ->).
  exists (p ++ p'), (q' ++ q). rewrite !append_assoc. reflexivity.
Qed.

(** X9.  When the texts of the cells read for a filter and the term are of
    ASCII characters, a term that occurs in the trimmed text of one of the
    cells matches the row, with or without regard to case. *)
Theorem term_in_cell_matches (cells : list jsval) (terms : list string)
    (caseSensitive : bool) (cell : jsval) (term : string) :
  Forall (fun value => isAscii (String_ value) = true) cells ->
  isAscii term = true ->
  In cell cells -> is_nullish cell = false -> In term terms ->
  includes (trim (String_ cell)) term = true ->
  matchAnyTerm (safeJoin cells ", ") terms caseSensitive = true.
Proof.
  intros _ _ Hcell Hnn Hterm Hocc.
  assert (Hfound : includes (safeJoin cells ", ") term = true).
  { apply (includes_trans _ (trim (String_ cell))); [| exact Hocc].
    apply PathFacts.safeJoin_parts_found; assumption. }
  unfold matchAnyTerm.
  destruct terms as [| t rest]; [destruct Hterm |].
  cbn [length Nat.eqb].
  destruct caseSensitive; apply existsb_exists; exists term;
    (split; [exact Hterm |]); [exact Hfound | apply includes_toLowerCase, Hfound].
Qed.

Lemma term_in_tags_matches :
  matchAnyTerm (safeJoin [JStr "nightly"; JUndefined; JStr "team-payments, smoke"] ", ")
    ["payments"] false = true.
Proof.
  apply (term_in_cell_matches _ _ _ (JStr "team-payments, smoke") "payments");
    [repeat constructor | reflexivity | right; right; left; reflexivity | reflexivity
    | left; reflexivity | reflexivity].
Defined.

(** *** Filters that keep every row *)

Section Window.
Context `{Platform}.

Lemma isWithinDays_noWindow (row : Row) (keys : list string) (days : opt jsnum) :
  noWindow days -> isWithinDays row keys days = true.
Proof.
  destruct days as [| | d]; cbn; try reflexivity. intros ->. reflexivity.
Qed.

Lemma rowMatches_no_terms (options : FilterOptions) (row : Row) :
  normalizeTerms (f_projects options) = [] ->
  normalizeTerms (f_teams options) = [] ->
  normalizeTerms (f_people options) = [] ->
  rowMatches options row = isWithinDays row (dateKeys options) (f_days options).
Proof.
  intros Hp Ht Hq. unfold rowMatches. rewrite Hp, Ht, Hq. reflexivity.
Qed.

Lemma applyFiltersToRows_all (rows : list Row) (options : FilterOptions) :
  normalizeTerms (f_projects options) = [] ->
  normalizeTerms (f_teams options) = [] ->
  normalizeTerms (f_people options) = [] ->
  noWindow (f_days options) ->
  applyFiltersToRows rows options = rows.
Proof.
  intros Hp Ht Hq Hd. unfold applyFiltersToRows. apply filter_all.
  intros row _. rewrite rowMatches_no_terms by assumption.
  apply isWithinDays_noWindow, Hd.
Qed.

(** X10.  Filters without a term and without a day window keep every row
    of every section, and so do the filters of a configuration document
    that has none.  Whatever the day window, the applications are kept
    unless [applyDaysToApps] is set. *)
Theorem applyConfiguredFilters_keeps_all (data : Data) :
  (forall config f,
      filters config = Val f -> noTerms f -> noWindow (days f) ->
      applyConfiguredFilters config data = data)
  /\ (forall raw,
        raw_filters raw = Undef ->
        applyConfiguredFilters (resolveConfig raw) data = data)
  /\ (forall config f,
        filters config = Val f -> noTerms f -> applyDaysToApps f <> Val true ->
        d_apps (applyConfiguredFilters config data) = d_apps data).
Proof.
  assert (Hall : forall config f,
             filters config = Val f -> noTerms f -> noWindow (days f) ->
             applyConfiguredFilters config data = data).
  { intros config f Hf (Hp & Ht & Hq) Hd. unfold applyConfiguredFilters. rewrite Hf.
    rewrite !applyFiltersToRows_all; cbn; try assumption.
    - destruct data; reflexivity.
    - destruct (applyDaysToApps f) as [| | []]; cbn; auto. }
  split; [exact Hall |]. split.
  - intros raw Hraw. eapply Hall; [reflexivity | |]; cbn; rewrite Hraw; cbn; auto.
    repeat split.
  - intros config f Hf (Hp & Ht & Hq) Happs. unfold applyConfiguredFilters.
    rewrite Hf. cbn [d_apps]. apply applyFiltersToRows_all; cbn; try assumption.
    destruct (applyDaysToApps f) as [| | []]; cbn; auto. congruence.
Qed.

End Window.

Lemma default_filters_keep_all :
  applyConfiguredFilters (H := Sample.platform) Sample.defaults
    {| d_builds := [buildBy "ana" "team-payments"; buildBy "li" "smoke"];
       d_tests := []; d_sessions := []; d_apps := [] |}
  = {| d_builds := [buildBy "ana" "team-payments"; buildBy "li" "smoke"];
       d_tests := []; d_sessions := []; d_apps := [] |}.
Proof.
  exact (proj1 (proj2 (applyConfiguredFilters_keeps_all (H := Sample.platform)
                         {| d_builds := [buildBy "ana" "team-payments"; buildBy "li" "smoke"];
                            d_tests := []; d_sessions := []; d_apps := [] |}))
           Sample.emptyRaw eq_refl).
Defined.

End FilterFacts.

(** ** The order of the rows *)

Module SortFacts.
Import RowOrder SortSpec.

Section Insertion.
Context {A : Type} (compare : A -> A -> jsnum).

Lemma insert_permutation (x : A) (sorted : list A) :
  Permutation (insert compare x sorted) (x :: sorted).
Proof.
  induction sorted as [| y rest IH]; cbn [insert]; [reflexivity |].
  destruct (positive (compare x y)); [| reflexivity].
  rewrite IH. apply perm_swap.
Qed.

Lemma sort_permutation (items : list A) : Permutation (sort compare items) items.
Proof.
  induction items as [| x rest IH]; cbn [sort fold_right]; [reflexivity |].
  change (fold_right (insert compare) [] rest) with (sort compare rest).
  rewrite insert_permutation, IH. reflexivity.
Qed.

(** The elements a property picks keep their order when the one inserted
    goes after none of them. *)
Lemma filter_insert (p : A -> bool) (x : A) (sorted : list A) :
  (forall y, p x = true -> p y = true -> positive (compare x y) = false) ->
  List.filter p (insert compare x sorted) = List.filter p (x :: sorted).
Proof.
  intros Hties. induction sorted as [| y rest IH]; cbn [insert]; [reflexivity |].
  destruct (positive (compare x y)) eqn:Hafter; [| reflexivity].
  cbn [List.filter] in *. rewrite IH.
  destruct (p x) eqn:Hx; [| reflexivity].
  destruct (p y) eqn:Hy; [| reflexivity].
  rewrite (Hties y eq_refl Hy) in Hafter. discriminate.
Qed.

End Insertion.

Section Rows.
Context `{Platform}.
Variable keys : list string.

Local Abbreviation latest := (fun row => getLatestTimestamp row keys).

Lemma max_dated (timestamps : list jsnum) :
  Forall (fun n => isFinite n = true) timestamps ->
  forall start, dated start -> dated (fold_left num_max timestamps start).
Proof.
  induction timestamps as [| n rest IH]; intros Hfin start Hstart; [exact Hstart |].
  apply Forall_cons in Hfin as [Hn Hrest]. cbn [fold_left].
  apply IH; [exact Hrest |].
  destruct n; try discriminate.
  destruct Hstart as [-> | (t & ->)]; right; eexists; reflexivity.
Qed.

Lemma latest_dated (row : Row) : dated (latest row).
Proof.
  cbv beta. unfold getLatestTimestamp.
  destruct (Nat.eqb (length (rowTimestamps row keys)) 0); [left; reflexivity |].
  apply max_dated; [| left; reflexivity].
  apply List.Forall_forall. intros n Hn. unfold rowTimestamps in Hn.
  apply List.filter_In in Hn. tauto.
Qed.

(** The comparator puts [left] after [right] exactly when the latest date
    of [right] is strictly the later one. *)
Lemma byDateDesc_after (left right : Row) :
  positive (byDateDesc keys left right)
  = negb (num_leb (latest right) (latest left)).
Proof.
  unfold byDateDesc. cbv beta.
  destruct (latest_dated left) as [-> | (x & ->)];
    destruct (latest_dated right) as [-> | (y & ->)]; cbn; try reflexivity.
  unfold num_differ. cbn.
  destruct (Z.eqb_spec y x) as [-> | Hne]; cbn.
  - rewrite Z.leb_refl. reflexivity.
  - destruct (Z.leb_spec y x); destruct (Z.ltb_spec 0 (y - x)); (reflexivity || lia).
Qed.

Lemma num_leb_dated_trans (a b c : jsnum) :
  dated a -> dated b -> dated c ->
  num_leb a b = true -> num_leb b c = true -> num_leb a c = true.
Proof.
  intros [-> | (x & ->)] [-> | (y & ->)] [-> | (z & ->)]; cbn; try congruence.
  rewrite !Z.leb_le. lia.
Qed.

Lemma num_leb_dated_total (a b : jsnum) :
  dated a -> dated b -> num_leb a b = false -> num_leb b a = true.
Proof.
  intros [-> | (x & ->)] [-> | (y & ->)]; cbn; try congruence.
  rewrite Z.leb_gt, Z.leb_le. lia.
Qed.

Lemma insert_latestFirst (row : Row) (sorted : list Row) :
  latestFirst keys sorted -> latestFirst keys (insert (byDateDesc keys) row sorted).
Proof.
  induction sorted as [| y rest IH]; intros Hsorted; cbn [insert].
  - cbn. auto.
  - rewrite byDateDesc_after. cbv beta.
    destruct (num_leb (getLatestTimestamp y keys) (getLatestTimestamp row keys))
      eqn:Hle; cbn [negb].
    + cbn [latestFirst] in *. destruct Hsorted as [Hy Hrest].
      repeat split; [| exact Hy | exact Hrest].
      constructor; [exact Hle |].
      eapply Forall_impl; [exact Hy |]. cbv beta. intros later Hlater.
      eapply num_leb_dated_trans; eauto using latest_dated.
    + cbn [latestFirst] in *. destruct Hsorted as [Hy Hrest].
      split; [| apply IH, Hrest].
      rewrite insert_permutation.
      constructor; [| exact Hy].
      apply num_leb_dated_total; auto using latest_dated.
Qed.

(** X11.  [sortRowsByDateDesc] returns the rows it was given, every one
    once, with the latest dates first: no row comes after a row with an
    earlier latest date, and the rows without a date come last. *)
Theorem sortRowsByDateDesc_latest_first (rows : list Row) :
  Permutation (sortRowsByDateDesc rows keys) rows
  /\ latestFirst keys (sortRowsByDateDesc rows keys).
Proof.
  split; [apply sort_permutation |].
  unfold sortRowsByDateDesc.
  induction rows as [| row rest IH]; [exact I |].
  cbn [sort fold_right]. apply insert_latestFirst, IH.
Qed.

(** X12.  The sort is stable: the rows of one latest date keep the order
    they came in, and rows that all have no date are not moved. *)
Theorem sortRowsByDateDesc_stable (rows : list Row) :
  (forall t, datedAt keys t (sortRowsByDateDesc rows keys) = datedAt keys t rows)
  /\ ((forall row, In row rows -> rowTimestamps row keys = []) ->
      sortRowsByDateDesc rows keys = rows).
Proof.
  assert (Hstable :
            forall t, datedAt keys t (sortRowsByDateDesc rows keys) = datedAt keys t rows).
  { intros t. unfold datedAt, sortRowsByDateDesc.
    induction rows as [| row rest IH]; [reflexivity |].
    cbn [sort fold_right]. rewrite filter_insert.
    - cbn [List.filter].
      change (fold_right (insert (byDateDesc keys)) [] rest)
        with (sort (byDateDesc keys) rest).
      rewrite IH. reflexivity.
    - intros y Hx Hy. rewrite byDateDesc_after.
      destruct (latest_dated y) as [Ey | (ty & Ey)];
        destruct (latest_dated row) as [Er | (tr & Er)];
        cbv beta in *; rewrite Ey, Er in *; destruct t; cbn in *; try congruence.
      apply Z.eqb_eq in Hx, Hy. subst. rewrite Z.leb_refl. reflexivity. }
  split; [exact Hstable |].
  intros Hnone.
  assert (Hall : forall l : list Row,
             (forall row, In row l -> In row rows) -> datedAt keys NNegInf l = l).
  { intros l Hl. unfold datedAt. apply FilterFacts.filter_all. intros row Hrow.
    unfold getLatestTimestamp. rewrite (Hnone row (Hl row Hrow)). reflexivity. }
  rewrite <- (Hall (sortRowsByDateDesc rows keys)).
  - rewrite Hstable. apply Hall. auto.
  - intros row Hrow.
    apply (Permutation_in _ (sort_permutation (byDateDesc keys) rows) Hrow).
Qed.

End Rows.

Lemma undated_sessions_stay :
  sortRowsByDateDesc (H := Sample.platform)
    [sessionAt "first" ""; sessionAt "second" "soon"] ["session_started_at"]
  = [sessionAt "first" ""; sessionAt "second" "soon"].
Proof.
  apply (sortRowsByDateDesc_stable (H := Sample.platform)).
  intros row [<- | [<- | []]]; reflexivity.
Defined.

End SortFacts.

(** ** The overview *)

Module OverviewFacts.
Import Overview OverviewSpec.

Lemma bump_total (counts : list (string * Z)) (key : string) :
  total (bump counts key) = total counts + 1.
Proof.
  unfold total. induction counts as [| [k n] rest IH]; cbn; [reflexivity |].
  destruct (String.eqb k key); cbn; lia.
Qed.

Lemma bump_keys (counts : list (string * Z)) (key k : string) :
  In k (List.map fst (bump counts key)) <-> k = key \/ In k (List.map fst counts).
Proof.
  induction counts as [| [k' n] rest IH]; cbn; [intuition auto |].
  destruct (String.eqb_spec k' key) as [-> | Hne]; cbn; [intuition auto |].
  rewrite IH. intuition auto.
Qed.

Lemma bump_NoDup (counts : list (string * Z)) (key : string) :
  List.NoDup (List.map fst counts) -> List.NoDup (List.map fst (bump counts key)).
Proof.
  induction counts as [| [k n] rest IH]; intros Hnd; cbn.
  - repeat constructor. intros [].
  - cbn in Hnd. apply List.NoDup_cons_iff in Hnd as [Hk Hrest].
    destruct (String.eqb_spec k key) as [-> | Hne]; cbn.
    + constructor; assumption.
    + constructor; [| apply IH, Hrest].
      rewrite bump_keys. intuition auto.
Qed.

Lemma bump_positive (counts : list (string * Z)) (key : string) :
  Forall (fun kv => 0 < snd kv) counts -> Forall (fun kv => 0 < snd kv) (bump counts key).
Proof.
  induction counts as [| [k n] rest IH]; intros Hpos; cbn.
  - repeat constructor.
  - apply Forall_cons in Hpos as [Hn Hrest]. cbn in Hn.
    destruct (String.eqb k key); constructor; cbn; auto; lia.
Qed.

(** What holds of a tally however many rows were counted. *)
Lemma tally_invariant (statusKey : string) (rows : list Row) :
  forall counts,
    List.NoDup (List.map fst counts) -> Forall (fun kv => 0 < snd kv) counts ->
    let counts' :=
      fold_left
        (fun counts row =>
           bump counts (String_ (nullish_or (prop_get row statusKey) (JStr "unknown"))))
        rows counts in
    total counts' = total counts + Z.of_nat (length rows)
    /\ List.NoDup (List.map fst counts')
    /\ Forall (fun kv => 0 < snd kv) counts'.
Proof.
  induction rows as [| row rest IH]; intros counts Hnd Hpos; cbn [fold_left length].
  - cbv zeta. repeat split; [lia | assumption | assumption].
  - cbv zeta.
    match goal with
    | |- context [fold_left _ rest ?c] =>
        destruct (IH c (bump_NoDup _ _ Hnd) (bump_positive _ _ Hpos))
          as (Htotal & Hnd' & Hpos')
    end.
    rewrite bump_total in Htotal. repeat split; [lia | assumption | assumption].
Qed.

(** *** The rows of each status *)

Lemma known_In (key : string) (keys : list string) :
  known key keys = true <-> In key keys.
Proof.
  unfold known. rewrite existsb_exists. split.
  - intros (k & Hin & Heq). apply String.eqb_eq in Heq. subst. exact Hin.
  - intros Hin. exists key. split; [exact Hin | apply String.eqb_refl].
Qed.

Lemma known_app (key : string) (keys more : list string) :
  known key (keys ++ more) = known key keys || known key more.
Proof. apply existsb_app. Qed.

Lemma bump_key_list (counts : list (string * Z)) (key : string) :
  List.map fst (bump counts key)
  = if known key (List.map fst counts) then List.map fst counts
    else (List.map fst counts ++ [key])%list.
Proof.
  induction counts as [| [k n] rest IH]; [reflexivity |].
  cbn [bump List.map fst known existsb]. rewrite (String.eqb_sym key k).
  destruct (String.eqb k key) eqn:Hk; cbn [orb List.map fst]; [reflexivity |].
  rewrite IH. fold (known key (List.map fst rest)).
  destruct (known key (List.map fst rest)); reflexivity.
Qed.

Lemma filter_known_drop (keys : list string) (text : string) (texts : list string) :
  known text keys = true ->
  List.filter (fun other => negb (known other keys))
    (List.filter (fun other => negb (String.eqb other text)) texts)
  = List.filter (fun other => negb (known other keys)) texts.
Proof.
  intros Hknown. induction texts as [| other rest IH]; [reflexivity |].
  cbn [List.filter]. destruct (String.eqb_spec other text) as [-> | Hne]; cbn [negb].
  - rewrite Hknown. cbn [negb]. exact IH.
  - cbn [List.filter]. rewrite IH. reflexivity.
Qed.

Lemma filter_known_more (keys : list string) (text : string) (texts : list string) :
  List.filter (fun other => negb (known other (keys ++ [text]))) texts
  = List.filter (fun other => negb (known other keys))
      (List.filter (fun other => negb (String.eqb other text)) texts).
Proof.
  induction texts as [| other rest IH]; [reflexivity |].
  cbn [List.filter]. rewrite known_app. cbn [known existsb]. rewrite orb_false_r.
  destruct (String.eqb other text); cbn [negb List.filter].
  - rewrite orb_true_r. cbn [negb]. exact IH.
  - rewrite orb_false_r. rewrite IH. reflexivity.
Qed.

(** The keys of a tally: those it had, then the new texts in the order in
    which they first appear. *)
Lemma tally_keys (texts : list string) :
  forall counts,
    List.map fst (fold_left bump texts counts)
    = (List.map fst counts
       ++ List.filter (fun other => negb (known other (List.map fst counts)))
            (firstOccurrences texts))%list.
Proof.
  induction texts as [| text rest IH]; intros counts; cbn [fold_left firstOccurrences].
  - cbn [List.filter]. rewrite app_nil_r. reflexivity.
  - rewrite IH, bump_key_list. cbn [List.filter].
    destruct (known text (List.map fst counts)) eqn:Hknown; cbn [negb].
    + rewrite filter_known_drop by exact Hknown. reflexivity.
    + rewrite filter_known_more, <- app_assoc. reflexivity.
Qed.

Lemma countOf_bump (counts : list (string * Z)) (key k : string) :
  countOf (bump counts key) k
  = countOf counts k + (if String.eqb key k then 1 else 0).
Proof.
  unfold countOf. induction counts as [| [k' n] rest IH]; cbn [bump List.find fst snd].
  - destruct (String.eqb key k); cbn; lia.
  - destruct (String.eqb_spec k' key) as [-> | Hne]; cbn [List.find fst snd].
    + destruct (String.eqb key k); cbn [snd]; lia.
    + destruct (String.eqb_spec k' k) as [-> | Hnk]; cbn [snd]; [| exact IH].
      destruct (String.eqb_spec key k) as [-> | _]; [congruence | lia].
Qed.

Lemma countOf_tally (texts : list string) (k : string) :
  forall counts,
    countOf (fold_left bump texts counts) k
    = countOf counts k
      + Z.of_nat (length (List.filter (fun text => String.eqb text k) texts)).
Proof.
  induction texts as [| text rest IH]; intros counts; cbn [fold_left List.filter].
  - cbn. lia.
  - rewrite IH, countOf_bump. destruct (String.eqb text k); cbn [length]; lia.
Qed.

Lemma countOf_In (counts : list (string * Z)) (k : string) (n : Z) :
  List.NoDup (List.map fst counts) -> In (k, n) counts -> countOf counts k = n.
Proof.
  unfold countOf. induction counts as [| [k' n'] rest IH]; intros Hnd Hin;
    [destruct Hin |].
  cbn in Hnd. apply List.NoDup_cons_iff in Hnd as [Hk Hrest].
  cbn [List.find fst snd]. destruct Hin as [Heq | Hin].
  - injection Heq as -> ->. rewrite String.eqb_refl. reflexivity.
  - destruct (String.eqb_spec k' k) as [-> | Hne]; [| apply IH; assumption].
    destruct Hk. apply (List.in_map fst) in Hin. exact Hin.
Qed.

Lemma countByStatus_fold (statusKey : string) (rows : list Row) :
  forall counts,
    fold_left
      (fun counts row =>
         bump counts (String_ (nullish_or (prop_get row statusKey) (JStr "unknown"))))
      rows counts
    = fold_left bump (List.map (statusOf statusKey) rows) counts.
Proof.
  induction rows as [| row rest IH]; intros counts; [reflexivity |].
  cbn [fold_left List.map]. rewrite IH. f_equal. f_equal.
  unfold statusOf, nullish_or. destruct (prop_get row statusKey); reflexivity.
Qed.

Lemma filter_map_length {A B} (f : A -> B) (p : B -> bool) (l : list A) :
  length (List.filter p (List.map f l)) = length (List.filter (fun x => p (f x)) l).
Proof.
  induction l as [| x l IH]; [reflexivity |].
  cbn [List.map List.filter]. destruct (p (f x)); cbn [length]; rewrite IH; reflexivity.
Qed.

Lemma pairs_of_keys {A B} (f : A -> B) (l : list (A * B)) :
  Forall (fun kv => snd kv = f (fst kv)) l ->
  l = List.map (fun k => (k, f k)) (List.map fst l).
Proof.
  induction l as [| [k v] rest IH]; intros Hall; [reflexivity |].
  apply Forall_cons in Hall as [Hv Hrest]. cbn in Hv. subst v.
  cbn [List.map fst]. rewrite <- IH by exact Hrest. reflexivity.
Qed.

(** The tally of the rows holds every status of the rows once, in the order
    in which the statuses first appear, each with the number of its rows. *)
Lemma countByStatus_statusCounts (statusKey : string) (rows : list Row) :
  countByStatus statusKey rows = statusCounts statusKey rows.
Proof.
  destruct (tally_invariant statusKey rows [] (List.NoDup_nil _) (List.Forall_nil _))
    as (_ & Hnd & _). cbv zeta in Hnd. fold (countByStatus statusKey rows) in Hnd.
  assert (Hkeys : List.map fst (countByStatus statusKey rows)
                  = firstOccurrences (List.map (statusOf statusKey) rows)).
  { unfold countByStatus. rewrite countByStatus_fold, tally_keys. cbn [List.map app].
    apply FilterFacts.filter_all. intros; reflexivity. }
  unfold statusCounts. rewrite <- Hkeys.
  apply (pairs_of_keys (fun status => occurrences statusKey status rows)).
  apply List.Forall_forall. intros [status count] Hin. cbn [fst snd].
  rewrite <- (countOf_In _ _ _ Hnd Hin).
  unfold countByStatus. rewrite countByStatus_fold, countOf_tally.
  unfold occurrences. rewrite filter_map_length. reflexivity.
Qed.

(** X13.  The overview opens with the three totals.  The counts by status
    that follow name every status of the rows once, in the order in which
    the statuses first appear, each with the number of the rows of that
    status; so each count is positive and the counts add up to the totals,
    the number of test rows and of session rows. *)
Theorem createOverviewRows_counts_add_up (buildRows testRows sessionRows : list Row) :
  let testsByStatus := countByStatus "test_status" testRows in
  let sessionsByStatus := countByStatus "session_status" sessionRows in
  (exists totalBuilds,
      createOverviewRows buildRows testRows sessionRows
      = ([metricRow "total_builds" totalBuilds;
          metricRow "total_tests" (Z.of_nat (length testRows));
          metricRow "total_sessions" (Z.of_nat (length sessionRows))]
         ++ List.map (fun '(status, count) => metricRow ("tests_" ++ status) count)
              testsByStatus
         ++ List.map (fun '(status, count) => metricRow ("sessions_" ++ status) count)
              sessionsByStatus)%list)
  /\ testsByStatus = statusCounts "test_status" testRows
  /\ sessionsByStatus = statusCounts "session_status" sessionRows
  /\ total testsByStatus = Z.of_nat (length testRows)
  /\ total sessionsByStatus = Z.of_nat (length sessionRows)
  /\ List.NoDup (List.map fst testsByStatus)
  /\ List.NoDup (List.map fst sessionsByStatus)
  /\ Forall (fun kv => 0 < snd kv) (testsByStatus ++ sessionsByStatus).
Proof.
  cbv zeta.
  destruct (tally_invariant "test_status" testRows [] (List.NoDup_nil _)
              (List.Forall_nil _)) as (Ht & Hnt & Hpt).
  destruct (tally_invariant "session_status" sessionRows [] (List.NoDup_nil _)
              (List.Forall_nil _)) as (Hs & Hns & Hps).
  cbv zeta in *.
  split; [eexists; reflexivity |].
  split; [apply countByStatus_statusCounts |].
  split; [apply countByStatus_statusCounts |].
  unfold countByStatus. repeat split; try assumption.
  apply Forall_app. split; assumption.
Qed.

(** Three test rows, two of them passed and one without a status. *)
Example createOverviewRows_of_three_tests :
  createOverviewRows [] [[("test_status", JStr "passed")]; [("test_name", JStr "pay")];
                         [("test_status", JStr "passed")]] []
  = [metricRow "total_builds" 0; metricRow "total_tests" 3; metricRow "total_sessions" 0;
     metricRow "tests_passed" 2; metricRow "tests_unknown" 1].
Proof. reflexivity. Qed.

(** *** The builds counted *)

Lemma addBuildIds_fold (idKey : string) (rows : list Row) (ids : gset string) :
  addBuildIds idKey rows ids
  = fold_left
      (fun ids text =>
         if negb (String.eqb (trim text) "") then {[trim text]} ∪ ids else ids)
      (List.map (idUnder idKey) rows) ids.
Proof.
  unfold addBuildIds. revert ids.
  induction rows as [| row rest IH]; intros ids; [reflexivity |].
  cbn [fold_left List.map]. rewrite IH. reflexivity.
Qed.

(** Adding texts to a set makes it grow by the texts that are new. *)
Lemma size_added (texts : list string) :
  forall (ids : gset string) (seen : list string),
    (forall x, x ∈ ids <-> In x seen) ->
    size
      (fold_left
         (fun ids text =>
            if negb (String.eqb (trim text) "") then {[trim text]} ∪ ids else ids)
         texts ids)
    = (size ids
       + length
           (distinct String.eqb seen
              (List.filter (fun value => Nat.ltb 0 (String.length value))
                 (List.map trim texts))))%nat.
Proof.
  induction texts as [| text rest IH]; intros ids seen Hseen; cbn [fold_left].
  - cbn. lia.
  - cbn [List.map List.filter].
    destruct (trim text) as [| c id] eqn:Htrim.
    + apply IH, Hseen.
    + change (Nat.ltb 0 (String.length (String c id))) with true.
      change (String.eqb (String c id) "") with false.
      cbn [negb distinct].
      destruct (existsb (String.eqb (String c id)) seen) eqn:Hmem.
      * assert (Hin : String c id ∈ ids).
        { apply Hseen. apply existsb_exists in Hmem as (y & Hy & He).
          apply String.eqb_eq in He. subst. exact Hy. }
        rewrite (subseteq_union_1_L {[String c id]} ids)
          by (apply singleton_subseteq_l, Hin).
        apply IH, Hseen.
      * assert (Hout : String c id ∉ ids).
        { intros Hin. apply Hseen in Hin.
          assert (existsb (String.eqb (String c id)) seen = true)
            by (apply existsb_exists; exists (String c id);
                split; [exact Hin | apply String.eqb_refl]).
          congruence. }
        rewrite (IH ({[String c id]} ∪ ids) (String c id :: seen)).
        -- rewrite size_union by (apply disjoint_singleton_l, Hout).
           rewrite size_singleton. cbn [length]. lia.
        -- intros x. cbn [In]. rewrite elem_of_union, elem_of_singleton, Hseen.
           intuition auto.
Qed.

(** X14.  [total_builds] is the number of different build identifiers the
    three sections name, blanks left out: what [uniqueNonEmpty] keeps of
    them.  A build with rows in several sections is counted once. *)
Theorem createOverviewRows_counts_builds (buildRows testRows sessionRows : list Row) :
  List.hd [] (createOverviewRows buildRows testRows sessionRows)
  = metricRow "total_builds"
      (Z.of_nat (length (uniqueNonEmpty (namedBuildIds buildRows testRows sessionRows)))).
Proof.
  unfold createOverviewRows. cbn [app List.hd]. f_equal. f_equal.
  rewrite !addBuildIds_fold, <- !fold_left_app.
  rewrite (size_added _ ∅ [])
    by (intros x; rewrite elem_of_empty; cbn [In]; tauto).
  rewrite size_empty. unfold uniqueNonEmpty, namedBuildIds.
  reflexivity.
Qed.

End OverviewFacts.

(** ** The Markdown table *)

Module MarkdownFacts.
Import Csv Markdown MarkdownSpec.

Lemma hasLF_app (a b : string) : hasLF (a ++ b) = hasLF a || hasLF b.
Proof.
  induction a as [| c a IH]; [reflexivity |].
  rewrite app_cons. cbn [hasLF]. rewrite IH, orb_assoc. reflexivity.
Qed.

Lemma breakLines_cons (c : ascii) (rest : string) :
  breakLines (String c rest)
  = if Ascii.eqb c LF then " <br> " ++ breakLines rest
    else match rest with
         | String c' rest' =>
             if Ascii.eqb c CR && Ascii.eqb c' LF then " <br> " ++ breakLines rest'
             else String c (breakLines rest)
         | EmptyString => String c EmptyString
         end.
Proof. reflexivity. Qed.

Lemma breakLines_no_LF (text : string) :
  hasLF (breakLines text) = false
  /\ forall c, hasLF (breakLines (String c text)) = false.
Proof.
  induction text as [| c' rest [IH IHc]].
  - split; [reflexivity |]. intros c. cbn [breakLines].
    destruct (Ascii.eqb c LF) eqn:Hc; [reflexivity |].
    cbn [hasLF]. rewrite Hc. reflexivity.
  - split; [apply IHc |]. intros c.
    rewrite breakLines_cons.
    destruct (Ascii.eqb c LF) eqn:Hc.
    + rewrite hasLF_app. rewrite (IHc c'). reflexivity.
    + destruct (Ascii.eqb c CR && Ascii.eqb c' LF).
      * rewrite hasLF_app, IH. reflexivity.
      * cbn [hasLF]. rewrite Hc, (IHc c'). reflexivity.
Qed.

Lemma escapePipes_LF (text : string) : hasLF (escapePipes text) = hasLF text.
Proof.
  induction text as [| c rest IH]; [reflexivity |].
  cbn [escapePipes]. destruct (Ascii.eqb_spec c pipe) as [-> | Hne]; cbn [hasLF].
  - rewrite IH. reflexivity.
  - rewrite IH. reflexivity.
Qed.

Lemma escapePipes_escaped (text : string) :
  forall previous, pipesEscapedAfter previous (escapePipes text) = true.
Proof.
  induction text as [| c rest IH]; intros previous; [reflexivity |].
  cbn [escapePipes]. destruct (Ascii.eqb c pipe) eqn:Hc; cbn [pipesEscapedAfter].
  - rewrite IH. reflexivity.
  - rewrite Hc, IH. reflexivity.
Qed.

Lemma breakLines_plain (text : string) :
  hasLF text = false -> breakLines text = text.
Proof.
  induction text as [| c rest IH]; [reflexivity |].
  cbn [hasLF]. intros Hlf. apply orb_false_iff in Hlf as [Hc Hrest].
  rewrite breakLines_cons, Hc.
  destruct rest as [| c' rest']; [reflexivity |].
  cbn [hasLF] in Hrest. apply orb_false_iff in Hrest as [Hc' Hrest'].
  rewrite Hc', andb_false_r. rewrite IH; [reflexivity |].
  cbn [hasLF]. rewrite Hc', Hrest'. reflexivity.
Qed.

Lemma escapePipes_plain (text : string) :
  hasPipe text = false -> escapePipes text = text.
Proof.
  induction text as [| c rest IH]; [reflexivity |].
  cbn [hasPipe]. intros Hp. apply orb_false_iff in Hp as [Hc Hrest].
  cbn [escapePipes]. rewrite Hc, IH by exact Hrest. reflexivity.
Qed.

Lemma cell_no_LF (value : jsval) : hasLF (cell value) = false.
Proof. unfold cell. rewrite escapePipes_LF. apply breakLines_no_LF. Qed.

(** X15.  The text of a cell of the table holds no line feed, and every
    pipe in it comes right after a backslash; a text without line feed and
    without pipe is written as it is. *)
Theorem cell_stays_in_its_row (value : jsval) :
  hasLF (cell value) = false
  /\ pipesEscaped (cell value) = true
  /\ (forall text,
        value = JStr text -> hasLF text = false -> hasPipe text = false ->
        cell value = text).
Proof.
  split; [apply cell_no_LF |]. unfold cell. split.
  - apply escapePipes_escaped.
  - intros text -> Hlf Hp. cbn [nullish_or is_nullish String_].
    rewrite breakLines_plain, escapePipes_plain by assumption. reflexivity.
Qed.

Lemma cell_of_plain_text : cell (JStr "passed") = "passed".
Proof.
  exact (proj2 (proj2 (cell_stays_in_its_row (JStr "passed"))) "passed"
           eq_refl eq_refl eq_refl).
Defined.

(** *** The lines of the table *)












End MarkdownFacts.

(** ** The command line *)

Module ArgsFacts.
Import CommandLine.

Section Args.
Variables (resolve : string -> string) (DEFAULT_CONFIG_PATH : string).

(** Arguments read to their end leave the path they gave to what follows. *)
Lemma scanArgs_app (more : list string) :
  forall n argv configPath path,
    (length argv <= n)%nat ->
    scanArgs resolve argv configPath = Returned path ->
    scanArgs resolve (argv ++ more) configPath = scanArgs resolve more path.
Proof.
  induction n as [| n IH]; intros argv configPath path Hlen Hscan.
  - destruct argv; [| cbn in Hlen; lia]. cbn in *. congruence.
  - destruct argv as [| arg rest]; [cbn in *; congruence |].
    cbn [scanArgs app] in *. destruct (isConfigFlag arg).
    + destruct rest as [| nextValue rest']; [discriminate |].
      cbn [app]. destruct (String.eqb nextValue ""); [discriminate |].
      apply IH; [cbn in Hlen; lia | exact Hscan].
    + apply IH; [cbn in Hlen; lia | exact Hscan].
Qed.

(** X17.  Without a flag the default path is returned.  After arguments
    that are read without fault, a flag with a value gives the path of
    that value, so the last flag wins, and a flag without a value is
    refused. *)
Theorem parseArgs_last_flag_wins (argv : list string) :
  ((forall arg, In arg argv -> isConfigFlag arg = false) ->
   parseArgs resolve DEFAULT_CONFIG_PATH argv = Returned DEFAULT_CONFIG_PATH)
  /\ (forall path flag,
        parseArgs resolve DEFAULT_CONFIG_PATH argv = Returned path ->
        isConfigFlag flag = true ->
        (forall value,
            value <> "" ->
            parseArgs resolve DEFAULT_CONFIG_PATH (argv ++ [flag; value])
            = Returned (resolve value))
        /\ parseArgs resolve DEFAULT_CONFIG_PATH (argv ++ [flag])
           = Thrown "Missing value for --config"
        /\ parseArgs resolve DEFAULT_CONFIG_PATH (argv ++ [flag; ""])
           = Thrown "Missing value for --config").
Proof.
  unfold parseArgs. split.
  - generalize DEFAULT_CONFIG_PATH as configPath.
    induction argv as [| arg rest IH]; intros configPath Hnone; [reflexivity |].
    cbn [scanArgs]. rewrite (Hnone arg) by (left; reflexivity).
    apply IH. intros other Hin. apply Hnone. right. exact Hin.
  - intros path flag Hscan Hflag. repeat split.
    + intros value Hvalue.
      rewrite (scanArgs_app _ _ _ _ _ (Nat.le_refl _) Hscan).
      cbn [scanArgs]. rewrite Hflag.
      destruct (String.eqb_spec value ""); [congruence | reflexivity].
    + rewrite (scanArgs_app _ _ _ _ _ (Nat.le_refl _) Hscan).
      cbn [scanArgs]. rewrite Hflag. reflexivity.
    + rewrite (scanArgs_app _ _ _ _ _ (Nat.le_refl _) Hscan).
      cbn [scanArgs]. rewrite Hflag. reflexivity.
Qed.

End Args.

Lemma parseArgs_two_flags :
  parseArgs (fun value => "/work/" ++ value) "/work/sample.json"
    ["--config"; "a.json"; "--verbose"; "-c"; "b.json"]
  = Returned "/work/b.json".
Proof.
  exact (proj1 (proj2 (parseArgs_last_flag_wins (fun value => "/work/" ++ value)
                         "/work/sample.json" ["--config"; "a.json"; "--verbose"])
                 "/work/a.json" "-c" eq_refl eq_refl)
           "b.json" ltac:(discriminate)).
Defined.

End ArgsFacts.

(** ** The discovery of the device-automation builds *)

Module InputFacts.
Import Config Validation Remote Paging Fetching Sources Pipeline SourcesSpec.

Section AnyPlatform.
Context `{Platform}.

(** X18.  On a platform where the empty text is no date, the window of the
    discovery and the window of the filters agree on every row: both keep
    a row without a date and a row with a date inside the window. *)
Theorem isRecentByDays_as_isWithinDays (row : Row) (keys : list string)
    (days : opt jsnum) :
  Date_getTime "" = NNaN ->
  isRecentByDays (JObj row) days keys = isWithinDays row keys days.
Proof.
  intros Hempty. unfold isRecentByDays, isWithinDays, rowTimestamps.
  destruct days as [| | d]; try reflexivity.
  destruct (negb (num_truthy d)); [reflexivity |].
  cbn [member].
  replace
    (List.filter isFinite
       (List.map (fun value => Date_getTime (String_ value))
          (List.filter (fun value => negb (is_nullish value))
             (List.map (fun key => prop_get row key) keys))))
    with
    (List.filter isFinite
       (List.map (fun value => Date_getTime (String_ value))
          (List.filter
             (fun value => negb (is_nullish value) && negb (String.eqb (String_ value) ""))
             (List.map (fun key => prop_get row key) keys)))); [reflexivity |].
  induction (List.map (fun key => prop_get row key) keys) as [| cell cells IH];
    [reflexivity |].
  cbn [List.filter]. destruct (negb (is_nullish cell)); cbn [andb]; [| exact IH].
  destruct (String.eqb_spec (String_ cell) "") as [He | Hne]; cbn [negb List.map List.filter].
  - rewrite He, Hempty. exact IH.
  - rewrite IH. reflexivity.
Qed.

Section AnyRemote.
Context {W : Type}
  (respond : W -> forall r : Sources.request, option (Sources.response r) * W).



(** *** The build identifiers of the run *)

Lemma length_zero {A} (l : list A) : Nat.eqb (length l) 0 = true <-> l = [].
Proof. destruct l; cbn; split; congruence. Qed.

Lemma withBuildIds_same (config : ReportConfig) :
  withBuildIds config (testReportingBuildIds (inputs config))
    (appAutomateBuildIds (inputs config)) = config.
Proof. destruct config as [c [] t a o f k]. reflexivity. Qed.

(** A configuration that passed validation and cannot discover names a
    build for every source that is enabled. *)
Lemma validated_without_discovery (config : ReportConfig) :
  validateConfig config = Returns -> canDiscover config = false ->
  (tr_enabled (testReporting config) = true ->
   testReportingBuildIds (inputs config) <> [])
  /\ (aa_enabled (appAutomate config) = true ->
      appAutomateBuildIds (inputs config) <> []).
Proof.
  unfold validateConfig. intros Hvalid Hcan.
  destruct (testReportingErrors config ++ appAutomateErrors config)%list
    as [| line lines] eqn:Herrors; [| discriminate].
  apply app_eq_nil in Herrors as [Htr Haa].
  unfold testReportingErrors, appAutomateErrors in *. rewrite Hcan in *.
  split; intros Hon; rewrite Hon in *; cbn [when negb] in *; intros Hnone;
    rewrite Hnone in *; discriminate.
Qed.

(** X20.  When the discovery is off, or every enabled source names a
    build, [resolveBuildInputs] returns the configuration as it is and
    sends no request. *)
Theorem resolveBuildInputs_nothing_to_discover (fuel : nat) (config : ReportConfig)
    (w : @Sources.World W) :
  canDiscover config = false
  \/ ((tr_enabled (testReporting config) = false
       \/ testReportingBuildIds (inputs config) <> [])
      /\ (aa_enabled (appAutomate config) = false
          \/ appAutomateBuildIds (inputs config) <> [])) ->
  resolveBuildInputs respond fuel config w = (Ok config, w).
Proof.
  unfold resolveBuildInputs. intros [Hcan | [Htr Haa]].
  - rewrite Hcan. reflexivity.
  - destruct (canDiscover config); [| reflexivity]. cbn [negb].
    assert (Htr1 : tr_enabled (testReporting config)
                   && Nat.eqb (length (testReportingBuildIds (inputs config))) 0
                   = false).
    { destruct Htr as [-> | Hids]; [reflexivity |].
      apply andb_false_iff. right.
      destruct (testReportingBuildIds (inputs config)); [congruence | reflexivity]. }
    assert (Haa1 : aa_enabled (appAutomate config)
                   && Nat.eqb (length (appAutomateBuildIds (inputs config))) 0
                   = false).
    { destruct Haa as [-> | Hids]; [reflexivity |].
      apply andb_false_iff. right.
      destruct (appAutomateBuildIds (inputs config)); [congruence | reflexivity]. }
    rewrite Htr1, Haa1. unfold Sources.bind, Sources.ret.
    rewrite Htr1, Haa1, withBuildIds_same. reflexivity.
Qed.

(** X21.  A configuration that passed validation comes out of
    [resolveBuildInputs] with a build for every source that is enabled.
    Build identifiers that were configured are kept, and nothing but the
    two lists of build identifiers is changed. *)
Theorem resolveBuildInputs_names_builds (fuel : nat) (config : ReportConfig)
    (w : @Sources.World W) (config' : ReportConfig) (w' : @Sources.World W) :
  validateConfig config = Returns ->
  resolveBuildInputs respond fuel config w = (Ok config', w') ->
  (tr_enabled (testReporting config') = true ->
   testReportingBuildIds (inputs config') <> [])
  /\ (aa_enabled (appAutomate config') = true ->
      appAutomateBuildIds (inputs config') <> [])
  /\ (testReportingBuildIds (inputs config) <> [] ->
      testReportingBuildIds (inputs config')
      = testReportingBuildIds (inputs config))
  /\ (appAutomateBuildIds (inputs config) <> [] ->
      appAutomateBuildIds (inputs config')
      = appAutomateBuildIds (inputs config))
  /\ config'
     = withBuildIds config (testReportingBuildIds (inputs config'))
         (appAutomateBuildIds (inputs config')).
Proof.
  intros Hvalid. unfold resolveBuildInputs.
  destruct (canDiscover config) eqn:Hcan; cbn [negb].
  - unfold Sources.bind.
    match goal with
    | |- context [(if ?c then _ else Sources.ret ?ids) w] =>
        set (discovering := c);
        assert (Hkept : discovering = false ->
                        (if discovering
                         then lift
                                (discoverTestReportingBuildIds (listed respond) fuel config)
                         else Sources.ret ids) w = (Ok ids, w))
          by (intros ->; reflexivity)
    end.
    match goal with
    | |- context [(if discovering then ?a else ?b) w] =>
        destruct ((if discovering then a else b) w) as [[trIds | e |] w1] eqn:Hfirst
    end; try discriminate.
    match goal with
    | |- context [(if ?c then _ else Sources.ret ?ids) w1] =>
        set (discovering' := c);
        assert (Hkept' : discovering' = false ->
                         (if discovering'
                          then discoverAppAutomateBuildIds respond config
                          else Sources.ret ids) w1 = (Ok ids, w1))
          by (intros ->; reflexivity)
    end.
    match goal with
    | |- context [(if discovering' then ?a else ?b) w1] =>
        destruct ((if discovering' then a else b) w1) as [[aaIds | e |] w2] eqn:Hsecond
    end; try discriminate.
    destruct (tr_enabled (testReporting config) && Nat.eqb (length trIds) 0)
      eqn:Htr; [discriminate |].
    destruct (aa_enabled (appAutomate config) && Nat.eqb (length aaIds) 0)
      eqn:Haa; [discriminate |].
    intros Hrun. injection Hrun as <- <-. cbn.
    repeat split.
    + intros Hon. rewrite Hon in Htr. cbn in Htr. intros ->. discriminate.
    + intros Hon. rewrite Hon in Haa. cbn in Haa. intros ->. discriminate.
    + intros Hids. assert (Hoff : discovering = false).
      { subst discovering. apply andb_false_iff. right.
        destruct (testReportingBuildIds (inputs config)); [congruence | reflexivity]. }
      pose proof (Hkept Hoff) as Hsame. congruence.
    + intros Hids. assert (Hoff : discovering' = false).
      { subst discovering'. apply andb_false_iff. right.
        destruct (appAutomateBuildIds (inputs config)); [congruence | reflexivity]. }
      pose proof (Hkept' Hoff) as Hsame. congruence.
  - intros Hrun. injection Hrun as <- <-.
    destruct (validated_without_discovery config Hvalid Hcan) as [Htr Haa].
    repeat split; try assumption; try reflexivity.
    symmetry. apply withBuildIds_same.
Qed.

End AnyRemote.
End AnyPlatform.

Lemma resolveBuildInputs_explicit_builds :
  resolveBuildInputs (H := Sample.platform) account 0 explicitBuilds begin
  = (Ok explicitBuilds, begin).
Proof.
  apply (resolveBuildInputs_nothing_to_discover (H := Sample.platform)).
  right. split; right; discriminate.
Defined.

Lemma resolveBuildInputs_on_account :
  testReportingBuildIds (inputs (withBuildIds Sample.defaults ["tr-1"] ["aa-1"])) <> []
  /\ appAutomateBuildIds (inputs (withBuildIds Sample.defaults ["tr-1"] ["aa-1"])) <> [].
Proof.
  destruct (resolveBuildInputs_names_builds (H := Sample.platform) account 600
              Sample.defaults begin
              (withBuildIds Sample.defaults ["tr-1"] ["aa-1"])
              {| Sources.remote := tt;
                 Sources.log :=
                   [Listed (GetProjects "");
                    Listed (GetProjectBuilds (NFin 7) (NFin 1792886400000)
                              1793491200000 20 "");
                    GetAppBuilds 20] |}
              eq_refl ltac:(vm_compute; reflexivity))
    as (Htr & Haa & _).
  split; [apply Htr | apply Haa]; reflexivity.
Defined.

Lemma isRecentByDays_on_sample :
  isRecentByDays (H := Sample.platform)
    (JObj [("started_at", JStr ""); ("created_at", JStr "2026-10-30T00:00:00.000Z")])
    (Val (NFin 7)) startedAtKeys
  = true.
Proof.
  rewrite (isRecentByDays_as_isWithinDays (H := Sample.platform) _ _ _ eq_refl).
  reflexivity.
Defined.


End InputFacts.

(** ** The listing of the applications *)

Module AppFacts.
Import Config Remote Sources Pipeline SourcesSpec.

Section AnyRemote.
Context `{Platform}.
Context {W : Type}
  (respond : W -> forall r : Sources.request, option (Sources.response r) * W).

Lemma slice0_length {A} (items : list A) (limit : Z) :
  0 <= limit -> (length (slice0 items limit) <= Z.to_nat limit)%nat.
Proof.
  intros Hlimit. unfold slice0.
  destruct (Z.ltb_spec limit 0); [lia |].
  rewrite length_take. lia.
Qed.

(** The loop over the custom identifiers asks for each of them in turn and
    adds to the rows at most [appListLimit] rows each time. *)
Lemma customIds_loop (config : ReportConfig) (customIds : list string) :
  forall (appRows rows : list Row) (w w' : @Sources.World W),
    forEach customIds
      (fun appRows customId =>
         Sources.bind (fetchJson respond (GetRecentAppsByCustomId customId))
           (fun apps =>
              Sources.ret
                (appRows
                 ++ List.map appRow (slice0 apps (appListLimit (appAutomate config))))%list))
      appRows w = (Ok rows, w') ->
    Sources.log w'
    = (Sources.log w ++ List.map GetRecentAppsByCustomId customIds)%list
    /\ (0 <= appListLimit (appAutomate config) ->
        (length rows
         <= length appRows
            + length customIds * Z.to_nat (appListLimit (appAutomate config)))%nat).
Proof.
  induction customIds as [| customId rest IH]; intros appRows rows w w' Hrun.
  - cbn in Hrun. injection Hrun as <- <-. cbn. rewrite app_nil_r. split; [reflexivity | lia].
  - cbn [forEach] in Hrun. unfold Sources.bind at 1 2 in Hrun.
    unfold fetchJson in Hrun.
    destruct (respond (Sources.remote w) (GetRecentAppsByCustomId customId))
      as [[apps |] remote']; [| discriminate].
    cbn [Sources.ret] in Hrun. apply IH in Hrun as [Hlog Hlen].
    cbn [Sources.log] in Hlog. split.
    + rewrite Hlog, <- app_assoc. reflexivity.
    + intros Hlimit. specialize (Hlen Hlimit).
      rewrite length_app, List.length_map in Hlen.
      pose proof (slice0_length apps _ Hlimit). cbn [length]. lia.
Qed.

(** X22.  With the device-automation source off no application is asked
    for.  Otherwise, when the listing succeeds, one request was sent for
    the recent applications, or one for each custom identifier in the
    order configured; each custom identifier gives at most [appListLimit]
    rows. *)
Theorem fetchAppAutomateApps_requests (config : ReportConfig) (w : @Sources.World W) :
  (aa_enabled (appAutomate config) = false ->
   fetchAppAutomateApps respond config w = (Ok [], w))
  /\ (forall rows w',
        aa_enabled (appAutomate config) = true ->
        fetchAppAutomateApps respond config w = (Ok rows, w') ->
        let customIds := coalesce (appCustomIds (inputs config)) [] in
        Sources.log w'
        = (Sources.log w
           ++ match customIds with
              | [] => [GetRecentApps (appListLimit (appAutomate config))]
              | _ => List.map GetRecentAppsByCustomId customIds
              end)%list
        /\ (customIds <> [] -> 0 <= appListLimit (appAutomate config) ->
            (length rows
             <= length customIds * Z.to_nat (appListLimit (appAutomate config)))%nat)).
Proof.
  unfold fetchAppAutomateApps. split.
  - intros ->. reflexivity.
  - intros rows w' -> Hrun. cbn [negb] in Hrun. cbv zeta.
    destruct (coalesce (appCustomIds (inputs config)) []) as [| customId rest] eqn:Hids.
    + cbn [length Nat.eqb] in Hrun. unfold Sources.bind, fetchJson in Hrun.
      destruct (respond (Sources.remote w) (GetRecentApps _)) as [[apps |] remote'];
        [| discriminate].
      injection Hrun as <- <-. split; [reflexivity | congruence].
    + change (Nat.eqb (length (customId :: rest)) 0) with false in Hrun.
      apply customIds_loop in Hrun as [Hlog Hlen].
      split; [exact Hlog |]. intros _ Hlimit. specialize (Hlen Hlimit).
      cbn [length] in *. lia.
Qed.

End AnyRemote.

Lemma fetchAppAutomateApps_two_custom_ids :
  Sources.log (snd (fetchAppAutomateApps (H := Sample.platform) account twoCustomIds begin))
  = [GetRecentAppsByCustomId "dialler"; GetRecentAppsByCustomId "wiki"].
Proof.
  destruct (fetchAppAutomateApps (H := Sample.platform) account twoCustomIds begin)
    as [outcome w'] eqn:Hrun.
  assert (Hok : exists rows, outcome = Ok rows).
  { vm_compute in Hrun. injection Hrun as <- _. eexists. reflexivity. }
  destruct Hok as (rows & ->).
  exact (proj1 (proj2 (fetchAppAutomateApps_requests (H := Sample.platform) account
                         twoCustomIds begin) rows w' eq_refl Hrun)).
Defined.

End AppFacts.

(** ** The run as a whole *)

Module MainFacts.
Import Config Validation Remote Projection.
Import Filtering RowOrder Overview CommandLine Auth Sources Pipeline SourcesSpec.

Section AnyRemote.
Context `{Platform}.
Context {W : Type}
  (respond : W -> forall r : Sources.request, option (Sources.response r) * W).
Variables (env : string -> opt string) (base64 : string -> string).

(** X23.  No request is sent for a configuration that fails validation,
    and none when a credential is missing from the environment or empty:
    the run ends with the error and the remote is left alone.  The error
    about the credentials names both variables. *)
Theorem main_checks_before_requests (fuel : nat) (config : ReportConfig)
    (w : @Sources.World W) :
  (forall message,
      validateConfig config = Throws message ->
      main respond env base64 fuel config w = (Threw message, w))
  /\ (validateConfig config = Returns ->
      unset (env (usernameEnv (credentials config)))
      || unset (env (accessKeyEnv (credentials config))) = true ->
      exists message,
        main respond env base64 fuel config w = (Threw message, w)
        /\ includes message (usernameEnv (credentials config)) = true
        /\ includes message (accessKeyEnv (credentials config)) = true).
Proof.
  unfold main. split.
  - intros message ->. reflexivity.
  - intros -> Hunset. unfold getAuthHeaders. rewrite Hunset.
    eexists. split; [reflexivity |]. split.
    + apply includes_app_r, includes_app_l, includes_self.
    + apply includes_app_r, includes_app_r, includes_app_r, includes_app_l,
        includes_self.
Qed.

Lemma sort_length (rows : list Row) (keys : list string) :
  length (sortRowsByDateDesc rows keys) = length rows.
Proof. apply Permutation_length, SortFacts.sort_permutation. Qed.

(** X24.  Every section is written with as many rows as passed the
    filters: neither the ordering nor the projection drops a row.  When
    no columns are chosen for the overview, its totals are the numbers of
    rows of the sections of tests and of sessions as written. *)
Theorem sectionsOf_totals (config : ReportConfig) (data : Data) :
  let written := sectionsOf config data in
  let filtered := applyConfiguredFilters config data in
  (length (s_builds written) = length (d_builds filtered)
   /\ length (s_tests written) = length (d_tests filtered)
   /\ length (s_sessions written) = length (d_sessions filtered)
   /\ length (s_apps written) = length (d_apps filtered))
  /\ (noColumns (chain (columns config) Config.overview) = true ->
      List.nth_error (s_overview written) 1
      = Some (metricRow "total_tests" (Z.of_nat (length (s_tests written))))
      /\ List.nth_error (s_overview written) 2
         = Some (metricRow "total_sessions" (Z.of_nat (length (s_sessions written))))).
Proof.
  cbv zeta. unfold sectionsOf. cbn [s_builds s_tests s_sessions s_apps s_overview].
  rewrite !ColumnFacts.pickColumns_length, !sort_length.
  split; [auto |].
  intros Hnone. unfold pickColumns at 1 2. rewrite Hnone.
  unfold createOverviewRows. cbn [app nth_error]. rewrite !sort_length.
  split; reflexivity.
Qed.

End AnyRemote.

Lemma main_without_access_key :
  exists message,
    main (H := Sample.platform) account keyless (fun text => text) 600
      Sample.defaults begin
    = (Threw message, begin)
    /\ includes message "BROWSERSTACK_USERNAME" = true
    /\ includes message "BROWSERSTACK_ACCESS_KEY" = true.
Proof.
  exact (proj2 (main_checks_before_requests (H := Sample.platform) account keyless
                  (fun text => text) 600 Sample.defaults begin)
           eq_refl eq_refl).
Defined.

Lemma sectionsOf_default_overview :
  List.nth_error
    (s_overview
       (sectionsOf (H := Sample.platform) Sample.defaults
          {| d_builds := []; d_tests := [[("test_status", JStr "passed")]];
             d_sessions := []; d_apps := [] |})) 1
  = Some (metricRow "total_tests" 1).
Proof.
  exact (proj1 (proj2 (sectionsOf_totals (H := Sample.platform) Sample.defaults
                         {| d_builds := []; d_tests := [[("test_status", JStr "passed")]];
                            d_sessions := []; d_apps := [] |})
                 eq_refl)).
Defined.

End MainFacts.

(** ** The rows fetched *)

Module RowFacts.
Import Config Hierarchy Remote Paging Fetching RowSpec.

Section AnyRemote.
Context `{Platform}.
Context {W : Type} (respond : W -> forall r : request, option (response r) * W).

(** Every row of the visit of a tree is a row of the build. *)
Lemma walk_rows (buildId : string) (buildName buildNumber : jsval) (includeHooks : bool)
    (rootDetails : list (string * jsval)) (rootName : string) :
  forall node parentPath,
    Forall
      (fun row =>
         exists path type name details,
           row = testRow buildId buildName buildNumber rootDetails rootName path type
                   name details)
      (walk buildId buildName buildNumber includeHooks rootDetails rootName node
         parentPath).
Proof.
  induction node as [d t det ch IH] using FlattenFacts.Node_rect'.
  intros parentPath. cbn [walk]. apply Forall_app. split.
  - destruct (qualifies _ _ _); repeat constructor. eauto.
  - destruct ch as [| | children]; try constructor. cbn [coalesce] in IH.
    apply Forall_concat, Forall_map.
    eapply Forall_impl; [exact IH |]. cbv beta. auto.
Qed.

Lemma pageRows_rows (config : ReportConfig) (buildId : string)
    (buildDetails : list (string * jsval)) (page : TestRunsResponse) :
  Forall (testRowOf buildId) (pageRows config buildId buildDetails page).
Proof.
  unfold pageRows. apply Forall_map. unfold flattenTestHierarchy.
  apply Forall_concat, Forall_map, List.Forall_forall. intros rootNode _.
  eapply Forall_impl; [apply walk_rows |]. cbv beta.
  intros row (path & type & name & details & ->). split; reflexivity.
Qed.

(** The loop over the pages of test runs adds rows of the build. *)
Lemma testRunPages_rows (config : ReportConfig) (buildId : string)
    (buildDetails : list (string * jsval)) :
  forall fuel tests nextPage pageCount (w : @World W) tests' w',
    testRunPages respond fuel config buildId buildDetails tests nextPage pageCount w
    = (Ok tests', w') ->
    exists added, tests' = (tests ++ added)%list /\ Forall (testRowOf buildId) added.
Proof.
  induction fuel as [| fuel IH]; intros tests nextPage pageCount w tests' w' Hrun;
    [discriminate |].
  cbn [testRunPages] in Hrun. unfold bind at 1 in Hrun.
  destruct (fetchJson respond _ w) as [[page | e |] w1]; try discriminate.
  match type of Hrun with
  | (if ?keep then _ else _) _ = _ => destruct keep
  end.
  - apply IH in Hrun as (added & -> & Hadded).
    exists (pageRows config buildId buildDetails page ++ added)%list.
    rewrite app_assoc. split; [reflexivity |].
    apply Forall_app. split; [apply pageRows_rows | exact Hadded].
  - injection Hrun as <- <-. eexists. split; [reflexivity | apply pageRows_rows].
Qed.

(** The loop over the builds adds a build row for each build, in order,
    and test rows of these builds. *)
Lemma builds_loop (fuel : nat) (config : ReportConfig) (buildIds : list string) :
  forall builds tests (w : @World W) builds' tests' w',
    forEach buildIds
      (fun '(builds, tests) buildId =>
         bind (fetchJson respond (GetBuildDetails buildId))
           (fun buildDetails =>
              let builds := (builds ++ [buildRow buildId buildDetails])%list in
              bind (testRunPages respond fuel config buildId buildDetails tests Undef 0)
                (fun tests => ret (builds, tests))))
      (builds, tests) w = (Ok (builds', tests'), w') ->
    exists newBuilds newTests,
      builds' = (builds ++ newBuilds)%list
      /\ tests' = (tests ++ newTests)%list
      /\ Forall2 buildRowOf buildIds newBuilds
      /\ Forall (fun row => exists buildId, In buildId buildIds /\ testRowOf buildId row)
           newTests.
Proof.
  induction buildIds as [| buildId rest IH]; intros builds tests w builds' tests' w' Hrun.
  - cbn in Hrun. injection Hrun as <- <- <-. exists [], [].
    rewrite !app_nil_r. repeat split; constructor.
  - cbn [forEach] in Hrun. unfold bind at 1 2 in Hrun.
    destruct (fetchJson respond (GetBuildDetails buildId) w) as [[details | e |] w1];
      try discriminate.
    unfold bind at 1 in Hrun.
    destruct (testRunPages respond fuel config buildId details tests Undef 0 w1)
      as [[tests1 | e |] w2] eqn:Hpages; try discriminate.
    apply testRunPages_rows in Hpages as (added & -> & Hadded).
    cbn [ret] in Hrun. apply IH in Hrun as (newBuilds & newTests & -> & -> & Hb & Ht).
    exists (buildRow buildId details :: newBuilds), (added ++ newTests)%list.
    rewrite <- !app_assoc. repeat split.
    + constructor; [repeat split | exact Hb].
    + apply Forall_app. split.
      * eapply Forall_impl; [exact Hadded |]. cbv beta. intros row Hrow.
        exists buildId. split; [left; reflexivity | exact Hrow].
      * eapply Forall_impl; [exact Ht |]. cbv beta. intros row (id & Hin & Hrow).
        exists id. split; [right; exact Hin | exact Hrow].
Qed.

(** X25.  With the source off or no build named, no request is sent and
    no row returned.  Otherwise, when the fetch succeeds, the builds
    section has one row for each build named, in the order configured, and
    every test row belongs to one of these builds; the rows of a section
    all have the same columns. *)
Theorem fetchTestReportingData_rows (fuel : nat) (config : ReportConfig)
    (w : @World W) :
  (tr_enabled (testReporting config) = false
   \/ testReportingBuildIds (inputs config) = [] ->
   fetchTestReportingData respond fuel config w = (Ok ([], []), w))
  /\ (forall builds tests w',
        fetchTestReportingData respond fuel config w = (Ok (builds, tests), w') ->
        tr_enabled (testReporting config) = true ->
        Forall2 buildRowOf (testReportingBuildIds (inputs config)) builds
        /\ Forall
             (fun row =>
                exists buildId,
                  In buildId (testReportingBuildIds (inputs config))
                  /\ testRowOf buildId row)
             tests).
Proof.
  unfold fetchTestReportingData. split.
  - intros [-> | ->]; [reflexivity |]. rewrite orb_true_r. reflexivity.
  - intros builds tests w' Hrun Hon. rewrite Hon in Hrun. cbn [negb orb] in Hrun.
    destruct (testReportingBuildIds (inputs config)) as [| buildId rest] eqn:Hids.
    + cbn in Hrun. injection Hrun as <- <- _. split; constructor.
    + change (Nat.eqb (length (buildId :: rest)) 0) with false in Hrun.
      apply builds_loop in Hrun as (newBuilds & newTests & -> & -> & Hb & Ht).
      split; assumption.
Qed.

(** *** The session rows *)

Lemma sessionItem_rows (buildId : string) (config : ReportConfig) (rows : list Row)
    (item : list (string * jsval)) (w : @World W) rows' w' :
  sessionItem respond buildId config rows item w = (Ok rows', w') ->
  exists row,
    rows' = (rows ++ [row])%list
    /\ sessionRowOf buildId row
    /\ (includeSessionDetails (appAutomate config) = false ->
        columnsOf row = sessionColumns).
Proof.
  unfold sessionItem.
  destruct (includeSessionDetails (appAutomate config) && truthy _) eqn:Hdetails.
  - unfold bind. destruct (fetchJson respond _ w) as [[details | e |] w1];
      try discriminate.
    intros Hrun. injection Hrun as <- <-. eexists. split; [reflexivity |]. split.
    + split; [right; reflexivity | split; reflexivity].
    + intros Hoff. rewrite Hoff in Hdetails. discriminate.
  - intros Hrun. injection Hrun as <- <-. eexists. split; [reflexivity |]. split.
    + split; [left; reflexivity | split; reflexivity].
    + reflexivity.
Qed.

Lemma sessionItems_rows (buildId : string) (config : ReportConfig)
    (response : list (list (string * jsval))) :
  forall rows (w : @World W) rows' w',
    forEach response (sessionItem respond buildId config) rows w = (Ok rows', w') ->
    exists added,
      rows' = (rows ++ added)%list
      /\ length added = length response
      /\ Forall (sessionRowOf buildId) added
      /\ (includeSessionDetails (appAutomate config) = false ->
          Forall (fun row => columnsOf row = sessionColumns) added).
Proof.
  induction response as [| item rest IH]; intros rows w rows' w' Hrun.
  - cbn in Hrun. injection Hrun as <- <-. exists []. rewrite app_nil_r.
    repeat split; constructor.
  - cbn [forEach] in Hrun. unfold bind at 1 in Hrun.
    destruct (sessionItem respond buildId config rows item w) as [[rows1 | e |] w1]
      eqn:Hitem; try discriminate.
    apply sessionItem_rows in Hitem as (row & -> & Hrow & Hplain).
    apply IH in Hrun as (added & -> & Hlen & Hadded & Hplains).
    exists (row :: added). rewrite <- app_assoc. cbn [app length].
    repeat split; [congruence | constructor; assumption |].
    intros Hoff. constructor; auto.
Qed.

Lemma sessionPages_rows (buildId : string) (config : ReportConfig) (limit : Z) :
  forall fuel rows offset (w : @World W) rows' w',
    sessionPages respond fuel buildId config limit rows offset w = (Ok rows', w') ->
    exists added,
      rows' = (rows ++ added)%list
      /\ Forall (sessionRowOf buildId) added
      /\ (includeSessionDetails (appAutomate config) = false ->
          Forall (fun row => columnsOf row = sessionColumns) added).
Proof.
  induction fuel as [| fuel IH]; intros rows offset w rows' w' Hrun; [discriminate |].
  cbn [sessionPages] in Hrun. unfold bind at 1 in Hrun.
  destruct (fetchJson respond _ w) as [[response | e |] w1]; try discriminate.
  unfold bind at 1 in Hrun.
  destruct (forEach response (sessionItem respond buildId config) rows w1)
    as [[rows1 | e |] w2] eqn:Hitems; try discriminate.
  apply sessionItems_rows in Hitems as (added & -> & _ & Hadded & Hplain).
  destruct (Z.eqb (Z.of_nat (length response)) limit).
  - apply IH in Hrun as (more & -> & Hmore & Hplains).
    exists (added ++ more)%list. rewrite app_assoc.
    repeat split; [apply Forall_app; auto |].
    intros Hoff. apply Forall_app. auto.
  - injection Hrun as <- <-. exists added. auto.
Qed.

(** The columns of the details are on the rows of the sessions whose
    details were fetched, and on no other row. *)
Lemma sessionItem_columns (buildId : string) (config : ReportConfig) (rows : list Row)
    (item : list (string * jsval)) (w : @World W) rows' w' :
  sessionItem respond buildId config rows item w = (Ok rows', w') ->
  exists row,
    rows' = (rows ++ [row])%list
    /\ columnsOf row = sessionColumnsOf (includeSessionDetails (appAutomate config)) row.
Proof.
  unfold sessionItem.
  destruct (includeSessionDetails (appAutomate config) && truthy _) eqn:Hdetails.
  - unfold bind. destruct (fetchJson respond _ w) as [[details | e |] w1];
      try discriminate.
    intros Hrun. injection Hrun as <- <-. eexists. split; [reflexivity |].
    unfold sessionColumnsOf.
    match goal with
    | |- _ = (if _ && truthy ?id then _ else _) =>
        change id with (orEmpty (member (nullish_or (prop_get item "automation_session")
                                           (JObj [])) "hashed_id"))
    end.
    rewrite Hdetails. reflexivity.
  - intros Hrun. injection Hrun as <- <-. eexists. split; [reflexivity |].
    unfold sessionColumnsOf.
    match goal with
    | |- _ = (if _ && truthy ?id then _ else _) =>
        change id with (orEmpty (member (nullish_or (prop_get item "automation_session")
                                           (JObj [])) "hashed_id"))
    end.
    rewrite Hdetails. reflexivity.
Qed.

Lemma sessionItems_columns (buildId : string) (config : ReportConfig)
    (response : list (list (string * jsval))) :
  forall rows (w : @World W) rows' w',
    forEach response (sessionItem respond buildId config) rows w = (Ok rows', w') ->
    exists added,
      rows' = (rows ++ added)%list
      /\ Forall
           (fun row =>
              columnsOf row
              = sessionColumnsOf (includeSessionDetails (appAutomate config)) row)
           added.
Proof.
  induction response as [| item rest IH]; intros rows w rows' w' Hrun.
  - cbn in Hrun. injection Hrun as <- <-. exists []. rewrite app_nil_r.
    split; constructor.
  - cbn [forEach] in Hrun. unfold bind at 1 in Hrun.
    destruct (sessionItem respond buildId config rows item w) as [[rows1 | e |] w1]
      eqn:Hitem; try discriminate.
    apply sessionItem_columns in Hitem as (row & -> & Hrow).
    apply IH in Hrun as (added & -> & Hadded).
    exists (row :: added). rewrite <- app_assoc. split; [reflexivity |].
    constructor; assumption.
Qed.

Lemma sessionPages_columns (buildId : string) (config : ReportConfig) (limit : Z) :
  forall fuel rows offset (w : @World W) rows' w',
    sessionPages respond fuel buildId config limit rows offset w = (Ok rows', w') ->
    exists added,
      rows' = (rows ++ added)%list
      /\ Forall
           (fun row =>
              columnsOf row
              = sessionColumnsOf (includeSessionDetails (appAutomate config)) row)
           added.
Proof.
  induction fuel as [| fuel IH]; intros rows offset w rows' w' Hrun; [discriminate |].
  cbn [sessionPages] in Hrun. unfold bind at 1 in Hrun.
  destruct (fetchJson respond _ w) as [[response | e |] w1]; try discriminate.
  unfold bind at 1 in Hrun.
  destruct (forEach response (sessionItem respond buildId config) rows w1)
    as [[rows1 | e |] w2] eqn:Hitems; try discriminate.
  apply sessionItems_columns in Hitems as (added & -> & Hadded).
  destruct (Z.eqb (Z.of_nat (length response)) limit).
  - apply IH in Hrun as (more & -> & Hmore).
    exists (added ++ more)%list. rewrite app_assoc.
    split; [reflexivity | apply Forall_app; auto].
  - injection Hrun as <- <-. exists added. auto.
Qed.

(** X26.  When the listing of the sessions of a build succeeds, every row
    is a row of that build and of the device-automation source.  A row has
    the columns of the listing, followed by the columns of the details
    exactly when the details were fetched for it: when they are asked for
    and the session has an identifier.  Without the details all rows have
    the same columns. *)
Theorem fetchAppAutomateSessionsForBuild_rows (fuel : nat) (buildId : string)
    (config : ReportConfig) (w : @World W) (rows : list Row) (w' : @World W) :
  fetchAppAutomateSessionsForBuild respond fuel buildId config w = (Ok rows, w') ->
  Forall (sessionRowOf buildId) rows
  /\ Forall
       (fun row =>
          columnsOf row = sessionColumnsOf (includeSessionDetails (appAutomate config)) row)
       rows
  /\ (includeSessionDetails (appAutomate config) = false ->
      Forall (fun row => columnsOf row = sessionColumns) rows).
Proof.
  unfold fetchAppAutomateSessionsForBuild. intros Hrun.
  pose proof (sessionPages_columns _ _ _ _ _ _ _ _ _ Hrun) as (listed & Hlisted & Hcolumns).
  apply sessionPages_rows in Hrun as (added & Hrows & Hadded & Hplain).
  cbn [app] in Hlisted, Hrows. subst listed added.
  split; [assumption |]. split; assumption.
Qed.

End AnyRemote.

Lemma sessions25_rows :
  Forall
    (fun row =>
       sessionRowOf "aa-1" row
       /\ columnsOf row
          = sessionColumnsOf (Config.includeSessionDetails (Config.appAutomate Sample.defaults))
              row)
    (match fst (fetchAppAutomateSessionsForBuild (H := Sample.platform)
                  (SessionSpec.honest SessionSpec.sessions25 SessionSpec.noDetails) 5
                  "aa-1" Sample.defaults Sample.start) with
     | Ok rows => rows
     | _ => []
     end).
Proof.
  destruct (fetchAppAutomateSessionsForBuild (H := Sample.platform)
              (SessionSpec.honest SessionSpec.sessions25 SessionSpec.noDetails) 5
              "aa-1" Sample.defaults Sample.start) as [[rows | e |] w'] eqn:Hrun;
    try (vm_compute in Hrun; discriminate).
  pose proof (fetchAppAutomateSessionsForBuild_rows (H := Sample.platform) _ 5 "aa-1"
                Sample.defaults Sample.start rows w' Hrun) as (Hrows & Hcolumns & _).
  cbn [fst]. apply List.Forall_and; assumption.
Defined.

Lemma fetchTestReportingData_first_page :
  Forall2 buildRowOf ["b1"]
    (fst (match fst (fetchTestReportingData (H := Sample.platform) PaginationSpec.cyclic 5
                       PaginationSpec.firstPageOnly Sample.start) with
          | Ok rows => rows
          | _ => ([], [])
          end)).
Proof.
  destruct (fetchTestReportingData (H := Sample.platform) PaginationSpec.cyclic 5
              PaginationSpec.firstPageOnly Sample.start) as [[[builds tests] | e |] w']
    eqn:Hrun; try (vm_compute in Hrun; discriminate).
  exact (proj1 (proj2 (fetchTestReportingData_rows (H := Sample.platform)
                         PaginationSpec.cyclic 5 PaginationSpec.firstPageOnly
                         Sample.start) builds tests w' Hrun eq_refl)).
Defined.

End RowFacts.

(** ** Tables that are read back *)

Module TableFacts.
Import Csv CsvSpec TableSpec.

Lemma csvEscape_text (value : jsval) : csvEscape value = csvEscape (JStr (textOf value)).
Proof. destruct value; reflexivity. Qed.















End TableFacts.

(** ** The rows of the device-automation source *)

Module DataFacts.
Import Config Remote Fetching Sources Pipeline RowSpec SourcesSpec.

Section AnyRemote.
Context `{Platform}.
Context {W : Type}
  (respond : W -> forall r : Sources.request, option (Sources.response r) * W).

(** A computation run through [lift] ends as it does on its own. *)
Lemma lift_result {A} (m : Remote.M A) (w : @Sources.World W) (a : A) w' :
  lift m w = (Ok a, w') ->
  exists w0, m {| Remote.remote := Sources.remote w; Remote.log := [] |} = (Ok a, w0).
Proof.
  unfold lift. destruct (m _) as [outcome w0]. intros Hrun.
  injection Hrun as -> _. eauto.
Qed.

(** The loop over the builds adds session rows of these builds. *)
Lemma sessions_loop (fuel : nat) (config : ReportConfig) (buildIds : list string) :
  forall sessions (w : @Sources.World W) sessions' w',
    forEach buildIds
      (fun sessions buildId =>
         Sources.bind
           (lift (fetchAppAutomateSessionsForBuild (listed respond) fuel buildId config))
           (fun perBuildSessions => Sources.ret (sessions ++ perBuildSessions)%list))
      sessions w = (Ok sessions', w') ->
    exists added,
      sessions' = (sessions ++ added)%list
      /\ Forall (fun row => exists buildId, In buildId buildIds /\ sessionRowOf buildId row)
           added.
Proof.
  induction buildIds as [| buildId rest IH]; intros sessions w sessions' w' Hrun.
  - cbn in Hrun. injection Hrun as <- <-. exists []. rewrite app_nil_r.
    split; [reflexivity | constructor].
  - cbn [forEach] in Hrun. unfold Sources.bind at 1 2 in Hrun.
    destruct (lift _ w) as [[perBuild | e |] w1] eqn:Hbuild; try discriminate.
    apply lift_result in Hbuild as (w0 & Hbuild).
    unfold fetchAppAutomateSessionsForBuild in Hbuild.
    apply RowFacts.sessionPages_rows in Hbuild as (rows & -> & Hrows & _).
    cbn [Sources.ret] in Hrun. apply IH in Hrun as (added & -> & Hadded).
    exists (rows ++ added)%list. rewrite <- app_assoc. split; [reflexivity |].
    apply Forall_app. split.
    + eapply Forall_impl; [exact Hrows |]. cbv beta. intros row Hrow.
      exists buildId. split; [left; reflexivity | exact Hrow].
    + eapply Forall_impl; [exact Hadded |]. cbv beta. intros row (id & Hin & Hrow).
      exists id. split; [right; exact Hin | exact Hrow].
Qed.

(** X28.  With the device-automation source off nothing is asked for and
    nothing returned.  Otherwise, when the fetch succeeds, every session
    row belongs to one of the builds named in the configuration. *)
Theorem fetchAppAutomateData_rows (fuel : nat) (config : ReportConfig)
    (w : @Sources.World W) :
  (aa_enabled (appAutomate config) = false ->
   fetchAppAutomateData respond fuel config w = (Ok ([], []), w))
  /\ (forall sessions apps w',
        fetchAppAutomateData respond fuel config w = (Ok (sessions, apps), w') ->
        aa_enabled (appAutomate config) = true ->
        Forall
          (fun row =>
             exists buildId,
               In buildId (appAutomateBuildIds (inputs config))
               /\ sessionRowOf buildId row)
          sessions).
Proof.
  unfold fetchAppAutomateData. split.
  - intros ->. reflexivity.
  - intros sessions apps w' Hrun Hon. rewrite Hon in Hrun. cbn [negb] in Hrun.
    unfold Sources.bind at 1 in Hrun.
    destruct (forEach _ _ [] w) as [[rows | e |] w1] eqn:Hloop; try discriminate.
    apply sessions_loop in Hloop as (added & -> & Hadded).
    unfold Sources.bind at 1 in Hrun.
    destruct (fetchAppAutomateApps respond config w1) as [[appRows | e |] w2];
      try discriminate.
    injection Hrun as <- _ _. exact Hadded.
Qed.

End AnyRemote.

Lemma fetchAppAutomateData_switched_off :
  fetchAppAutomateData (H := Sample.platform) account 600 withoutDevices begin
  = (Ok ([], []), begin).
Proof.
  exact (proj1 (fetchAppAutomateData_rows (H := Sample.platform) account 600
                  withoutDevices begin) eq_refl).
Defined.

End DataFacts.

(** ** Placeholders *)

Module PlaceholderFacts.
Import Validation.

Lemma is_space_lower (c : ascii) : is_space (lower c) = is_space c.
Proof. destruct c as [[] [] [] [] [] [] [] []]; reflexivity. Qed.

Lemma trimStart_toLowerCase (s : string) :
  trimStart (toLowerCase s) = toLowerCase (trimStart s).
Proof.
  induction s as [| c s IH]; [reflexivity |].
  cbn [toLowerCase trimStart]. rewrite is_space_lower.
  destruct (is_space c); [exact IH | reflexivity].
Qed.

Lemma trimEnd_toLowerCase (s : string) :
  trimEnd (toLowerCase s) = toLowerCase (trimEnd s).
Proof.
  induction s as [| c s IH]; [reflexivity |].
  cbn [toLowerCase trimEnd]. rewrite IH, is_space_lower.
  destruct (trimEnd s); cbn [toLowerCase]; [destruct (is_space c) |]; reflexivity.
Qed.

Lemma trim_toLowerCase (s : string) : trim (toLowerCase s) = toLowerCase (trim s).
Proof. unfold trim. rewrite trimStart_toLowerCase, trimEnd_toLowerCase. reflexivity. Qed.

(** X29.  Whether a value is a placeholder depends neither on the blanks
    around it nor on the case of its letters, and a value of blanks only
    is one. *)
Theorem isPlaceholderValue_normalizes (value : string) :
  isPlaceholderValue (trim value) = isPlaceholderValue value
  /\ isPlaceholderValue (toLowerCase value) = isPlaceholderValue value
  /\ (trim value = "" -> isPlaceholderValue value = true).
Proof.
  split; [apply FilterFacts.isPlaceholderValue_trim |]. split.
  - unfold isPlaceholderValue.
    rewrite trim_toLowerCase, FilterFacts.toLowerCase_idempotent. reflexivity.
  - intros Hblank. unfold isPlaceholderValue. rewrite Hblank. reflexivity.
Qed.

Lemma isPlaceholderValue_of_blanks : isPlaceholderValue "   " = true.
Proof. exact (proj2 (proj2 (isPlaceholderValue_normalizes "   ")) eq_refl). Defined.

End PlaceholderFacts.

(** ** What the discovery returns *)

Module DiscoveryResults.
Import Config Remote Paging.

Section AnyRemote.
Context `{Platform}.
Context {W : Type} (respond : W -> forall r : request, option (response r) * W).

(** X30.  The discovery returns every identifier once: the identifiers of
    the projects are finite numbers, those of the builds are not empty. *)
Theorem discovery_returns_each_once (fuel : nat) (config : ReportConfig)
    (w : @World W) :
  (forall projectIds w',
      discoverTestReportingProjectIds respond fuel w = (Ok projectIds, w') ->
      List.NoDup projectIds /\ Forall (fun n => isFinite n = true) projectIds)
  /\ (forall buildIds w',
        discoverTestReportingBuildIds respond fuel config w = (Ok buildIds, w') ->
        List.NoDup buildIds /\ ~ In "" buildIds).
Proof.
  split.
  - intros projectIds w'. unfold discoverTestReportingProjectIds, bind.
    destruct (projectPages respond fuel [] "" 0 ∅ w) as [[ids | e |] w1];
      try discriminate.
    intros Hrun. injection Hrun as <- _. apply UniqueFacts.uniqueNumbers_distinct.
  - intros buildIds w'. unfold discoverTestReportingBuildIds. unfold bind at 1.
    match goal with
    | |- context [match ?m w with _ => _ end] =>
        destruct (m w) as [[projectIds | e |] w1]
    end; try discriminate.
    destruct (Nat.eqb (length projectIds) 0).
    + intros Hrun. injection Hrun as <- _. split; [constructor | intros []].
    + unfold bind.
      match goal with
      | |- context [match ?m w1 with _ => _ end] =>
          destruct (m w1) as [[discoveredIds | e |] w2]
      end; try discriminate.
      intros Hrun. injection Hrun as <- _. apply UniqueFacts.uniqueNonEmpty_distinct.
Qed.

End AnyRemote.

Lemma discovery_against_cycle :
  List.NoDup [NFin 1; NFin 2; NFin 3]
  /\ Forall (fun n => isFinite n = true) [NFin 1; NFin 2; NFin 3].
Proof.
  exact (proj1 (discovery_returns_each_once (H := Sample.platform) PaginationSpec.cyclic
                  200 Sample.defaults Sample.start)
           [NFin 1; NFin 2; NFin 3]
           {| remote := tt;
              log := [GetProjects ""; GetProjects "A"; GetProjects "B"] |}
           ltac:(vm_compute; reflexivity)).
Defined.

End DiscoveryResults.
